(** * issue-1-client-js: the request layer and its resource clients

    A shallow embedding of [src/lib/utilites.js], [src/lib/feed.js] and of
    the user client (the third source file), with the properties of the
    specification stated over it.

    JavaScript objects are mutable and compared by identity, so the
    embedding keeps a heap of objects and values that refer into it.  A
    function of the program becomes a computation over the heap that
    finishes with a value, raises a value, or stays pending (an [await]
    on something that never settles).  The HTTP transport ([axios]), the
    multipart encoder ([form-data]) and the platform's [JSON.stringify]
    are not part of the repository: they are the fields of the class
    [Env]. *)

From Stdlib Require Import ZArith NArith Ascii String List DecimalString.
From Stdlib.Strings Require Import Byte.
From stdpp Require Import gmap strings list fin_maps.

Local Open Scope Z_scope.

(** ** Strings

    A JavaScript string is a sequence of UTF-16 code units.  Property
    names are the identifiers of the source and stay Rocq strings. *)

Definition jstr : Type := list N.

Definition lit (s : string) : jstr :=
  List.map N_of_ascii (list_ascii_of_string s).

(** The class [\s] of a regular expression without the [u] flag: the
    WhiteSpace and LineTerminator code points of ECMAScript. *)
Definition is_ws (c : N) : bool :=
  (   (9 <=? c) && (c <=? 13)            (* TAB LF VT FF CR *)
   || (c =? 32) || (c =? 160)            (* SP, NBSP *)
   || (c =? 5760)                        (* U+1680 *)
   || (8192 <=? c) && (c <=? 8202)       (* U+2000 .. U+200A *)
   || (c =? 8232) || (c =? 8233)         (* LS, PS *)
   || (c =? 8239) || (c =? 8287)         (* U+202F, U+205F *)
   || (c =? 12288) || (c =? 65279))%N.   (* U+3000, U+FEFF *)

(** [s.split(/\s/)]: the pieces between the matches of [\s].  A match is
    one code unit long, so every white-space unit ends a piece (an empty
    one as well) and the remainder is the last piece. *)
Fixpoint split_from (cur s : jstr) : list jstr :=
  match s with
  | [] => [cur]
  | c :: s' =>
      if is_ws c then cur :: split_from [] s'
      else split_from (cur ++ [c]) s'
  end.

Definition split_ws (s : jstr) : list jstr := split_from [] s.

Definition has_ws (s : jstr) : bool := existsb is_ws s.

(** ** Values, objects and the heap *)

(** A location of the heap. *)
Abbreviation loc := nat (only parsing).

Inductive value : Type :=
| VUndef
| VNull
| VBool (b : bool)
| VNum (n : Z)                 (* the numbers of this program are integers *)
| VStr (s : jstr)
| VRef (l : loc).

#[global] Instance value_eq_dec : EqDecision value.
Proof. solve_decision. Defined.

(** A string literal of the source, as a value. *)
Definition str (s : string) : value := VStr (lit s).

(** One part of a multipart form: [append(field, content, options)]. *)
Record form_entry : Type := FormEntry {
  fe_field : string;
  fe_content : value;
  fe_options : value;
}.

(** What [instanceof] sees of an object, with the payload of the host
    objects the program handles.  A readable stream is the events it has
    still to emit: its chunks, then [end] when [ends] holds. *)
Inductive kind : Type :=
| KPlain
| KError (message : jstr)                  (* Error(message) *)
| KTypeError                               (* raised by the runtime *)
| KDOMException (name : jstr)
| KBuffer (bytes : list byte)
| KReadable (chunks : list (list byte)) (ends : bool)
| KBlob (bytes : list byte)
| KFormData (entries : list form_entry)    (* the browser's FormData *)
| KFormDataNode (entries : list form_entry)(* form-data, on the server *)
.

(** [props] are the own enumerable properties; what an object inherits
    or holds in internal slots is read off its kind by [field]. *)
Record object : Type := Obj {
  o_kind : kind;
  props : gmap string value;
}.

Definition plain (fields : list (string * value)) : object :=
  Obj KPlain (list_to_map fields).

(** A request as the transport receives it: the URL, the configuration
    object and the heap in which the configuration is read. *)
Definition request : Type := value * value * list object.

Record world : Type := World {
  heap : list object;
  sent : list request;
}.

(** ** Computations *)

Inductive outcome (A : Type) : Type :=
| Done (a : A)
| Raised (e : value)
| Pending.
Arguments Done {A} a.
Arguments Raised {A} e.
Arguments Pending {A}.

Definition M (A : Type) : Type := world -> outcome A * world.

Definition ret {A} (a : A) : M A := fun w => (Done a, w).

Definition bind {A B} (m : M A) (k : A -> M B) : M B := fun w =>
  match m w with
  | (Done a, w') => k a w'
  | (Raised e, w') => (Raised e, w')
  | (Pending, w') => (Pending, w')
  end.

Definition throw {A} (e : value) : M A := fun w => (Raised e, w).

(** [try { body } catch (error) { handler }]. *)
Definition try_catch {A} (body : M A) (handler : value -> M A) : M A := fun w =>
  match body w with
  | (Raised e, w') => handler e w'
  | r => r
  end.

Declare Scope js_scope.
Delimit Scope js_scope with js.
Notation "x <- m ;; k" := (bind m (fun x => k))
  (at level 100, m at next level, right associativity) : js_scope.
Notation "m ;;; k" := (bind m (fun _ => k))
  (at level 100, right associativity) : js_scope.
Local Open Scope js_scope.

(** Allocation: a new object takes the next free location.  The order
    in which the objects of one literal are allocated cannot be
    observed by the program; nested literals are allocated first. *)
Definition alloc (o : object) : M value := fun w =>
  (Done (VRef (length (heap w))), World (heap w ++ [o]) (sent w)).

Definition new_object (fields : list (string * value)) : M value :=
  alloc (plain fields).

(** [Error(message)] and the [TypeError] of the runtime. *)
Definition new_Error (message : string) : M value :=
  alloc (Obj (KError (lit message)) ∅).

Definition type_error {A} : M A :=
  e <- alloc (Obj KTypeError ∅) ;; throw e.

(** [!!v]. *)
Definition truthy (v : value) : bool :=
  match v with
  | VUndef | VNull => false
  | VBool b => b
  | VNum n => negb (n =? 0)
  | VStr s => match s with [] => false | _ => true end
  | VRef _ => true
  end.

(** [a || b] *)
Definition js_or (a b : value) : value := if truthy a then a else b.

(** [a === b] *)
Definition strict_eq (a b : value) : bool := bool_decide (a = b).

Definition num_of_nat (n : nat) : value := VNum (Z.of_nat n).

(** The value of [o.key]: an own property, or what the kind provides. *)
Definition field (o : object) (key : string) : value :=
  match props o !! key with
  | Some v => v
  | None =>
      match o_kind o with
      | KError m =>
          if String.eqb key "message" then VStr m
          else if String.eqb key "name" then str "Error" else VUndef
      | KTypeError =>
          if String.eqb key "name" then str "TypeError" else VUndef
      | KDOMException n =>
          if String.eqb key "name" then VStr n else VUndef
      | KBuffer b =>
          if String.eqb key "length" then num_of_nat (length b) else VUndef
      | KBlob b =>
          if String.eqb key "size" then num_of_nat (length b) else VUndef
      | _ => VUndef
      end
  end.

(** [v.key].  Reading a property of [undefined] or [null] raises a
    [TypeError]; the keys this program reads are no properties of a
    string, number or boolean, where the result is [undefined].  (A
    reference always points into the heap; the last case of the inner
    [match] only makes the function total.) *)
Definition get_prop (v : value) (key : string) : M value := fun w =>
  match v with
  | VUndef | VNull => type_error w
  | VRef l =>
      match heap w !! l with
      | Some o => (Done (field o key), w)
      | None => type_error w
      end
  | _ => (Done VUndef, w)
  end.

(** [v.key = x] in strict mode: a [TypeError] unless [v] is an object. *)
Definition set_prop (v : value) (key : string) (x : value) : M unit := fun w =>
  match v with
  | VRef l =>
      match heap w !! l with
      | Some o =>
          (Done tt,
           World (<[l := Obj (o_kind o) (<[key := x]> (props o))]> (heap w)) (sent w))
      | None => type_error w
      end
  | _ => type_error w
  end.

(** [{...v}]: the own enumerable properties of an object, the indexed
    units of a string, nothing for the other values. *)
Definition index_key (i : nat) : string := NilEmpty.string_of_uint (Nat.to_uint i).

Definition spread (v : value) (h : list object) : gmap string value :=
  match v with
  | VRef l => match h !! l with Some o => props o | None => ∅ end
  | VStr s => list_to_map (imap (fun i c => (index_key i, VStr [c])) s)
  | _ => ∅
  end.

(** The string a template literal or a [+] with a string makes of a
    value.  Integers print in decimal (as JavaScript prints those below
    10^21); an object prints as a plain object does. *)
Definition to_str (v : value) : jstr :=
  match v with
  | VUndef => lit "undefined"
  | VNull => lit "null"
  | VBool true => lit "true"
  | VBool false => lit "false"
  | VNum n => lit (NilEmpty.string_of_int (Z.to_int n))
  | VStr s => s
  | VRef _ => lit "[object Object]"
  end.

(** [a + b]: the program adds two numbers or appends to a string. *)
Definition js_plus (a b : value) : value :=
  match a, b with
  | VNum x, VNum y => VNum (x + y)
  | _, _ => VStr (to_str a ++ to_str b)
  end.

(** A parameter default: [param = init] evaluates [init] when the
    argument is [undefined]. *)
Definition default_param (arg : value) (init : M value) : M value :=
  match arg with
  | VUndef => init
  | _ => ret arg
  end.

(** ** [attachAuthTokenToHeader] (utilites.js) *)

Definition attachAuthTokenToHeader (authToken headers : value) : M value :=
  headers <- default_param headers (new_object []) ;;
  if negb (truthy authToken) then ret VUndef
  else
    match authToken with
    | VStr s =>
        if (1 <? length (split_ws s))%nat then
          e <- new_Error "Invalid authToken" ;; throw e
        else
          set_prop headers "Authorization" (js_plus (str "Bearer ") authToken) ;;;
          ret headers
    | _ => type_error          (* authToken.split is not a function *)
    end.

(** ** [generateQueryParams] (utilites.js)

    The argument object is destructured on entry: it is the record of
    the six properties read, [VUndef] for one that is missing. *)
Record query_options : Type := QueryOptions {
  pattern : value;
  limit : value;
  offset : value;
  sortingOrder : value;
  sortParameter : value;
  onlyIds : value;
}.

Definition when (c : bool) (m : M unit) : M unit := if c then m else ret tt.

Definition generateQueryParams (o : query_options) : M value :=
  params <- new_object [] ;;
  params <- (if truthy (js_or (limit o) (offset o)) then
               fun w => alloc (Obj KPlain
                                 (spread params (heap w)
                                  ∪ {[ "limit" := limit o; "offset" := offset o ]})) w
             else ret params) ;;
  when (truthy (sortParameter o))
    (set_prop params "sort" (VStr (to_str (sortParameter o))) ;;;
     when (truthy (sortingOrder o))
       (cur <- get_prop params "sort" ;;
        set_prop params "sort"
          (js_plus cur (VStr (lit "_" ++ to_str (sortingOrder o)))))) ;;;
  when (truthy (pattern o)) (set_prop params "pattern" (pattern o)) ;;;
  when (truthy (onlyIds o)) (set_prop params "onlyPKeys" (VBool true)) ;;;
  ret params.

(** ** The environment

    [axios(URL, config)] and [error.toJSON()] belong to the transport;
    they read and extend the heap and settle with a value, reject with
    one, or never settle.  [getBuffer] and [getHeaders] are the encoder
    of [form-data] (the boundary it draws is part of the environment),
    [JSON_stringify] is the platform's. *)
Class Env : Type := {
  isNode : bool;
  axios : value -> value -> list object -> outcome value * list object;
  toJSON : value -> list object -> outcome value * list object;
  JSON_stringify : value -> list object -> value;
  getBuffer : list form_entry -> list object -> list byte;
  getHeaders : list form_entry -> gmap string value;
}.

(** [const CONNECTION_ERROR = Error(..)]: allocated once, when the
    module is loaded, in the heap every call then starts from. *)
Definition CONNECTION_ERROR : loc := 0%nat.

Definition connection_error_object : object :=
  Obj (KError (lit "issue1.REST.client: connection could not be made with issue1 REST")) ∅.

Definition module_init : world := World [connection_error_object] [].

(** ** [makeRequest] (utilites.js) *)

Record request_config : Type := RequestConfig {
  rc_method : value;
  rc_responseType : value;
  rc_headers : value;
  rc_data : value;
  rc_params : value;
  rc_transformRequest : value;
}.

(** The argument [{}] and an argument left out. *)
Definition no_config : request_config :=
  RequestConfig VUndef VUndef VUndef VUndef VUndef VUndef.

Definition or_default (v d : value) : value :=
  match v with VUndef => d | _ => v end.

(** [let config = { method, headers: {...headers}, url: URL, .. }] *)
Definition make_config (URL : value) (rc : request_config) : M value :=
  headers <- (fun w => alloc (Obj KPlain (spread (rc_headers rc) (heap w))) w) ;;
  new_object
    [ ("method", or_default (rc_method rc) (str "get"));
      ("headers", headers);
      ("url", URL);
      ("responseType", or_default (rc_responseType rc) (str "json"));
      ("data", rc_data rc);
      ("params", rc_params rc);
      ("transformRequest", rc_transformRequest rc) ].

(** [await axios(URL, config)]: the request is recorded as issued. *)
Definition await_axios `{Env} (URL config : value) : M value := fun w =>
  let (o, h) := axios URL config (heap w) in
  (o, World h (sent w ++ [(URL, config, heap w)])).

Definition call_toJSON `{Env} (error : value) : M value := fun w =>
  let (o, h) := toJSON error (heap w) in (o, World h (sent w)).

(** [error instanceof DOMException], where the global [DOMException] is
    defined, as the source takes it to be. *)
Definition instanceof_DOMException (v : value) : M bool := fun w =>
  (Done match v with
        | VRef l =>
            match o_kind <$> heap w !! l with
            | Some (KDOMException _) => true
            | _ => false
            end
        | _ => false
        end, w).

(** The branches of the [catch] block that set [description] and
    [response], or raise. *)
Definition classify (error : value) : M (jstr * value) :=
  eresponse <- get_prop error "response" ;;
  if truthy eresponse then
    data <- get_prop eresponse "data" ;;
    (if truthy data then
       status <- get_prop data "status" ;;
       if truthy status then
         code <- get_prop eresponse "status" ;;
         set_prop data "errorCode" code ;;;
         throw data
       else ret tt
     else ret tt) ;;;
    status <- get_prop eresponse "status" ;;
    statusText <- get_prop eresponse "statusText" ;;
    headers <- get_prop eresponse "headers" ;;
    data <- get_prop eresponse "data" ;;
    response <- new_object
      [ ("status", status); ("statusText", statusText);
        ("headers", headers); ("data", data) ] ;;
    ret (lit "there was a response; ", response)
  else
    erequest <- get_prop error "request" ;;
    if truthy erequest then
      code <- get_prop error "code" ;;
      if strict_eq code (str "ENOTFOUND") then
        throw (VRef CONNECTION_ERROR)
      else ret (lit "no response was received; ", VUndef)
    else ret (lit "setting up request failed; ", VUndef).

(** The end of the [catch] block: the custom error picked out of
    [error.toJSON()]. *)
Definition custom_error `{Env} (error : value) (description : jstr)
    (response : value) : M value :=
  json <- call_toJSON error ;;
  message <- get_prop json "message" ;;
  name <- get_prop json "name" ;;
  axiosDescription <- get_prop json "nativeDescription" ;;
  number <- get_prop json "number" ;;
  code <- get_prop json "code" ;;
  config <- get_prop json "config" ;;
  url <- get_prop config "url" ;;
  timeout <- get_prop config "timeout" ;;
  requestHeaders <- get_prop config "headers" ;;
  requestData <- get_prop config "data" ;;
  requestMethod <- get_prop config "method" ;;
  expectedType <- get_prop config "responseType" ;;
  let description :=
    if truthy axiosDescription
    then js_plus (VStr description) axiosDescription
    else VStr description in
  request <- new_object
    [ ("url", url); ("method", requestMethod); ("headers", requestHeaders);
      ("data", requestData); ("timeout", timeout);
      ("responseType", expectedType) ] ;;
  e <- new_object
    [ ("message", message); ("name", name); ("description", description);
      ("response", response); ("request", request);
      ("number", number); ("code", code) ] ;;
  throw e.

Definition on_error `{Env} (error : value) : M value :=
  status <- get_prop error "status" ;;
  if strict_eq status (str "fail") then throw error
  else
    dom <- instanceof_DOMException error ;;
    if (dom : bool) then
      name <- get_prop error "name" ;;
      if strict_eq name (str "SyntaxError") then
        e <- new_Error "Invalid input: unable to parse input." ;; throw e
      else
        newError <- new_Error "unexpected exception: DOMException thrown by axios. Attached to this error object under property {domException}" ;;
        set_prop newError "domException" error ;;;
        throw newError
    else
      dr <- classify error ;;
      custom_error error (fst dr) (snd dr).

(** The [try] block after the [await]: a body tagged ["fail"] is thrown,
    any other body is returned. *)
Definition on_response (response : value) : M value :=
  data <- get_prop response "data" ;;
  status <- get_prop data "status" ;;
  if strict_eq status (str "fail") then throw data else ret data.

Definition makeRequest `{Env} (URL : value) (rc : request_config) : M value :=
  config <- make_config URL rc ;;
  try_catch
    (response <- await_axios URL config ;; on_response response)
    on_error.

(** The request [makeRequest] issues from the world [w]. *)
Definition issued (URL : value) (rc : request_config) (w : world) : request :=
  let r := make_config URL rc w in
  (URL, match fst r with Done c => c | _ => VUndef end, heap (snd r)).

Definition transport `{Env} (r : request) : outcome value * list object :=
  axios (fst (fst r)) (snd (fst r)) (snd r).

(** ** [attachImageToRequest] (utilites.js) *)

Record image_config : Type := ImageConfig {
  ic_headers : value;
  ic_otherData : value;
  ic_imageName : value;
}.

(** An [await] on a promise that does not settle. *)
Definition pending {A} : M A := fun w => (Pending, w).

(** What [instanceof] tests of [v]. *)
Definition kind_of (v : value) : M (option kind) := fun w =>
  (Done match v with VRef l => o_kind <$> heap w !! l | _ => None end, w).

(** A host object changes its internal state: a form takes an entry, a
    stream has emitted its events. *)
Definition set_kind (v : value) (k : kind) : M unit := fun w =>
  match v with
  | VRef l =>
      (Done tt,
       World (alter (fun o => Obj k (props o)) l (heap w)) (sent w))
  | _ => (Done tt, w)
  end.

(** [formData.append(field, content, options)] *)
Definition form_append (formData : value) (e : form_entry) : M unit :=
  k <- kind_of formData ;;
  match k with
  | Some (KFormDataNode es) => set_kind formData (KFormDataNode (es ++ [e]))
  | Some (KFormData es) => set_kind formData (KFormData (es ++ [e]))
  | _ => type_error
  end.

Definition appendDataToFormData (imageName formData data knownLength : value)
  : M unit :=
  header <- new_object [("Content-Transfer-Encoding", str "binary")] ;;
  options <- new_object
    [ ("knownLength", knownLength); ("contentType", str "image/*");
      ("filename", imageName); ("header", header) ] ;;
  form_append formData (FormEntry "image" data options).

(** The bytes of a [Buffer]. *)
Definition bytes_of (v : value) (h : list object) : list byte :=
  match v with
  | VRef l => match o_kind <$> h !! l with Some (KBuffer b) => b | _ => [] end
  | _ => []
  end.

(** A buffer of exactly [n] bytes: cut, or filled up with zeros. *)
Definition fit_length (n : nat) (bs : list byte) : list byte :=
  take n bs ++ replicate (n - length bs) x00.

(** [Buffer.concat([a, b], totalLength)] *)
Definition Buffer_concat (a b totalLength : value) : M value := fun w =>
  let all := bytes_of a (heap w) ++ bytes_of b (heap w) in
  let n := match totalLength with VNum n => Z.to_nat n | _ => length all end in
  alloc (Obj (KBuffer (fit_length n all)) ∅) w.

(** The ['data'] listener, run on each chunk the stream emits. *)
Fixpoint on_data (chunks : list (list byte)) (buffer : value) : M value :=
  match chunks with
  | [] => ret buffer
  | c :: rest =>
      chunk <- alloc (Obj (KBuffer c) ∅) ;;
      clen <- get_prop chunk "length" ;;
      blen <- get_prop buffer "length" ;;
      buffer <- Buffer_concat buffer chunk (js_plus clen blen) ;;
      on_data rest buffer
  end.

(** [await new Promise(resolve => ..)]: the stream emits what it has,
    and the promise settles only on its ['end']. *)
Definition drain (imageData : value) (chunks : list (list byte)) (ends : bool)
    (buffer : value) : M value :=
  set_kind imageData (KReadable [] false) ;;;
  buffer <- on_data chunks buffer ;;
  if ends then ret buffer else pending.

(** The message of the template literal at the [FormData] check: a
    line break and the indentation of the source are part of it. *)
Definition no_image_message : string :=
  "Instance of FormData provided as image data  "
  ++ String "010" "                            but no item present under the key 'image'".

Definition has_field (name : string) (es : list form_entry) : bool :=
  existsb (fun e => String.eqb (fe_field e) name) es.

Definition attachImageToRequest `{Env} (imageData : value) (c : image_config)
  : M value :=
  headers <- default_param (ic_headers c) (new_object []) ;;
  let otherData := ic_otherData c in
  let imageName := or_default (ic_imageName c) (str "client-js.jpg") in
  k <- kind_of imageData ;;
  if isNode then
    formData <- alloc (Obj (KFormDataNode []) ∅) ;;
    when (truthy otherData)
      (fun w => form_append formData
         (FormEntry "JSON" (JSON_stringify otherData (heap w)) VUndef) w) ;;;
    match k with
    | Some (KBuffer _) =>
        len <- get_prop imageData "length" ;;
        appendDataToFormData imageName formData imageData len
    | Some (KReadable chunks ends) =>
        buffer <- alloc (Obj (KBuffer []) ∅) ;;
        buffer <- drain imageData chunks ends buffer ;;
        len <- get_prop buffer "length" ;;
        if strict_eq len (VNum 0) then
          e <- new_Error "Provided Readable stream has no data." ;; throw e
        else appendDataToFormData imageName formData buffer len
    | _ =>
        e <- new_Error "Only instances of Buffer or ReadStream supported for image data in node environment." ;;
        throw e
    end ;;;
    es <- kind_of formData ;;
    let entries := match es with Some (KFormDataNode l) => l | _ => [] end in
    data <- (fun w => alloc (Obj (KBuffer (getBuffer entries (heap w))) ∅) w) ;;
    merged <- (fun w => alloc (Obj KPlain
                 (getHeaders entries ∪ spread headers (heap w))) w) ;;
    new_object [("data", data); ("headers", merged)]
  else
    match k with
    | Some (KFormData es) =>
        if negb (has_field "image" es) then
          e <- new_Error no_image_message ;;
          throw e
        else new_object [("data", imageData); ("headers", headers)]
    | _ =>
        formData <- alloc (Obj (KFormData []) ∅) ;;
        match k with
        | Some (KBlob _) =>
            size <- get_prop imageData "size" ;;
            appendDataToFormData imageName formData imageData size
        | _ =>
            e <- new_Error "Only instances of FormData, Blob(File) supported for image data in browser environment." ;;
            throw e
        end ;;;
        new_object [("data", formData); ("headers", headers)]
    end.

(** ** The user client (third source file) *)

(** A template literal: the pieces, each converted to a string. *)
Definition template (parts : list value) : value :=
  VStr (concat (List.map to_str parts)).

Definition with_headers (m headers : value) : request_config :=
  RequestConfig m VUndef headers VUndef VUndef VUndef.

Definition getUser `{Env} (baseURL username authToken : value) : M value :=
  let authToken := or_default authToken (VStr []) in
  headers <- attachAuthTokenToHeader authToken VUndef ;;
  response <- makeRequest (template [baseURL; str "/users/"; username])
                (with_headers VUndef headers) ;;
  get_prop response "data".

Definition addUser `{Env} (baseURL user : value) : M value :=
  response <- makeRequest (template [baseURL; str "/users"])
                (RequestConfig (str "post") VUndef VUndef user VUndef VUndef) ;;
  get_prop response "data".

Definition deleteUser `{Env} (baseURL username authToken : value) : M value :=
  headers <- attachAuthTokenToHeader authToken VUndef ;;
  makeRequest (template [baseURL; str "/users/"; username])
    (with_headers (str "delete") headers).

Definition updateUser `{Env} (baseURL username user authToken : value) : M value :=
  headers <- attachAuthTokenToHeader authToken VUndef ;;
  response <- makeRequest (template [baseURL; str "/users/"; username])
                (RequestConfig (str "put") VUndef headers user VUndef VUndef) ;;
  get_prop response "data".

(** The options object of [searchUsers] and [getUsers] is destructured
    for [limit], [offset], [sortingOrder] and [sortParameter] only. *)
Definition searchUsers `{Env} (baseURL pattern : value) (o : query_options)
  : M value :=
  let pattern := or_default pattern (VStr []) in
  params <- generateQueryParams
              (QueryOptions pattern (limit o) (offset o) (sortingOrder o)
                 (sortParameter o) VUndef) ;;
  response <- makeRequest (template [baseURL; str "/users"])
                (RequestConfig (str "get") VUndef VUndef VUndef params VUndef) ;;
  get_prop response "data".

Definition getUsers `{Env} (baseURL : value) (o : query_options) : M value :=
  searchUsers baseURL (VStr []) o.

Definition addPostBookmark `{Env} (baseURL username postID authToken : value)
  : M value :=
  headers <- attachAuthTokenToHeader authToken VUndef ;;
  makeRequest
    (template [baseURL; str "/users/"; username; str "/bookmarks/"; postID])
    (with_headers (str "put") headers).

Definition getUserBookmarks `{Env} (baseURL username authToken : value)
  : M value :=
  headers <- attachAuthTokenToHeader authToken VUndef ;;
  response <- makeRequest
                (template [baseURL; str "/users/"; username; str "/bookmarks"])
                (with_headers (str "get") headers) ;;
  get_prop response "data".

Definition deleteBookmark `{Env} (baseURL username postID authToken : value)
  : M value :=
  headers <- attachAuthTokenToHeader authToken VUndef ;;
  makeRequest
    (template [baseURL; str "/users/"; username; str "/bookmarks/"; postID])
    (with_headers (str "delete") headers).

Definition addProfilePicture `{Env}
    (baseURL username authToken imageData imageName : value) : M value :=
  let imageName := or_default imageName (str "client-js.jpg") in
  headers <- attachAuthTokenToHeader authToken VUndef ;;
  fragment <- attachImageToRequest imageData
                (ImageConfig headers VUndef imageName) ;;
  data <- get_prop fragment "data" ;;
  headers <- get_prop fragment "headers" ;;
  response <- makeRequest (template [baseURL; str "/users/"; username; str "/picture"])
                (RequestConfig (str "put") VUndef headers data VUndef VUndef) ;;
  get_prop response "data".

Definition removeProfilePicture `{Env} (baseURL username authToken : value)
  : M value :=
  headers <- attachAuthTokenToHeader authToken VUndef ;;
  makeRequest (template [baseURL; str "/users/"; username; str "/picture"])
    (with_headers (str "delete") headers).

(** ** The feed client (feed.js) *)

Record feed_options : Type := FeedOptions {
  fo_limit : value;
  fo_offset : value;
  fo_sorting : value;
  fo_onlyIds : value;
}.

Definition getFeedPosts `{Env} (baseURL username authToken : value)
    (o : feed_options) : M value :=
  let onlyIds := or_default (fo_onlyIds o) (VBool false) in
  params <- new_object [] ;;
  params <- (if truthy (js_or (js_or (js_or onlyIds (fo_limit o)) (fo_offset o))
                          (fo_sorting o))
             then new_object
                    [ ("onlyPKeys", onlyIds); ("limit", fo_limit o);
                      ("offset", fo_offset o); ("sort", fo_sorting o) ]
             else ret params) ;;
  headers <- attachAuthTokenToHeader authToken VUndef ;;
  response <- makeRequest
                (template [baseURL; str "/users/"; username; str "/feed/posts"])
                (RequestConfig VUndef VUndef headers VUndef params VUndef) ;;
  get_prop response "data".

Definition subscribeToChannel `{Env} (baseURL username channelname authToken : value)
  : M value :=
  headers <- attachAuthTokenToHeader authToken VUndef ;;
  data <- new_object [("channelname", channelname)] ;;
  response <- makeRequest
                (template [baseURL; str "/users/"; username; str "/feed/channels"])
                (RequestConfig (str "post") VUndef headers data VUndef VUndef) ;;
  get_prop response "data".

(** ** The service clients

    A client is an object holding [baseURL]; its methods read that
    property when they are called. *)

Definition NewFeedServiceClient (baseURL : value) : M value :=
  new_object [("baseURL", baseURL)].

Module FeedServiceClient.
Definition getFeedPosts `{Env} (client username token : value)
    (o : feed_options) : M value :=
  baseURL <- get_prop client "baseURL" ;;
  getFeedPosts baseURL username token
    (FeedOptions (fo_limit o) (fo_offset o) (fo_sorting o) VUndef).

Definition subscribeToChannel `{Env} (client username channelname authToken : value)
  : M value :=
  baseURL <- get_prop client "baseURL" ;;
  subscribeToChannel baseURL username channelname authToken.
End FeedServiceClient.

Definition NewUserServiceClient (baseURL : value) : M value :=
  new_object [("baseURL", baseURL)].

Module UserServiceClient.
Definition getUser `{Env} (client username token : value) : M value :=
  baseURL <- get_prop client "baseURL" ;; getUser baseURL username token.
Definition addUser `{Env} (client user : value) : M value :=
  baseURL <- get_prop client "baseURL" ;; addUser baseURL user.
Definition searchUsers `{Env} (client pattern : value) (o : query_options)
  : M value :=
  let pattern := or_default pattern (VStr []) in
  baseURL <- get_prop client "baseURL" ;; searchUsers baseURL pattern o.
Definition getUsers `{Env} (client : value) (o : query_options) : M value :=
  baseURL <- get_prop client "baseURL" ;; getUsers baseURL o.
Definition updateUser `{Env} (client username user authToken : value) : M value :=
  baseURL <- get_prop client "baseURL" ;;
  updateUser baseURL username user authToken.
Definition deleteUser `{Env} (client username authToken : value) : M value :=
  baseURL <- get_prop client "baseURL" ;; deleteUser baseURL username authToken.
Definition addPostBookmark `{Env} (client username postID authToken : value)
  : M value :=
  baseURL <- get_prop client "baseURL" ;;
  addPostBookmark baseURL username postID authToken.
(* the first parameter of the next two methods is not used *)
Definition getUserBookmarks `{Env} (client _baseURL username authToken : value)
  : M value :=
  baseURL <- get_prop client "baseURL" ;;
  getUserBookmarks baseURL username authToken.
Definition deleteBookmark `{Env} (client _baseURL username postID authToken : value)
  : M value :=
  baseURL <- get_prop client "baseURL" ;;
  deleteBookmark baseURL username postID authToken.
Definition addProfilePicture `{Env}
    (client username authToken imageData imageName : value) : M value :=
  let imageName := or_default imageName (str "client-js.jpg") in
  baseURL <- get_prop client "baseURL" ;;
  addProfilePicture baseURL username authToken imageData imageName.
Definition removeProfilePicture `{Env} (client username authToken : value)
  : M value :=
  baseURL <- get_prop client "baseURL" ;;
  removeProfilePicture baseURL username authToken.
End UserServiceClient.

(** ** Notions used by the statements *)

(** The value [v.key] has in the heap [h], when reading it does not fail. *)
Definition read (h : list object) (v : value) (key : string) : option value :=
  match v with
  | VUndef | VNull => None
  | VRef l => (fun o => field o key) <$> h !! l
  | _ => Some VUndef
  end.

(** Whether [v] is an instance of [DOMException] in the heap [h]. *)
Definition is_DOMException (h : list object) (v : value) : bool :=
  match v with
  | VRef l =>
      match o_kind <$> h !! l with Some (KDOMException _) => true | _ => false end
  | _ => false
  end.

(** The error axios rejects with: an [Error] it has extended with
    [config], [code], [request] and [response].  It is no envelope: its
    [status], if it has one, is not ["fail"]. *)
Definition axios_error (h : list object) (error : value) (eo : object) : Prop :=
  exists e m, error = VRef e /\ h !! e = Some eo
    /\ o_kind eo = KError m /\ field eo "status" <> str "fail".

(** [v] refers to an object that is [o]. *)
Definition denotes (h : list object) (v : value) (o : object) : Prop :=
  exists l, v = VRef l /\ h !! l = Some o.

(** A computation is [quiet] when it issues no request. *)
Definition quiet {A} (m : M A) : Prop := forall w, sent (snd (m w)) = sent w.

(** A computation that never finishes with a value. *)
Definition never_done {A} (m : M A) : Prop := forall w a w', m w <> (Done a, w').

(** The heap [h2] keeps every object of [h1] as it is. *)
Definition extends (h1 h2 : list object) : Prop :=
  forall l o, h1 !! l = Some o -> h2 !! l = Some o.

(** The entries of the object [generateQueryParams] returns, in closed
    form. *)
Definition sort_value (o : query_options) : value :=
  VStr (to_str (sortParameter o) ++
        if truthy (sortingOrder o) then lit "_" ++ to_str (sortingOrder o) else []).

Definition query_props (o : query_options) : gmap string value :=
  let p0 : gmap string value :=
    if truthy (js_or (limit o) (offset o))
    then {[ "limit" := limit o; "offset" := offset o ]} else ∅ in
  let p1 := if truthy (sortParameter o) then <["sort" := sort_value o]> p0 else p0 in
  let p2 := if truthy (pattern o) then <["pattern" := pattern o]> p1 else p1 in
  if truthy (onlyIds o) then <["onlyPKeys" := VBool true]> p2 else p2.

(** The configuration object [makeRequest] builds, its [headers] at [n]. *)
Definition config_object (URL : value) (rc : request_config) (n : nat) : object :=
  plain
    [ ("method", or_default (rc_method rc) (str "get"));
      ("headers", VRef n);
      ("url", URL);
      ("responseType", or_default (rc_responseType rc) (str "json"));
      ("data", rc_data rc);
      ("params", rc_params rc);
      ("transformRequest", rc_transformRequest rc) ].

(** ** Environments for the examples

    The transport answers every request with [answer], applied to the
    heap of the moment; [toJSON] copies the fields axios copies. *)
Definition example_env (node : bool)
    (answer : list object -> outcome value * list object) : Env :=
  {| isNode := node;
     axios := fun _ _ h => answer h;
     toJSON := fun e h =>
       let rd k := default VUndef (read h e k) in
       (Done (VRef (length h)),
        h ++ [plain [("message", rd "message"); ("name", rd "name");
                     ("config", rd "config"); ("code", rd "code")]]);
     JSON_stringify := fun _ _ => str "{}";
     getBuffer := fun _ _ => [];
     getHeaders := fun _ => ∅ |}.

(** The transport adds [objs] to the heap and settles with, or rejects
    with, the first of them. *)
Definition settle_with (objs : nat -> list object) (h : list object)
  : outcome value * list object :=
  (Done (VRef (length h)), h ++ objs (length h)).

Definition reject_with (objs : nat -> list object) (h : list object)
  : outcome value * list object :=
  (Raised (VRef (length h)), h ++ objs (length h)).

(** A response of status 200 whose body is
    [{status: "success", data: {username: "alice"}}]. *)
Definition alice_response (n : nat) : list object :=
  [ plain [("data", VRef (n + 1)); ("status", VNum 200)];
    plain [("status", str "success"); ("data", VRef (n + 2))];
    plain [("username", str "alice")] ].

(** A rejection of status 400 whose response body is
    [{status: "fail", data: {errorReason: "X", errorMessage: "Y"}}]. *)
Definition fail_rejection (n : nat) : list object :=
  [ Obj (KError (lit "Request failed with status code 400"))
      {[ "response" := VRef (n + 1) ]};
    plain [("data", VRef (n + 2)); ("status", VNum 400)];
    plain [("status", str "fail"); ("data", VRef (n + 3))];
    plain [("errorReason", str "X"); ("errorMessage", str "Y")] ].

(** A rejection for a host that does not resolve. *)
Definition dns_rejection (n : nat) : list object :=
  [ Obj (KError (lit "getaddrinfo ENOTFOUND"))
      {[ "request" := VRef (n + 1); "code" := str "ENOTFOUND" ]};
    plain [] ].

Definition alice_env : Env := example_env true (settle_with alice_response).
Definition fail_env : Env := example_env true (reject_with fail_rejection).
Definition dns_env : Env := example_env true (reject_with dns_rejection).

Definition alice_url : value := str "http://localhost:8080/users/alice".

(** A stream object of the examples, in the heap after the module is
    loaded. *)
Definition stream_world (chunks : list (list byte)) : world :=
  World [connection_error_object; Obj (KReadable chunks true) ∅] [].

(** The resource operations, as one family. *)
Inductive call : Type :=
| GetUser (baseURL username authToken : value)
| AddUser (baseURL user : value)
| DeleteUser (baseURL username authToken : value)
| UpdateUser (baseURL username user authToken : value)
| SearchUsers (baseURL pattern : value) (o : query_options)
| GetUsers (baseURL : value) (o : query_options)
| AddPostBookmark (baseURL username postID authToken : value)
| GetUserBookmarks (baseURL username authToken : value)
| DeleteBookmark (baseURL username postID authToken : value)
| AddProfilePicture (baseURL username authToken imageData imageName : value)
| RemoveProfilePicture (baseURL username authToken : value)
| GetFeedPosts (baseURL username authToken : value) (o : feed_options)
| SubscribeToChannel (baseURL username channelname authToken : value).

Definition run `{Env} (c : call) : M value :=
  match c with
  | GetUser b u t => getUser b u t
  | AddUser b user => addUser b user
  | DeleteUser b u t => deleteUser b u t
  | UpdateUser b u user t => updateUser b u user t
  | SearchUsers b p o => searchUsers b p o
  | GetUsers b o => getUsers b o
  | AddPostBookmark b u p t => addPostBookmark b u p t
  | GetUserBookmarks b u t => getUserBookmarks b u t
  | DeleteBookmark b u p t => deleteBookmark b u p t
  | AddProfilePicture b u t i n => addProfilePicture b u t i n
  | RemoveProfilePicture b u t => removeProfilePicture b u t
  | GetFeedPosts b u t o => getFeedPosts b u t o
  | SubscribeToChannel b u c t => subscribeToChannel b u c t
  end.

(** The operations that return what [makeRequest] resolves with, and
    not its [data]. *)
Definition returns_envelope (c : call) : bool :=
  match c with
  | DeleteUser _ _ _ | AddPostBookmark _ _ _ _ | DeleteBookmark _ _ _ _
  | RemoveProfilePicture _ _ _ => true
  | _ => false
  end.

(** The arguments an operation evaluates for [makeRequest]. *)
Definition prepare `{Env} (c : call) : M (value * request_config) :=
  match c with
  | GetUser b u t =>
      headers <- attachAuthTokenToHeader (or_default t (VStr [])) VUndef ;;
      ret (template [b; str "/users/"; u], with_headers VUndef headers)
  | AddUser b user =>
      ret (template [b; str "/users"],
           RequestConfig (str "post") VUndef VUndef user VUndef VUndef)
  | DeleteUser b u t =>
      headers <- attachAuthTokenToHeader t VUndef ;;
      ret (template [b; str "/users/"; u], with_headers (str "delete") headers)
  | UpdateUser b u user t =>
      headers <- attachAuthTokenToHeader t VUndef ;;
      ret (template [b; str "/users/"; u],
           RequestConfig (str "put") VUndef headers user VUndef VUndef)
  | SearchUsers b p o =>
      params <- generateQueryParams
                  (QueryOptions (or_default p (VStr [])) (limit o) (offset o)
                     (sortingOrder o) (sortParameter o) VUndef) ;;
      ret (template [b; str "/users"],
           RequestConfig (str "get") VUndef VUndef VUndef params VUndef)
  | GetUsers b o =>
      params <- generateQueryParams
                  (QueryOptions (VStr []) (limit o) (offset o)
                     (sortingOrder o) (sortParameter o) VUndef) ;;
      ret (template [b; str "/users"],
           RequestConfig (str "get") VUndef VUndef VUndef params VUndef)
  | AddPostBookmark b u p t =>
      headers <- attachAuthTokenToHeader t VUndef ;;
      ret (template [b; str "/users/"; u; str "/bookmarks/"; p],
           with_headers (str "put") headers)
  | GetUserBookmarks b u t =>
      headers <- attachAuthTokenToHeader t VUndef ;;
      ret (template [b; str "/users/"; u; str "/bookmarks"],
           with_headers (str "get") headers)
  | DeleteBookmark b u p t =>
      headers <- attachAuthTokenToHeader t VUndef ;;
      ret (template [b; str "/users/"; u; str "/bookmarks/"; p],
           with_headers (str "delete") headers)
  | AddProfilePicture b u t i n =>
      headers <- attachAuthTokenToHeader t VUndef ;;
      fragment <- attachImageToRequest i
                    (ImageConfig headers VUndef (or_default n (str "client-js.jpg"))) ;;
      data <- get_prop fragment "data" ;;
      headers <- get_prop fragment "headers" ;;
      ret (template [b; str "/users/"; u; str "/picture"],
           RequestConfig (str "put") VUndef headers data VUndef VUndef)
  | RemoveProfilePicture b u t =>
      headers <- attachAuthTokenToHeader t VUndef ;;
      ret (template [b; str "/users/"; u; str "/picture"],
           with_headers (str "delete") headers)
  | GetFeedPosts b u t o =>
      let onlyIds := or_default (fo_onlyIds o) (VBool false) in
      params <- new_object [] ;;
      params <- (if truthy (js_or (js_or (js_or onlyIds (fo_limit o)) (fo_offset o))
                              (fo_sorting o))
                 then new_object
                        [ ("onlyPKeys", onlyIds); ("limit", fo_limit o);
                          ("offset", fo_offset o); ("sort", fo_sorting o) ]
                 else ret params) ;;
      headers <- attachAuthTokenToHeader t VUndef ;;
      ret (template [b; str "/users/"; u; str "/feed/posts"],
           RequestConfig VUndef VUndef headers VUndef params VUndef)
  | SubscribeToChannel b u c t =>
      headers <- attachAuthTokenToHeader t VUndef ;;
      data <- new_object [("channelname", c)] ;;
      ret (template [b; str "/users/"; u; str "/feed/channels"],
           RequestConfig (str "post") VUndef headers data VUndef VUndef)
  end.

Definition finish (c : call) (response : value) : M value :=
  if returns_envelope c then ret response else get_prop response "data".

(** ** [calculateLimitOffset] (utilites.js)

    Its parameters are numbers; an argument left out is [None].  The
    numbers are integers, which JavaScript computes exactly as long as
    they stay within 2^53. *)
Definition calculateLimitOffset (page perPage : option Z) : M value :=
  let page := match page with Some n => n | None => 1 end in
  let perPage := match perPage with Some n => n | None => 25 end in
  new_object [("limit", VNum perPage); ("offset", VNum ((page - 1) * perPage))].

(** ** Further notions used by the statements *)

(** A field of the configuration of a request, and the object a field
    refers to. *)
Definition request_field (rq : request) (key : string) : option value :=
  read (snd rq) (snd (fst rq)) key.

Definition request_object (rq : request) (key : string) : option object :=
  match request_field rq key with
  | Some (VRef l) => snd rq !! l
  | _ => None
  end.



(** The request issued last. *)
Definition last_request (w : world) : request :=
  List.last (sent w) (VUndef, VUndef, []).

(** The token an operation passes to [attachAuthTokenToHeader]. *)
Definition token_of (c : call) : option value :=
  match c with
  | GetUser _ _ t => Some (or_default t (VStr []))
  | DeleteUser _ _ t | UpdateUser _ _ _ t | AddPostBookmark _ _ _ t
  | GetUserBookmarks _ _ t | DeleteBookmark _ _ _ t | AddProfilePicture _ _ t _ _
  | RemoveProfilePicture _ _ t | GetFeedPosts _ _ t _ | SubscribeToChannel _ _ _ t =>
      Some t
  | AddUser _ _ | SearchUsers _ _ _ | GetUsers _ _ => None
  end.

Definition is_picture (c : call) : bool :=
  match c with AddProfilePicture _ _ _ _ _ => true | _ => false end.

Definition is_subscription (c : call) : bool :=
  match c with SubscribeToChannel _ _ _ _ => true | _ => false end.

(** The endpoints: the method and the URL of the request of each
    operation. *)
Definition method_of (c : call) : value :=
  match c with
  | GetUser _ _ _ | SearchUsers _ _ _ | GetUsers _ _ | GetUserBookmarks _ _ _
  | GetFeedPosts _ _ _ _ => str "get"
  | AddUser _ _ | SubscribeToChannel _ _ _ _ => str "post"
  | UpdateUser _ _ _ _ | AddPostBookmark _ _ _ _ | AddProfilePicture _ _ _ _ _ =>
      str "put"
  | DeleteUser _ _ _ | DeleteBookmark _ _ _ _ | RemoveProfilePicture _ _ _ =>
      str "delete"
  end.

Definition url_of (c : call) : value :=
  match c with
  | GetUser b u _ | DeleteUser b u _ | UpdateUser b u _ _ =>
      template [b; str "/users/"; u]
  | AddUser b _ | SearchUsers b _ _ | GetUsers b _ => template [b; str "/users"]
  | AddPostBookmark b u p _ | DeleteBookmark b u p _ =>
      template [b; str "/users/"; u; str "/bookmarks/"; p]
  | GetUserBookmarks b u _ => template [b; str "/users/"; u; str "/bookmarks"]
  | AddProfilePicture b u _ _ _ | RemoveProfilePicture b u _ =>
      template [b; str "/users/"; u; str "/picture"]
  | GetFeedPosts b u _ _ => template [b; str "/users/"; u; str "/feed/posts"]
  | SubscribeToChannel b u _ _ => template [b; str "/users/"; u; str "/feed/channels"]
  end.

(** The headers [attachAuthTokenToHeader] makes for a token. *)
Definition auth_of (t : value) : gmap string value :=
  match t with
  | VStr (c :: s) => {[ "Authorization" := VStr (lit "Bearer " ++ c :: s) ]}
  | _ => ∅
  end.

Definition auth_headers (c : call) : gmap string value :=
  match token_of c with Some t => auth_of t | None => ∅ end.

(** The tokens [attachAuthTokenToHeader] accepts. *)
Definition token_ok (t : value) : bool :=
  match t with
  | VStr s => negb (has_ws s)
  | _ => negb (truthy t)
  end.

(** The [params] of [getFeedPosts]. *)
Definition feed_params (o : feed_options) : object :=
  let onlyIds := or_default (fo_onlyIds o) (VBool false) in
  if truthy (js_or (js_or (js_or onlyIds (fo_limit o)) (fo_offset o)) (fo_sorting o))
  then plain [ ("onlyPKeys", onlyIds); ("limit", fo_limit o);
               ("offset", fo_offset o); ("sort", fo_sorting o) ]
  else plain [].

(** The body an operation passes on as it receives it. *)
Definition data_of (c : call) : value :=
  match c with
  | AddUser _ user | UpdateUser _ _ user _ => user
  | _ => VUndef
  end.

Definition channel_of (c : call) : value :=
  match c with SubscribeToChannel _ _ ch _ => ch | _ => VUndef end.

(** The payloads [attachImageToRequest] accepts: a [Buffer] or a
    [Readable] under Node, a [FormData] or a [Blob] in a browser. *)
Definition supported (node : bool) (k : option kind) : bool :=
  match k with
  | Some (KBuffer _) | Some (KReadable _ _) => node
  | Some (KFormData _) | Some (KBlob _) => negb node
  | _ => false
  end.

Definition unsupported_message (node : bool) : string :=
  if node
  then "Only instances of Buffer or ReadStream supported for image data in node environment."
  else "Only instances of FormData, Blob(File) supported for image data in browser environment.".

(** The custom error of the end of the [catch] block. *)
Definition custom_error_object (jo co : object) (description : jstr)
    (response request : value) : object :=
  plain
    [ ("message", field jo "message"); ("name", field jo "name");
      ("description",
       if truthy (field jo "nativeDescription")
       then js_plus (VStr description) (field jo "nativeDescription")
       else VStr description);
      ("response", response); ("request", request);
      ("number", field jo "number"); ("code", field jo "code") ].

Definition custom_request_object (co : object) : object :=
  plain
    [ ("url", field co "url"); ("method", field co "method");
      ("headers", field co "headers"); ("data", field co "data");
      ("timeout", field co "timeout"); ("responseType", field co "responseType") ].

(** The method of a client object that stands for an operation; [first]
    is what is passed for the first parameter of [getUserBookmarks] and
    [deleteBookmark].  The base URL of [c] plays no role. *)
Definition method `{Env} (client first : value) (c : call) : M value :=
  match c with
  | GetUser _ u t => UserServiceClient.getUser client u t
  | AddUser _ user => UserServiceClient.addUser client user
  | DeleteUser _ u t => UserServiceClient.deleteUser client u t
  | UpdateUser _ u user t => UserServiceClient.updateUser client u user t
  | SearchUsers _ p o => UserServiceClient.searchUsers client p o
  | GetUsers _ o => UserServiceClient.getUsers client o
  | AddPostBookmark _ u p t => UserServiceClient.addPostBookmark client u p t
  | GetUserBookmarks _ u t => UserServiceClient.getUserBookmarks client first u t
  | DeleteBookmark _ u p t => UserServiceClient.deleteBookmark client first u p t
  | AddProfilePicture _ u t i n => UserServiceClient.addProfilePicture client u t i n
  | RemoveProfilePicture _ u t => UserServiceClient.removeProfilePicture client u t
  | GetFeedPosts _ u t o => FeedServiceClient.getFeedPosts client u t o
  | SubscribeToChannel _ u ch t => FeedServiceClient.subscribeToChannel client u ch t
  end.

(** The call of the exported function a method makes for a client whose
    [baseURL] is [b]. *)
Definition as_called (b : value) (c : call) : call :=
  match c with
  | GetUser _ u t => GetUser b u t
  | AddUser _ user => AddUser b user
  | DeleteUser _ u t => DeleteUser b u t
  | UpdateUser _ u user t => UpdateUser b u user t
  | SearchUsers _ p o => SearchUsers b p o
  | GetUsers _ o => GetUsers b o
  | AddPostBookmark _ u p t => AddPostBookmark b u p t
  | GetUserBookmarks _ u t => GetUserBookmarks b u t
  | DeleteBookmark _ u p t => DeleteBookmark b u p t
  | AddProfilePicture _ u t i n => AddProfilePicture b u t i n
  | RemoveProfilePicture _ u t => RemoveProfilePicture b u t
  | GetFeedPosts _ u t o =>
      GetFeedPosts b u t (FeedOptions (fo_limit o) (fo_offset o) (fo_sorting o) VUndef)
  | SubscribeToChannel _ u ch t => SubscribeToChannel b u ch t
  end.

(** ** Further environments for the examples *)

(** A response of status 200 whose body is a [fail] envelope. *)
Definition fail_response (n : nat) : list object :=
  [ plain [("data", VRef (n + 1)); ("status", VNum 200)];
    plain [("status", str "fail"); ("data", VRef (n + 2))];
    plain [("errorReason", str "X"); ("errorMessage", str "Y")] ].

Definition fail200_env : Env := example_env true (settle_with fail_response).

(** A rejection with an envelope itself, which also carries a response. *)
Definition envelope_rejection (n : nat) : list object :=
  [ plain [("status", str "fail"); ("data", VNull); ("response", VRef (n + 1))];
    plain [("data", VRef n); ("status", VNum 400)] ].

Definition envelope_env : Env := example_env true (reject_with envelope_rejection).

(** Rejections with a [DOMException]. *)
Definition syntax_rejection (_ : nat) : list object :=
  [ Obj (KDOMException (lit "SyntaxError")) ∅ ].

Definition abort_rejection (_ : nat) : list object :=
  [ Obj (KDOMException (lit "AbortError")) ∅ ].

Definition syntax_env : Env := example_env false (reject_with syntax_rejection).

Definition abort_env : Env := example_env false (reject_with abort_rejection).

(** A rejection of status 500 with a body that is no envelope, and one
    by a timeout; both errors carry the configuration of the request. *)
Definition server_rejection (n : nat) : list object :=
  [ Obj (KError (lit "Request failed with status code 500"))
      {[ "response" := VRef (n + 1); "config" := VRef (n + 2) ]};
    plain [("data", str "Internal Server Error"); ("status", VNum 500);
           ("statusText", str "Internal Server Error"); ("headers", VNull)];
    plain [("url", alice_url); ("method", str "get")] ].

Definition timeout_rejection (n : nat) : list object :=
  [ Obj (KError (lit "timeout of 1000ms exceeded"))
      {[ "request" := VRef (n + 1); "code" := str "ECONNABORTED";
         "config" := VRef (n + 2) ]};
    plain [];
    plain [("url", alice_url); ("method", str "get"); ("timeout", VNum 1000)] ].

Definition server_env : Env := example_env true (reject_with server_rejection).

Definition timeout_env : Env := example_env true (reject_with timeout_rejection).

(** A transport that does not settle. *)
Definition stalled_env : Env := example_env true (fun h => (Pending, h)).

(** A browser, with the transport of [alice_env]. *)
Definition browser_env : Env := example_env false (settle_with alice_response).

(** The base URL of the examples. *)
Definition localhost : value := str "http://localhost:8080".

(** A heap with a [Buffer], a [Blob] and two [FormData], one of them
    with an entry [image]. *)
Definition payload_world : world :=
  World [ connection_error_object;
          Obj (KBuffer []) ∅;
          Obj (KBlob [x01; x02]) ∅;
          Obj (KFormData [FormEntry "image" (VRef 2%nat) VUndef]) ∅;
          Obj (KFormData []) ∅;
          plain [("Accept", str "*/*")] ] [].

(** * Properties *)

Arguments lit : simpl never.
Arguments str : simpl never.
Arguments field : simpl never.
Arguments spread : simpl never.
Arguments to_str : simpl never.
Arguments js_plus : simpl never.
Arguments split_ws : simpl never.
Arguments strict_eq : simpl never.
Arguments plain : simpl never.
Arguments Nat.ltb : simpl never.

(** ** Heaps and strings *)

Lemma lookup_snoc (h : list object) o : (h ++ [o]) !! length h = Some o.
Proof. by apply list_lookup_middle. Qed.

Lemma insert_snoc (h : list object) o o' : <[length h := o']> (h ++ [o]) = h ++ [o'].
Proof. rewrite insert_app_r_alt by lia. by rewrite Nat.sub_diag. Qed.

Lemma split_from_nonempty cur s : (1 <= length (split_from cur s))%nat.
Proof.
  revert cur; induction s as [|c s IH]; intros cur; simpl; [lia|].
  destruct (is_ws c); simpl; [lia | apply IH].
Qed.

Lemma split_ws_length s : (1 <? length (split_ws s))%nat = has_ws s.
Proof.
  unfold split_ws. generalize (@nil N) as cur.
  induction s as [|c s IH]; intros cur; simpl; [done|].
  destruct (is_ws c); simpl; [|apply IH].
  pose proof (split_from_nonempty [] s). apply Nat.ltb_lt. lia.
Qed.

Lemma has_ws_In s : has_ws s = true <-> exists c, In c s /\ is_ws c = true.
Proof. apply existsb_exists. Qed.

(** ** Running computations *)

Lemma bind_done {A B} (m : M A) (k : A -> M B) w a w1 :
  m w = (Done a, w1) -> bind m k w = k a w1.
Proof. unfold bind. by intros ->. Qed.

Lemma bind_raised {A B} (m : M A) (k : A -> M B) w e w1 :
  m w = (Raised e, w1) -> bind m k w = (Raised e, w1).
Proof. unfold bind. by intros ->. Qed.

Lemma bind_pending {A B} (m : M A) (k : A -> M B) w w1 :
  m w = (Pending, w1) -> bind m k w = (Pending, w1).
Proof. unfold bind. by intros ->. Qed.

Lemma bind_done_inv {A B} (m : M A) (k : A -> M B) w b w' :
  bind m k w = (Done b, w') ->
  exists a w1, m w = (Done a, w1) /\ k a w1 = (Done b, w').
Proof.
  unfold bind. destruct (m w) as [[a|e|] w1]; [eauto | done | done].
Qed.

Lemma get_prop_ref l key w o :
  heap w !! l = Some o -> get_prop (VRef l) key w = (Done (field o key), w).
Proof. unfold get_prop. by intros ->. Qed.

Lemma set_prop_ref l key x w o :
  heap w !! l = Some o ->
  set_prop (VRef l) key x w =
    (Done tt, World (<[l := Obj (o_kind o) (<[key := x]> (props o))]> (heap w)) (sent w)).
Proof. unfold set_prop. by intros ->. Qed.

Lemma quiet_ret {A} (a : A) : quiet (ret a).
Proof. done. Qed.

Lemma quiet_throw {A} e : quiet (@throw A e).
Proof. done. Qed.

Lemma quiet_pending {A} : quiet (@pending A).
Proof. done. Qed.

Lemma quiet_bind {A B} (m : M A) (k : A -> M B) :
  quiet m -> (forall a, quiet (k a)) -> quiet (bind m k).
Proof.
  intros Hm Hk w. unfold bind. specialize (Hm w).
  destruct (m w) as [[a|e|] w1]; simpl in *; [|done|done].
  by rewrite Hk.
Qed.

Lemma quiet_alloc o : quiet (alloc o).
Proof. done. Qed.

Lemma quiet_alloc_heap (f : list object -> object) :
  quiet (fun w => alloc (f (heap w)) w).
Proof. done. Qed.

Lemma quiet_new_object fs : quiet (new_object fs).
Proof. done. Qed.

Lemma quiet_new_Error m : quiet (new_Error m).
Proof. done. Qed.

Lemma quiet_type_error {A} : quiet (@type_error A).
Proof. done. Qed.

Lemma quiet_get_prop v key : quiet (get_prop v key).
Proof.
  intros w. unfold get_prop. destruct v; try done.
  by destruct (heap w !! l).
Qed.

Lemma quiet_set_prop v key x : quiet (set_prop v key x).
Proof.
  intros w. unfold set_prop. destruct v; try done.
  by destruct (heap w !! l).
Qed.

Lemma quiet_when c m : quiet m -> quiet (when c m).
Proof. destruct c; [done | intros _; apply quiet_ret]. Qed.

Lemma quiet_default_param v m : quiet m -> quiet (default_param v m).
Proof. destruct v; first done; intros _; apply quiet_ret. Qed.

Lemma quiet_kind_of v : quiet (kind_of v).
Proof. done. Qed.

Lemma quiet_set_kind v k : quiet (set_kind v k).
Proof. by destruct v. Qed.

Lemma quiet_instanceof v : quiet (instanceof_DOMException v).
Proof. done. Qed.

Create HintDb quiet.
#[export] Hint Resolve quiet_ret quiet_throw quiet_pending quiet_alloc
  quiet_alloc_heap quiet_new_object quiet_new_Error quiet_type_error
  quiet_get_prop quiet_set_prop quiet_when quiet_default_param quiet_kind_of
  quiet_set_kind quiet_instanceof : quiet.

(** Splits a goal [quiet m] along the structure of [m]. *)
Ltac quiet_step :=
  match goal with
  | |- quiet (bind _ _) => apply quiet_bind; [|intros ?]
  | |- quiet (when _ _) => apply quiet_when
  | |- quiet (default_param _ _) => apply quiet_default_param
  | |- quiet (if ?c then _ else _) => destruct c
  | |- quiet (match ?x with _ => _ end) => destruct x
  | |- quiet _ => solve [auto with quiet | intros ?; reflexivity]
  end.
Ltac quiet_auto := repeat quiet_step.

Lemma quiet_attachAuthTokenToHeader t h : quiet (attachAuthTokenToHeader t h).
Proof. unfold attachAuthTokenToHeader. quiet_auto. Qed.

Lemma quiet_generateQueryParams o : quiet (generateQueryParams o).
Proof. unfold generateQueryParams. quiet_auto. Qed.

#[export] Hint Resolve quiet_attachAuthTokenToHeader quiet_generateQueryParams : quiet.

(** ** [attachAuthTokenToHeader] *)

Lemma bearer s : js_plus (str "Bearer ") (VStr s) = VStr (lit "Bearer " ++ s).
Proof. reflexivity. Qed.

Lemma attach_falsy t headers w :
  truthy t = false ->
  fst (attachAuthTokenToHeader t headers w) = Done VUndef.
Proof.
  intros Ht. unfold attachAuthTokenToHeader, bind.
  destruct headers; cbn; by rewrite Ht.
Qed.

Lemma attach_invalid s headers w :
  has_ws s = true ->
  exists l w', attachAuthTokenToHeader (VStr s) headers w = (Raised (VRef l), w')
    /\ heap w' !! l = Some (Obj (KError (lit "Invalid authToken")) ∅)
    /\ sent w' = sent w.
Proof.
  intros Hs. unfold attachAuthTokenToHeader, bind.
  assert (truthy (VStr s) = true) as Ht by (by destruct s).
  destruct headers; cbn [default_param new_object alloc ret];
    rewrite Ht; cbn [negb]; rewrite split_ws_length, Hs; cbn;
    eexists _, _; (split; [reflexivity|]); cbn; by rewrite lookup_snoc.
Qed.

Lemma attach_fresh s w :
  s <> [] -> has_ws s = false ->
  attachAuthTokenToHeader (VStr s) VUndef w =
    (Done (VRef (length (heap w))),
     World (heap w ++ [Obj KPlain {[ "Authorization" := VStr (lit "Bearer " ++ s) ]}])
       (sent w)).
Proof.
  intros Hs Hw. unfold attachAuthTokenToHeader, bind. cbn.
  rewrite split_ws_length, Hw. destruct s; [done|]. cbn.
  rewrite lookup_snoc. cbn. by rewrite insert_snoc.
Qed.

Lemma attach_given s l o w :
  s <> [] -> has_ws s = false -> heap w !! l = Some o ->
  attachAuthTokenToHeader (VStr s) (VRef l) w =
    (Done (VRef l),
     World (<[l := Obj (o_kind o)
                    (<["Authorization" := VStr (lit "Bearer " ++ s)]> (props o))]> (heap w))
       (sent w)).
Proof.
  intros Hs Hw Hl. unfold attachAuthTokenToHeader, bind. cbn.
  rewrite split_ws_length, Hw. destruct s; [done|]. cbn.
  by rewrite Hl.
Qed.

Lemma no_ws s : (forall c, In c s -> is_ws c = false) -> has_ws s = false.
Proof.
  intros H. destruct (has_ws s) eqn:E; [|done].
  apply has_ws_In in E as (c & Hc & Hw). rewrite (H c Hc) in Hw. done.
Qed.

(** C4.  A token with a white-space character makes
    [attachAuthTokenToHeader] throw [Error("Invalid authToken")]; a
    non-empty token without one yields a mapping whose [Authorization]
    is ["Bearer "] followed by the token: a new mapping when none is
    passed, and otherwise the very mapping passed in (the same
    location), updated in place and returned. *)
Theorem attachAuthTokenToHeader_bearer (s : jstr) (headers : value) (w : world) :
  ((exists c, In c s /\ is_ws c = true) ->
   exists l w',
     attachAuthTokenToHeader (VStr s) headers w = (Raised (VRef l), w')
     /\ heap w' !! l = Some (Obj (KError (lit "Invalid authToken")) ∅)
     /\ sent w' = sent w)
  /\ (s <> [] -> (forall c, In c s -> is_ws c = false) ->
      (headers = VUndef ->
       attachAuthTokenToHeader (VStr s) headers w =
         (Done (VRef (length (heap w))),
          World (heap w ++
                 [Obj KPlain {[ "Authorization" := VStr (lit "Bearer " ++ s) ]}])
            (sent w)))
      /\ (forall l o, headers = VRef l -> heap w !! l = Some o ->
          attachAuthTokenToHeader (VStr s) headers w =
            (Done (VRef l),
             World (<[l := Obj (o_kind o)
                            (<["Authorization" := VStr (lit "Bearer " ++ s)]>
                               (props o))]> (heap w))
               (sent w)))).
Proof.
  split.
  - intros Hc. apply attach_invalid. by apply has_ws_In.
  - intros Hs Hw. apply no_ws in Hw. split.
    + intros ->. by apply attach_fresh.
    + intros l o -> Hl. by apply attach_given.
Qed.

Lemma attachAuthTokenToHeader_bearer_witness :
  (exists l w',
     attachAuthTokenToHeader (str "a b") VUndef module_init = (Raised (VRef l), w')
     /\ heap w' !! l = Some (Obj (KError (lit "Invalid authToken")) ∅))
  /\ attachAuthTokenToHeader (str "abc") VUndef module_init =
       (Done (VRef 1%nat),
        World (heap module_init ++
               [Obj KPlain {[ "Authorization" := str "Bearer abc" ]}]) [])
  /\ attachAuthTokenToHeader (str "abc") (VRef CONNECTION_ERROR) module_init =
       (Done (VRef CONNECTION_ERROR),
        World [Obj (KError (lit "issue1.REST.client: connection could not be made with issue1 REST"))
                 {[ "Authorization" := str "Bearer abc" ]}] []).
Proof.
  assert (forall c, In c (lit "abc") -> is_ws c = false) as Habc.
  { intros c Hc. vm_compute in Hc. by destruct Hc as [<-|[<-|[<-|[]]]]. }
  split; [|split].
  - destruct (attachAuthTokenToHeader_bearer (lit "a b") VUndef module_init) as [He _].
    destruct He as (l & w' & Hr & Hl & _).
    { exists 32%N. split; [vm_compute; tauto | reflexivity]. }
    by exists l, w'.
  - destruct (attachAuthTokenToHeader_bearer (lit "abc") VUndef module_init) as [_ Hd].
    destruct (Hd ltac:(discriminate) Habc) as [Hf _]. exact (Hf eq_refl).
  - destruct (attachAuthTokenToHeader_bearer (lit "abc") (VRef CONNECTION_ERROR)
                module_init) as [_ Hd].
    destruct (Hd ltac:(discriminate) Habc) as [_ Hg].
    exact (Hg CONNECTION_ERROR connection_error_object eq_refl eq_refl).
Defined.

(** ** [generateQueryParams] *)

Lemma spread_snoc h o : spread (VRef (length h)) (h ++ [o]) = props o.
Proof. unfold spread. by rewrite lookup_snoc. Qed.

Lemma field_insert kd (p : gmap string value) k x : field (Obj kd (<[k := x]> p)) k = x.
Proof. unfold field. simpl. by rewrite lookup_insert_eq. Qed.

Lemma get_prop_snoc h st o key :
  get_prop (VRef (length h)) key (World (h ++ [o]) st)
  = (Done (field o key), World (h ++ [o]) st).
Proof. erewrite get_prop_ref; [done|]. apply lookup_snoc. Qed.

Lemma set_prop_snoc h st o key x :
  set_prop (VRef (length h)) key x (World (h ++ [o]) st)
  = (Done tt, World (h ++ [Obj (o_kind o) (<[key := x]> (props o))]) st).
Proof.
  erewrite set_prop_ref; [|apply lookup_snoc]. simpl. by rewrite insert_snoc.
Qed.

Lemma js_plus_str a b : js_plus (VStr a) (VStr b) = VStr (a ++ b).
Proof. reflexivity. Qed.

Lemma generateQueryParams_tail o h st p :
  (when (truthy (sortParameter o))
     (set_prop (VRef (length h)) "sort" (VStr (to_str (sortParameter o))) ;;;
      when (truthy (sortingOrder o))
        (cur <- get_prop (VRef (length h)) "sort" ;;
         set_prop (VRef (length h)) "sort"
           (js_plus cur (VStr (lit "_" ++ to_str (sortingOrder o)))))) ;;;
   when (truthy (pattern o)) (set_prop (VRef (length h)) "pattern" (pattern o)) ;;;
   when (truthy (onlyIds o)) (set_prop (VRef (length h)) "onlyPKeys" (VBool true)) ;;;
   ret (VRef (length h))) (World (h ++ [Obj KPlain p]) st)
  = (Done (VRef (length h)),
     World (h ++ [Obj KPlain
       (let p1 := if truthy (sortParameter o) then <["sort" := sort_value o]> p else p in
        let p2 := if truthy (pattern o) then <["pattern" := pattern o]> p1 else p1 in
        if truthy (onlyIds o) then <["onlyPKeys" := VBool true]> p2 else p2)]) st).
Proof.
  unfold sort_value, bind.
  destruct (truthy (sortParameter o)); cbn [when ret];
    [rewrite set_prop_snoc; destruct (truthy (sortingOrder o)); cbn [when ret];
       [rewrite get_prop_snoc, set_prop_snoc; cbn [o_kind props];
        rewrite field_insert, js_plus_str, insert_insert_eq
       | rewrite app_nil_r] |];
    cbn [o_kind props];
    (destruct (truthy (pattern o)); cbn [when ret]; [rewrite set_prop_snoc|]);
    cbn [o_kind props];
    (destruct (truthy (onlyIds o)); cbn [when ret]; [rewrite set_prop_snoc|]);
    reflexivity.
Qed.

Lemma generateQueryParams_run o w :
  exists l w',
    generateQueryParams o w = (Done (VRef l), w')
    /\ heap w' !! l = Some (Obj KPlain (query_props o))
    /\ sent w' = sent w.
Proof.
  destruct w as [h st]. unfold generateQueryParams.
  rewrite (bind_done _ _ _ (VRef (length h)) (World (h ++ [plain []]) st)) by done.
  unfold query_props.
  destruct (truthy (js_or (limit o) (offset o))).
  - erewrite bind_done; [|reflexivity]. cbn [heap sent].
    rewrite generateQueryParams_tail, spread_snoc.
    change (props (plain [])) with (∅ : gmap string value).
    rewrite (left_id_L ∅ (∪)).
    eexists _, _. split; [reflexivity|]. cbn. by rewrite lookup_snoc.
  - erewrite bind_done; [|reflexivity].
    change (plain []) with (Obj KPlain ∅).
    rewrite generateQueryParams_tail.
    eexists _, _. split; [reflexivity|]. cbn. by rewrite lookup_snoc.
Qed.

Lemma truthy_js_or a b : truthy (js_or a b) = truthy a || truthy b.
Proof. unfold js_or. destruct (truthy a) eqn:E; [by rewrite E | done]. Qed.

Lemma query_props_limit o :
  query_props o !! "limit" =
    if truthy (limit o) || truthy (offset o) then Some (limit o) else None.
Proof.
  unfold query_props. rewrite truthy_js_or.
  destruct (truthy (onlyIds o)), (truthy (pattern o)), (truthy (sortParameter o)),
    (truthy (limit o) || truthy (offset o));
    by simplify_map_eq.
Qed.

Lemma query_props_offset o :
  query_props o !! "offset" =
    if truthy (limit o) || truthy (offset o) then Some (offset o) else None.
Proof.
  unfold query_props. rewrite truthy_js_or.
  destruct (truthy (onlyIds o)), (truthy (pattern o)), (truthy (sortParameter o)),
    (truthy (limit o) || truthy (offset o));
    by simplify_map_eq.
Qed.

Lemma query_props_sort o :
  query_props o !! "sort" =
    if truthy (sortParameter o) then Some (sort_value o) else None.
Proof.
  unfold query_props.
  destruct (truthy (onlyIds o)), (truthy (pattern o)), (truthy (sortParameter o)),
    (truthy (js_or (limit o) (offset o)));
    by simplify_map_eq.
Qed.

Lemma query_props_keys o k :
  is_Some (query_props o !! k) ->
  k ∈ ["sort"; "limit"; "offset"; "pattern"; "onlyPKeys"].
Proof.
  unfold query_props.
  destruct (truthy (onlyIds o)), (truthy (pattern o)), (truthy (sortParameter o)),
    (truthy (js_or (limit o) (offset o)));
    intros [v Hv];
    repeat (apply lookup_insert_Some in Hv as [[<- _]|[_ Hv]]; [set_solver|]);
    try (apply lookup_singleton_Some in Hv as [<- _]; set_solver);
    by rewrite lookup_empty in Hv.
Qed.

(** C5, as stated, fails.  With [limit] present as the number 0 and
    [offset] absent, the result has neither a [limit] nor an [offset]
    key. *)
Lemma generateQueryParams_limit_zero_counterexample :
  let o := QueryOptions VUndef (VNum 0) VUndef VUndef VUndef VUndef in
  limit o <> VUndef
  /\ exists l w' po,
       generateQueryParams o module_init = (Done (VRef l), w')
       /\ heap w' !! l = Some po
       /\ props po !! "limit" = None
       /\ props po !! "offset" = None.
Proof.
  split; [discriminate|].
  eexists _, _, _. repeat split; vm_compute; reflexivity.
Qed.

(** C5, amended.  The result of [generateQueryParams] has both keys
    [limit] and [offset], each with the value passed ([undefined] for
    one that is absent), whenever [limit] or [offset] is truthy; when
    neither is truthy (absent, or 0) it has neither key. *)
Theorem generateQueryParams_limit_offset (o : query_options) (w : world) :
  exists l w' po,
    generateQueryParams o w = (Done (VRef l), w')
    /\ heap w' !! l = Some po
    /\ (truthy (limit o) = true \/ truthy (offset o) = true ->
        props po !! "limit" = Some (limit o)
        /\ props po !! "offset" = Some (offset o))
    /\ (truthy (limit o) = false -> truthy (offset o) = false ->
        props po !! "limit" = None /\ props po !! "offset" = None).
Proof.
  destruct (generateQueryParams_run o w) as (l & w' & Hr & Hl & _).
  exists l, w', (Obj KPlain (query_props o)). cbn [props].
  rewrite query_props_limit, query_props_offset.
  split; [done|]. split; [done|]. split.
  - by intros [-> | ->]; rewrite ?orb_true_r.
  - by intros -> ->.
Qed.

Lemma generateQueryParams_limit_offset_witness :
  exists l w' po,
    generateQueryParams (QueryOptions VUndef (VNum 10) VUndef VUndef VUndef VUndef)
      module_init = (Done (VRef l), w')
    /\ heap w' !! l = Some po
    /\ props po !! "limit" = Some (VNum 10)
    /\ props po !! "offset" = Some VUndef.
Proof.
  destruct (generateQueryParams_limit_offset
              (QueryOptions VUndef (VNum 10) VUndef VUndef VUndef VUndef) module_init)
    as (l & w' & po & Hr & Hl & Hp & _).
  exists l, w', po. repeat split; try done; apply Hp; left; reflexivity.
Defined.

(** C6.  The result of [generateQueryParams] has a [sort] key exactly
    when [sortParameter] is given (truthy: a non-empty string): none
    when it is absent, whatever [sortingOrder] is; with ["username"]
    and ["asc"] the entry is ["username_asc"].  The result never has a
    key other than [sort], [limit], [offset], [pattern], [onlyPKeys],
    and is [{sort: "username_asc"}] when the other options are
    absent. *)
Theorem generateQueryParams_sort (o : query_options) (w : world) :
  exists l w' po,
    generateQueryParams o w = (Done (VRef l), w')
    /\ heap w' !! l = Some po
    /\ (is_Some (props po !! "sort") <-> truthy (sortParameter o) = true)
    /\ (forall k, is_Some (props po !! k) ->
        k ∈ ["sort"; "limit"; "offset"; "pattern"; "onlyPKeys"])
    /\ (sortParameter o = VUndef -> props po !! "sort" = None)
    /\ (sortParameter o = str "username" -> sortingOrder o = str "asc" ->
        props po !! "sort" = Some (str "username_asc")
        /\ (limit o = VUndef -> offset o = VUndef -> pattern o = VUndef ->
            onlyIds o = VUndef ->
            props po = {[ "sort" := str "username_asc" ]})).
Proof.
  destruct (generateQueryParams_run o w) as (l & w' & Hr & Hl & _).
  exists l, w', (Obj KPlain (query_props o)). cbn [props].
  split; [done|]. split; [done|].
  rewrite query_props_sort.
  split; [|split; [apply query_props_keys|split]].
  - destruct (truthy (sortParameter o)); split; intros Hx;
      first [done | by eexists | by destruct Hx].
  - by intros ->.
  - intros Hp Ho. unfold sort_value. rewrite Hp, Ho. split; [reflexivity|].
    intros Hl1 Hl2 Hl3 Hl4. unfold query_props, sort_value.
    rewrite Hp, Ho, Hl1, Hl2, Hl3, Hl4. reflexivity.
Qed.

Lemma generateQueryParams_sort_witness :
  exists l w' po,
    generateQueryParams
      (QueryOptions VUndef VUndef VUndef (str "asc") (str "username") VUndef)
      module_init = (Done (VRef l), w')
    /\ heap w' !! l = Some po
    /\ props po = {[ "sort" := str "username_asc" ]}.
Proof.
  destruct (generateQueryParams_sort
              (QueryOptions VUndef VUndef VUndef (str "asc") (str "username") VUndef)
              module_init)
    as (l & w' & po & Hr & Hl & _ & _ & _ & Hp).
  exists l, w', po. repeat split; try done.
  apply Hp; reflexivity.
Defined.

(** ** [makeRequest] *)

Lemma get_prop_read v key w x :
  read (heap w) v key = Some x -> get_prop v key w = (Done x, w).
Proof.
  unfold read, get_prop. destruct v; try done; try (by intros [= <-]).
  destruct (heap w !! l); simpl; [by intros [= <-] | done].
Qed.

Lemma get_prop_done_inv v key w x w' :
  get_prop v key w = (Done x, w') -> read (heap w) v key = Some x /\ w' = w.
Proof.
  unfold read, get_prop. destruct v; try done; try (by intros [= <- <-]).
  destruct (heap w !! l); simpl; [by intros [= <- <-] | done].
Qed.

Lemma strict_eq_true a b : strict_eq a b = true <-> a = b.
Proof. unfold strict_eq. apply bool_decide_eq_true. Qed.

Lemma strict_eq_false a b : strict_eq a b = false <-> a <> b.
Proof. unfold strict_eq. apply bool_decide_eq_false. Qed.

Lemma strict_eq_refl a : strict_eq a a = true.
Proof. by apply strict_eq_true. Qed.

Lemma never_done_throw {A} e : never_done (@throw A e).
Proof. done. Qed.

Lemma never_done_bind_l {A B} (m : M A) (k : A -> M B) :
  never_done m -> never_done (bind m k).
Proof.
  intros Hm w b w' Hb. apply bind_done_inv in Hb as (a & w1 & Ha & _).
  by apply Hm in Ha.
Qed.

Lemma never_done_bind_r {A B} (m : M A) (k : A -> M B) :
  (forall a, never_done (k a)) -> never_done (bind m k).
Proof.
  intros Hk w b w' Hb. apply bind_done_inv in Hb as (a & w1 & _ & Ha).
  by apply Hk in Ha.
Qed.

Ltac never_done_auto :=
  repeat match goal with
         | |- never_done (throw _) => apply never_done_throw
         | |- never_done (bind _ _) => apply never_done_bind_r; intros ?
         | |- never_done (if ?c then _ else _) => destruct c
         end.

Section Dispatcher.
Context `{Env}.

Lemma make_config_issued URL rc w :
  make_config URL rc w =
    (Done (snd (fst (issued URL rc w))), World (snd (issued URL rc w)) (sent w)).
Proof. reflexivity. Qed.

Lemma makeRequest_unfold URL rc w :
  makeRequest URL rc w =
    let rq := issued URL rc w in
    let w1 := World (snd (transport rq)) (sent w ++ [rq]) in
    match fst (transport rq) with
    | Done response => try_catch (on_response response) on_error w1
    | Raised error => on_error error w1
    | Pending => (Pending, w1)
    end.
Proof.
  unfold makeRequest. erewrite bind_done by apply make_config_issued.
  unfold try_catch, bind at 1, await_axios, transport, issued.
  cbn [heap sent fst snd].
  destruct (axios URL _ _) as [[r|e|] h']; reflexivity.
Qed.

Lemma on_error_fail error w :
  read (heap w) error "status" = Some (str "fail") ->
  on_error error w = (Raised error, w).
Proof.
  intros Hs. unfold on_error. erewrite bind_done by by apply get_prop_read.
  by rewrite strict_eq_refl.
Qed.

Lemma makeRequest_resolved URL rc w response h' body st :
  transport (issued URL rc w) = (Done response, h') ->
  read h' response "data" = Some body ->
  read h' body "status" = Some st ->
  st <> str "fail" ->
  makeRequest URL rc w = (Done body, World h' (sent w ++ [issued URL rc w])).
Proof.
  intros Ht Hb Hs Hne. rewrite makeRequest_unfold; cbv zeta; rewrite Ht. cbn [fst snd].
  unfold try_catch, on_response.
  erewrite bind_done by by apply get_prop_read.
  erewrite bind_done by by apply get_prop_read.
  apply strict_eq_false in Hne. by rewrite Hne.
Qed.

Lemma makeRequest_fail_envelope URL rc w response h' body :
  transport (issued URL rc w) = (Done response, h') ->
  read h' response "data" = Some body ->
  read h' body "status" = Some (str "fail") ->
  makeRequest URL rc w = (Raised body, World h' (sent w ++ [issued URL rc w])).
Proof.
  intros Ht Hb Hs. rewrite makeRequest_unfold; cbv zeta; rewrite Ht. cbn [fst snd].
  unfold try_catch, on_response.
  erewrite bind_done by by apply get_prop_read.
  erewrite bind_done by by apply get_prop_read.
  rewrite strict_eq_refl. cbn [throw]. by apply on_error_fail.
Qed.

Lemma instanceof_run v w :
  instanceof_DOMException v w = (Done (is_DOMException (heap w) v), w).
Proof. reflexivity. Qed.

Lemma on_error_classify error w st :
  read (heap w) error "status" = Some st -> st <> str "fail" ->
  is_DOMException (heap w) error = false ->
  on_error error w =
    (dr <- classify error ;; custom_error error (fst dr) (snd dr)) w.
Proof.
  intros Hs Hne Hd. unfold on_error.
  erewrite bind_done by by apply get_prop_read.
  apply strict_eq_false in Hne. rewrite Hne.
  erewrite bind_done by apply instanceof_run. by rewrite Hd.
Qed.

Lemma classify_envelope error w eresponse b bo code :
  read (heap w) error "response" = Some eresponse ->
  truthy eresponse = true ->
  read (heap w) eresponse "data" = Some (VRef b) ->
  heap w !! b = Some bo ->
  truthy (field bo "status") = true ->
  read (heap w) eresponse "status" = Some code ->
  classify error w =
    (Raised (VRef b),
     World (<[b := Obj (o_kind bo) (<["errorCode" := code]> (props bo))]> (heap w))
       (sent w)).
Proof.
  intros He Ht Hd Hb Hs Hc. unfold classify.
  erewrite bind_done by by apply get_prop_read. rewrite Ht.
  erewrite bind_done by by apply get_prop_read.
  cbn [truthy].
  erewrite bind_raised; [reflexivity|].
  erewrite bind_done by by apply get_prop_ref. rewrite Hs.
  erewrite bind_done by by apply get_prop_read.
  erewrite bind_done by by apply set_prop_ref. reflexivity.
Qed.

Lemma classify_connection error w eresponse erequest :
  read (heap w) error "response" = Some eresponse ->
  truthy eresponse = false ->
  read (heap w) error "request" = Some erequest ->
  truthy erequest = true ->
  read (heap w) error "code" = Some (str "ENOTFOUND") ->
  classify error w = (Raised (VRef CONNECTION_ERROR), w).
Proof.
  intros He Ht Hr Hq Hc. unfold classify.
  erewrite bind_done by by apply get_prop_read. rewrite Ht.
  erewrite bind_done by by apply get_prop_read. rewrite Hq.
  erewrite bind_done by by apply get_prop_read.
  by rewrite strict_eq_refl.
Qed.

Lemma makeRequest_rejected URL rc w error h' :
  transport (issued URL rc w) = (Raised error, h') ->
  makeRequest URL rc w = on_error error (World h' (sent w ++ [issued URL rc w])).
Proof. intros Ht. rewrite makeRequest_unfold; cbv zeta; by rewrite Ht. Qed.

Lemma never_done_on_error error : never_done (on_error error).
Proof. unfold on_error, custom_error. never_done_auto. Qed.

Lemma makeRequest_done_inv URL rc w body w' :
  makeRequest URL rc w = (Done body, w') ->
  exists response st,
    transport (issued URL rc w) = (Done response, heap w')
    /\ read (heap w') response "data" = Some body
    /\ read (heap w') body "status" = Some st
    /\ st <> str "fail"
    /\ sent w' = sent w ++ [issued URL rc w].
Proof.
  rewrite makeRequest_unfold; cbv zeta.
  destruct (transport (issued URL rc w)) as [[response|error|] h'] eqn:Ht;
    cbn [fst snd]; [| intros Hd; by apply never_done_on_error in Hd | done].
  unfold try_catch.
  destruct (on_response response _) as [[a|e|] w1] eqn:Hr;
    [| intros Hd; by apply never_done_on_error in Hd | done].
  intros [= -> ->]. unfold on_response in Hr.
  apply bind_done_inv in Hr as (data & w2 & Hg1 & Hr).
  apply get_prop_done_inv in Hg1 as [Hd1 ->].
  apply bind_done_inv in Hr as (st & w3 & Hg2 & Hr).
  apply get_prop_done_inv in Hg2 as [Hd2 ->].
  destruct (strict_eq st (str "fail")) eqn:Hs; [done|].
  injection Hr as <- <-. cbn [heap sent] in *.
  exists response, st. repeat split; try done. by apply strict_eq_false.
Qed.
End Dispatcher.

Lemma axios_error_read h error eo key :
  axios_error h error eo -> read h error key = Some (field eo key).
Proof. intros (e & m & -> & He & _). unfold read. by rewrite He. Qed.

Lemma axios_error_not_DOM h error eo :
  axios_error h error eo -> is_DOMException h error = false.
Proof.
  intros (e & m & -> & He & Hk & _). unfold is_DOMException.
  by rewrite He; simpl; rewrite Hk.
Qed.

Lemma read_ref h l o key : h !! l = Some o -> read h (VRef l) key = Some (field o key).
Proof. unfold read. by intros ->. Qed.

Lemma makeRequest_rejected_envelope `{Env} URL rc w error eo h' r ro b bo :
  transport (issued URL rc w) = (Raised error, h') ->
  axios_error h' error eo ->
  field eo "response" = VRef r -> h' !! r = Some ro ->
  field ro "data" = VRef b -> h' !! b = Some bo ->
  truthy (field bo "status") = true ->
  makeRequest URL rc w =
    (Raised (VRef b),
     World (<[b := Obj (o_kind bo) (<["errorCode" := field ro "status"]> (props bo))]> h')
       (sent w ++ [issued URL rc w])).
Proof.
  intros Ht Ha Hr Hro Hd Hb Hs.
  rewrite (makeRequest_rejected _ _ _ _ _ Ht).
  erewrite on_error_classify;
    [| by apply axios_error_read | by destruct Ha as (?&?&?&?&?&?)
     | by eapply axios_error_not_DOM].
  erewrite bind_raised; [reflexivity|].
  eapply classify_envelope; cbn [heap].
  - erewrite axios_error_read by done. by rewrite Hr.
  - done.
  - erewrite read_ref by done. by rewrite Hd.
  - done.
  - done.
  - by erewrite read_ref.
Qed.

Lemma makeRequest_unresolved_host `{Env} URL rc w error eo h' :
  transport (issued URL rc w) = (Raised error, h') ->
  axios_error h' error eo ->
  truthy (field eo "response") = false ->
  truthy (field eo "request") = true ->
  field eo "code" = str "ENOTFOUND" ->
  makeRequest URL rc w =
    (Raised (VRef CONNECTION_ERROR), World h' (sent w ++ [issued URL rc w])).
Proof.
  intros Ht Ha Hr Hq Hc.
  rewrite (makeRequest_rejected _ _ _ _ _ Ht).
  erewrite on_error_classify;
    [| by apply axios_error_read | by destruct Ha as (?&?&?&?&?&?)
     | by eapply axios_error_not_DOM].
  erewrite bind_raised; [reflexivity|].
  eapply classify_connection; cbn [heap]; try (by eapply axios_error_read); try done.
  erewrite axios_error_read by done. by rewrite Hc.
Qed.

(** C1, as stated, fails.  The transport settles with a response whose
    decoded body is [{status: "success", data: {username: "alice"}}];
    [makeRequest] resolves, but with the body (the object at 4), and
    not with a value that is [{username: "alice"}]. *)
Lemma makeRequest_resolves_data_counterexample :
  let h' := snd (@transport alice_env (issued alice_url no_config module_init)) in
  @transport alice_env (issued alice_url no_config module_init) = (Done (VRef 3%nat), h')
  /\ read h' (VRef 3%nat) "data" = Some (VRef 4%nat)
  /\ h' !! 4%nat = Some (plain [("status", str "success"); ("data", VRef 5%nat)])
  /\ h' !! 5%nat = Some (plain [("username", str "alice")])
  /\ ~ exists v w',
        @makeRequest alice_env alice_url no_config module_init = (Done v, w')
        /\ denotes (heap w') v (plain [("username", str "alice")]).
Proof.
  cbv zeta. repeat split; try (vm_compute; reflexivity).
  intros (v & w' & Hr & l & -> & Hl).
  vm_compute in Hr. injection Hr as <- <-.
  apply (f_equal (fun o => o ≫= fun o => props o !! "status")) in Hl.
  vm_compute in Hl. discriminate.
Qed.

(** C1, amended.  When the transport settles with a response whose
    decoded body is the envelope
    [{status: "success", data: {username: "alice"}}], [makeRequest]
    resolves with that envelope itself (the same object), leaving the
    heap as the transport left it; [{username: "alice"}] is its [data]
    field, which the callers take out. *)
Theorem makeRequest_resolves_envelope `{Env} (URL : value) (rc : request_config)
    (w : world) (response : value) (h' : list object) (b d : loc) :
  transport (issued URL rc w) = (Done response, h') ->
  read h' response "data" = Some (VRef b) ->
  h' !! b = Some (plain [("status", str "success"); ("data", VRef d)]) ->
  h' !! d = Some (plain [("username", str "alice")]) ->
  makeRequest URL rc w = (Done (VRef b), World h' (sent w ++ [issued URL rc w])).
Proof.
  intros Ht Hb Hbo _. eapply makeRequest_resolved; [done | done | by erewrite read_ref |].
  vm_compute. discriminate.
Qed.

Lemma makeRequest_resolves_envelope_witness :
  exists w', @makeRequest alice_env alice_url no_config module_init = (Done (VRef 4%nat), w').
Proof.
  eexists.
  apply (@makeRequest_resolves_envelope alice_env alice_url no_config module_init
           (VRef 3%nat)
           (snd (@transport alice_env (issued alice_url no_config module_init)))
           4%nat 5%nat); vm_compute; reflexivity.
Defined.

Lemma plain_lookup_ne (fs gs : list (string * value)) (k : string) :
  (list_to_map fs : gmap string value) !! k <> (list_to_map gs : gmap string value) !! k ->
  plain fs <> plain gs.
Proof. intros Hne [= Heq]. by rewrite Heq in Hne. Qed.

(** C2.  When the transport rejects with an error of axios that carries
    a response of status 400 whose body is the envelope
    [{status: "fail", data: {errorReason: X, errorMessage: Y}}],
    [makeRequest] raises that body: its [errorCode] is now 400 and its
    [data] is the body's [data], unchanged. *)
Theorem makeRequest_rejected_fail_envelope `{Env} (URL : value)
    (rc : request_config) (w : world) (error : value) (eo ro : object)
    (h' : list object) (r b d : loc) (X Y : jstr) :
  transport (issued URL rc w) = (Raised error, h') ->
  axios_error h' error eo ->
  field eo "response" = VRef r -> h' !! r = Some ro ->
  field ro "status" = VNum 400 -> field ro "data" = VRef b ->
  h' !! b = Some (plain [("status", str "fail"); ("data", VRef d)]) ->
  h' !! d = Some (plain [("errorReason", VStr X); ("errorMessage", VStr Y)]) ->
  exists w' o',
    makeRequest URL rc w = (Raised (VRef b), w')
    /\ heap w' !! b = Some o'
    /\ field o' "errorCode" = VNum 400
    /\ field o' "data" = VRef d
    /\ heap w' !! d = Some (plain [("errorReason", VStr X); ("errorMessage", VStr Y)])
    /\ sent w' = sent w ++ [issued URL rc w].
Proof.
  intros Ht Ha Hr Hro Hst Hd Hb Hdo.
  eexists _, _. split.
  { eapply makeRequest_rejected_envelope; try done. }
  assert (b <> d) as Hne.
  { intros ->. rewrite Hb in Hdo.
    apply (plain_lookup_ne [("status", str "fail"); ("data", VRef d)]
             [("errorReason", VStr X); ("errorMessage", VStr Y)] "status");
      [vm_compute; discriminate | congruence]. }
  cbn [heap sent]. rewrite Hst.
  split; [apply list_lookup_insert_eq; by eapply lookup_lt_Some|].
  split; [apply field_insert|].
  split; [reflexivity|].
  split; [by rewrite list_lookup_insert_ne | done].
Qed.

Lemma makeRequest_rejected_fail_envelope_witness :
  exists w' o',
    @makeRequest fail_env alice_url no_config module_init = (Raised (VRef 5%nat), w')
    /\ heap w' !! 5%nat = Some o'
    /\ field o' "errorCode" = VNum 400
    /\ field o' "data" = VRef 6%nat
    /\ heap w' !! 6%nat = Some (plain [("errorReason", str "X"); ("errorMessage", str "Y")])
    /\ sent w' = sent module_init ++ [issued alice_url no_config module_init].
Proof.
  apply (@makeRequest_rejected_fail_envelope fail_env alice_url no_config module_init
           (VRef 3%nat)
           (Obj (KError (lit "Request failed with status code 400"))
              {[ "response" := VRef 4%nat ]})
           (plain [("data", VRef 5%nat); ("status", VNum 400)])
           (snd (@transport fail_env (issued alice_url no_config module_init)))
           4%nat 5%nat 6%nat (lit "X") (lit "Y"));
    try (vm_compute; reflexivity).
  exists 3%nat, (lit "Request failed with status code 400").
  repeat split; try (vm_compute; reflexivity). vm_compute. discriminate.
Defined.

(** C7.  When the transport rejects with an error of axios that carries
    a request, no response, and the code ["ENOTFOUND"], [makeRequest]
    raises the reference [CONNECTION_ERROR], the one error object made
    when the module was loaded; any two such calls, in whatever
    environment and heap, raise the same value. *)
Theorem makeRequest_connection_error_singleton {E : Env} (URL : value)
    (rc : request_config) (w : world) (error : value) (eo : object)
    (h' : list object) :
  transport (issued URL rc w) = (Raised error, h') ->
  axios_error h' error eo ->
  truthy (field eo "response") = false ->
  truthy (field eo "request") = true ->
  field eo "code" = str "ENOTFOUND" ->
  makeRequest URL rc w =
    (Raised (VRef CONNECTION_ERROR), World h' (sent w ++ [issued URL rc w]))
  /\ forall (E2 : Env) URL2 rc2 w2 error2 eo2 h2,
       @transport E2 (issued URL2 rc2 w2) = (Raised error2, h2) ->
       axios_error h2 error2 eo2 ->
       truthy (field eo2 "response") = false ->
       truthy (field eo2 "request") = true ->
       field eo2 "code" = str "ENOTFOUND" ->
       fst (@makeRequest E2 URL2 rc2 w2) = fst (@makeRequest E URL rc w).
Proof.
  intros Ht Ha Hr Hq Hc.
  pose proof (makeRequest_unresolved_host _ _ _ _ _ _ Ht Ha Hr Hq Hc) as H1.
  split; [done|].
  intros E2 URL2 rc2 w2 error2 eo2 h2 Ht2 Ha2 Hr2 Hq2 Hc2.
  rewrite H1.
  by rewrite (@makeRequest_unresolved_host E2 _ _ _ _ _ _ Ht2 Ha2 Hr2 Hq2 Hc2).
Qed.

Lemma makeRequest_connection_error_singleton_witness :
  @makeRequest dns_env alice_url no_config module_init =
    (Raised (VRef CONNECTION_ERROR),
     World (snd (@transport dns_env (issued alice_url no_config module_init)))
       (sent module_init ++ [issued alice_url no_config module_init])).
Proof.
  apply (@makeRequest_connection_error_singleton dns_env alice_url no_config
           module_init (VRef 3%nat)
           (Obj (KError (lit "getaddrinfo ENOTFOUND"))
              {[ "request" := VRef 4%nat; "code" := str "ENOTFOUND" ]})
           (snd (@transport dns_env (issued alice_url no_config module_init))));
    try (vm_compute; reflexivity).
  exists 3%nat, (lit "getaddrinfo ENOTFOUND").
  repeat split; try (vm_compute; reflexivity). vm_compute. discriminate.
Defined.

(** ** [attachImageToRequest] *)

Lemma extends_refl h : extends h h.
Proof. by intros l o. Qed.

Lemma extends_trans h1 h2 h3 : extends h1 h2 -> extends h2 h3 -> extends h1 h3.
Proof. intros H1 H2 l o Hl. eauto. Qed.

Lemma extends_snoc h o : extends h (h ++ [o]).
Proof. intros l o' Hl. by apply lookup_app_l_Some. Qed.

Lemma field_buffer_length b : field (Obj (KBuffer b) ∅) "length" = num_of_nat (length b).
Proof. reflexivity. Qed.

Lemma fit_length_exact (bs : list byte) : fit_length (length bs) bs = bs.
Proof.
  unfold fit_length. rewrite firstn_all, Nat.sub_diag. apply app_nil_r.
Qed.

Lemma bytes_of_ref h l b p :
  h !! l = Some (Obj (KBuffer b) p) -> bytes_of (VRef l) h = b.
Proof. unfold bytes_of. by intros ->. Qed.

Lemma on_data_run chunks : forall b acc w,
  heap w !! b = Some (Obj (KBuffer acc) ∅) ->
  exists b' w',
    on_data chunks (VRef b) w = (Done (VRef b'), w')
    /\ heap w' !! b' = Some (Obj (KBuffer (acc ++ concat chunks)) ∅)
    /\ extends (heap w) (heap w')
    /\ sent w' = sent w.
Proof.
  induction chunks as [|c chunks IH]; intros b acc [h st] Hb; cbn [heap sent] in *.
  - exists b, (World h st). rewrite app_nil_r. repeat split; try done. apply extends_refl.
  - cbn [on_data concat].
    set (w1 := World (h ++ [Obj (KBuffer c) ∅]) st).
    set (w2 := World ((h ++ [Obj (KBuffer c) ∅]) ++ [Obj (KBuffer (acc ++ c)) ∅]) st).
    assert (heap w1 !! b = Some (Obj (KBuffer acc) ∅)) as Hb1
      by (by apply extends_snoc).
    destruct (IH (length (heap w1)) (acc ++ c) w2) as (b' & w' & Hr & Hb' & He & Hs).
    { apply lookup_snoc. }
    exists b', w'. split; [|split; [|split]].
    + rewrite (bind_done _ _ _ (VRef (length h)) w1) by done.
      erewrite bind_done by (apply get_prop_ref, lookup_snoc).
      erewrite bind_done by (by apply get_prop_ref).
      rewrite !field_buffer_length.
      erewrite bind_done; [exact Hr|].
      unfold Buffer_concat, alloc.
      rewrite (bytes_of_ref _ _ _ _ Hb1).
      erewrite (bytes_of_ref _ (length h) c) by apply lookup_snoc.
      unfold js_plus, num_of_nat.
      replace (Z.to_nat (Z.of_nat (length c) + Z.of_nat (length acc)))
        with (length (acc ++ c)) by (rewrite length_app; lia).
      by rewrite fit_length_exact.
    + cbn [concat]. by rewrite app_assoc.
    + eapply extends_trans; [|exact He]. cbn [heap w2].
      eapply extends_trans; apply extends_snoc.
    + done.
Qed.

Lemma kind_of_ref l w o :
  heap w !! l = Some o -> kind_of (VRef l) w = (Done (Some (o_kind o)), w).
Proof. unfold kind_of. by intros ->. Qed.

Lemma set_kind_run l k w o :
  heap w !! l = Some o ->
  exists w',
    set_kind (VRef l) k w = (Done tt, w')
    /\ heap w' !! l = Some (Obj k (props o))
    /\ (forall j, l <> j -> heap w' !! j = heap w !! j)
    /\ sent w' = sent w.
Proof.
  intros Hl. eexists. split; [reflexivity|]. cbn [heap sent].
  split; [by rewrite list_lookup_alter_eq, Hl|].
  split; [|done]. intros j Hj. by apply list_lookup_alter_ne.
Qed.

Lemma form_append_run f es p e w :
  heap w !! f = Some (Obj (KFormDataNode es) p) ->
  exists w',
    form_append (VRef f) e w = (Done tt, w')
    /\ heap w' !! f = Some (Obj (KFormDataNode (es ++ [e])) p)
    /\ (forall j, f <> j -> heap w' !! j = heap w !! j)
    /\ sent w' = sent w.
Proof.
  intros Hf.
  destruct (set_kind_run f (KFormDataNode (es ++ [e])) w _ Hf) as (w' & Hr & Hw).
  exists w'. split; [|done].
  unfold form_append. erewrite bind_done by by apply kind_of_ref. done.
Qed.

Lemma default_headers_run v w :
  exists hv w0,
    default_param v (new_object []) w = (Done hv, w0)
    /\ extends (heap w) (heap w0) /\ sent w0 = sent w.
Proof.
  destruct v; try (eexists _, w; repeat split; [apply extends_refl]).
  eexists _, _. split; [reflexivity|]. split; [apply extends_snoc | done].
Qed.

Section Attacher.
Context `{Env}.

(** The form and the stream when the branch for a stream is entered. *)
Lemma attach_prefix (c : image_config) (f : loc) (w : world) :
  f = length (heap w) ->
  exists es w2,
    (when (truthy (ic_otherData c))
       (fun w => form_append (VRef f)
          (FormEntry "JSON" (JSON_stringify (ic_otherData c) (heap w)) VUndef) w))
      (World (heap w ++ [Obj (KFormDataNode []) ∅]) (sent w)) = (Done tt, w2)
    /\ heap w2 !! f = Some (Obj (KFormDataNode es) ∅)
    /\ (forall j, f <> j -> heap w2 !! j = (heap w ++ [Obj (KFormDataNode []) ∅]) !! j)
    /\ sent w2 = sent w.
Proof.
  intros ->. destruct (truthy (ic_otherData c)); cbn [when].
  - set (w1 := World (heap w ++ [Obj (KFormDataNode []) ∅]) (sent w)).
    destruct (form_append_run (length (heap w)) [] ∅
                (FormEntry "JSON" (JSON_stringify (ic_otherData c) (heap w1)) VUndef) w1)
      as (w2 & Hr & Hf & Ho & Hs); [apply lookup_snoc|].
    eexists _, w2. split; [exact Hr|]. split; [exact Hf|]. by split.
  - eexists [], _. split; [reflexivity|]. cbn [heap sent].
    split; [apply lookup_snoc|done].
Qed.

(** The branch for a stream that ends: the buffer passed on holds
    every chunk, in order. *)
Lemma drain_run (l : loc) (o : object) (chunks : list (list byte)) (w : world) :
  heap w !! l = Some o ->
  exists b w',
    (buffer <- alloc (Obj (KBuffer []) ∅) ;;
     drain (VRef l) chunks true buffer) w = (Done (VRef b), w')
    /\ heap w' !! b = Some (Obj (KBuffer (concat chunks)) ∅)
    /\ heap w' !! l = Some (Obj (KReadable [] false) (props o))
    /\ (forall j x, l <> j -> heap w !! j = Some x -> heap w' !! j = Some x)
    /\ sent w' = sent w.
Proof.
  intros Hl.
  set (w1 := World (heap w ++ [Obj (KBuffer []) ∅]) (sent w)).
  assert (heap w1 !! l = Some o) as Hl1 by (by apply extends_snoc).
  destruct (set_kind_run l (KReadable [] false) w1 o Hl1) as (w2 & Hk & Hl2 & Ho2 & Hs2).
  assert (l <> length (heap w)) as Hne by (apply lookup_lt_Some in Hl; lia).
  destruct (on_data_run chunks (length (heap w)) [] w2) as (b & w3 & Hd & Hb & He & Hs3).
  { rewrite Ho2 by done. apply lookup_snoc. }
  exists b, w3. split; [|split; [done|split; [|split]]].
  - rewrite (bind_done _ _ _ (VRef (length (heap w))) w1) by done.
    unfold drain. erewrite bind_done by exact Hk.
    erewrite bind_done by exact Hd. done.
  - by apply He.
  - intros j x Hj Hx. apply He. rewrite Ho2 by done. by apply extends_snoc.
  - by rewrite Hs3, Hs2.
Qed.

Lemma drain_run_k (l : loc) (o : object) (chunks : list (list byte)) (w : world) :
  heap w !! l = Some o ->
  exists b w',
    heap w' !! b = Some (Obj (KBuffer (concat chunks)) ∅)
    /\ (forall j x, l <> j -> heap w !! j = Some x -> heap w' !! j = Some x)
    /\ sent w' = sent w
    /\ forall B (k : value -> M B),
         (buffer <- alloc (Obj (KBuffer []) ∅) ;;
          buffer <- drain (VRef l) chunks true buffer ;; k buffer) w
         = k (VRef b) w'.
Proof.
  intros Hl. destruct (drain_run l o chunks w Hl) as (b & w' & Hr & Hb & _ & Ho & Hs).
  exists b, w'. repeat split; try done.
  intros B k. unfold bind in *.
  destruct (alloc _ w) as [[a| |] w1]; try done.
  destruct (drain _ _ _ _ w1) as [[a'| |] w2]; try done.
  by injection Hr as -> ->.
Qed.

Lemma appendDataToFormData_run (imageName data len : value) (f : loc)
    (es : list form_entry) (w : world) :
  heap w !! f = Some (Obj (KFormDataNode es) ∅) ->
  exists opts w',
    appendDataToFormData imageName (VRef f) data len w = (Done tt, w')
    /\ heap w' !! f = Some (Obj (KFormDataNode (es ++ [FormEntry "image" data (VRef opts)])) ∅)
    /\ read (heap w') (VRef opts) "knownLength" = Some len
    /\ (forall j x, f <> j -> heap w !! j = Some x -> heap w' !! j = Some x)
    /\ sent w' = sent w.
Proof.
  intros Hf. unfold appendDataToFormData.
  set (hd := plain [("Content-Transfer-Encoding", str "binary")]).
  set (w1 := World (heap w ++ [hd]) (sent w)).
  set (op := plain [("knownLength", len); ("contentType", str "image/*");
                    ("filename", imageName); ("header", VRef (length (heap w)))]).
  set (w2 := World (heap w1 ++ [op]) (sent w)).
  assert (f <> length (heap w1)) as Hne.
  { apply lookup_lt_Some in Hf. unfold w1. cbn [heap]. rewrite length_app. lia. }
  destruct (form_append_run f es ∅ (FormEntry "image" data (VRef (length (heap w1)))) w2)
    as (w3 & Hr & Hf3 & Ho3 & Hs3).
  { by do 2 apply extends_snoc. }
  exists (length (heap w1)), w3.
  split; [|split; [done|split; [|split]]].
  - rewrite (bind_done _ _ _ (VRef (length (heap w))) w1) by done.
    rewrite (bind_done _ _ _ (VRef (length (heap w1))) w2) by done.
    exact Hr.
  - unfold read. rewrite Ho3 by done. unfold w2. cbn [heap].
    rewrite lookup_snoc. reflexivity.
  - intros j x Hj Hx. rewrite Ho3 by done. by do 2 apply extends_snoc.
  - done.
Qed.

Lemma attachImageToRequest_stream (l : loc) (o : object)
    (chunks : list (list byte)) (c : image_config) (w : world) :
  isNode = true -> heap w !! l = Some o -> o_kind o = KReadable chunks true ->
  (concat chunks = [] ->
   exists e w',
     attachImageToRequest (VRef l) c w = (Raised (VRef e), w')
     /\ heap w' !! e =
          Some (Obj (KError (lit "Provided Readable stream has no data.")) ∅))
  /\ (concat chunks <> [] ->
      exists fragment w' f es buffer options,
        attachImageToRequest (VRef l) c w = (Done fragment, w')
        /\ heap w' !! f =
             Some (Obj (KFormDataNode
                          (es ++ [FormEntry "image" (VRef buffer) (VRef options)])) ∅)
        /\ heap w' !! buffer = Some (Obj (KBuffer (concat chunks)) ∅)
        /\ read (heap w') (VRef options) "knownLength"
           = Some (num_of_nat (length (concat chunks)))).
Proof.
  intros Hn Hl Hk.
  destruct (default_headers_run (ic_headers c) w) as (hv & w0 & Hd & He0 & Hs0).
  pose proof (He0 _ _ Hl) as Hl0.
  destruct (attach_prefix c (length (heap w0)) w0 eq_refl)
    as (es & w2 & Hp & Hf2 & Ho2 & Hs2).
  assert (length (heap w0) <> l) as Hfl by (apply lookup_lt_Some in Hl0; lia).
  assert (heap w2 !! l = Some o) as Hl2.
  { rewrite Ho2 by done. by apply extends_snoc. }
  destruct (drain_run_k l o chunks w2 Hl2) as (b & w3 & Hb & Ho3 & Hs3 & Hdr).
  assert (length (heap w0) <> b) as Hfb.
  { intros <-. rewrite (Ho3 _ _ (not_eq_sym Hfl) Hf2) in Hb. done. }
  assert (heap w3 !! length (heap w0) = Some (Obj (KFormDataNode es) ∅)) as Hf3
    by (apply Ho3; [by apply not_eq_sym | done]).
  split; intros Hc;
    unfold attachImageToRequest; cbv zeta;
    rewrite (bind_done _ _ _ _ _ Hd);
    (erewrite bind_done by (by apply kind_of_ref));
    rewrite Hn, Hk;
    rewrite (bind_done _ _ _ (VRef (length (heap w0)))
               (World (heap w0 ++ [Obj (KFormDataNode []) ∅]) (sent w0))) by done;
    rewrite (bind_done _ _ _ _ _ Hp);
    unfold bind at 1; rewrite Hdr;
    (erewrite bind_done by (by apply get_prop_ref));
    rewrite field_buffer_length; cbv beta.
  - rewrite Hc. cbn [length num_of_nat Z.of_nat]. rewrite strict_eq_refl.
    eexists _, _. split; [reflexivity|]. cbn [heap]. apply lookup_snoc.
  - assert (strict_eq (num_of_nat (length (concat chunks))) (VNum 0) = false) as ->.
    { apply strict_eq_false. unfold num_of_nat. intros [= Hz].
      destruct (concat chunks); [done | simpl in Hz; lia]. }
    destruct (appendDataToFormData_run
                (or_default (ic_imageName c) (str "client-js.jpg"))
                (VRef b) (num_of_nat (length (concat chunks)))
                (length (heap w0)) es w3 Hf3)
      as (opts & w4 & Ha & Hf4 & Hk4 & Ho4 & Hs4).
    rewrite Ha.
    erewrite bind_done by (by apply kind_of_ref). cbn [o_kind].
    eexists _, _, (length (heap w0)), es, b, opts.
    split; [reflexivity|]. cbn [heap].
    split; [by do 3 apply extends_snoc|].
    split; [do 3 apply extends_snoc; by apply Ho4|].
    unfold read in *. destruct (heap w4 !! opts) as [oo|] eqn:Hoo; [|done].
    by erewrite (extends_snoc _ _ _ _ (extends_snoc _ _ _ _ (extends_snoc _ _ _ _ Hoo))).
Qed.

Lemma drain_pending (l : loc) (o : object) (chunks : list (list byte)) (w : world) :
  heap w !! l = Some o ->
  exists w', forall B (k : value -> M B),
    (buffer <- alloc (Obj (KBuffer []) ∅) ;;
     buffer <- drain (VRef l) chunks false buffer ;; k buffer) w = (Pending, w').
Proof.
  intros Hl.
  set (w1 := World (heap w ++ [Obj (KBuffer []) ∅]) (sent w)).
  assert (heap w1 !! l = Some o) as Hl1 by (by apply extends_snoc).
  destruct (set_kind_run l (KReadable [] false) w1 o Hl1) as (w2 & Hk & Hl2 & Ho2 & Hs2).
  assert (l <> length (heap w)) as Hne by (apply lookup_lt_Some in Hl; lia).
  destruct (on_data_run chunks (length (heap w)) [] w2) as (b & w3 & Hd & _).
  { rewrite Ho2 by done. apply lookup_snoc. }
  exists w3. intros B k.
  rewrite (bind_done _ _ _ (VRef (length (heap w))) w1) by done.
  apply bind_pending. unfold drain.
  erewrite bind_done by exact Hk. erewrite bind_done by exact Hd. done.
Qed.

Lemma attachImageToRequest_stream_pending (l : loc) (o : object)
    (chunks : list (list byte)) (c : image_config) (w : world) :
  isNode = true -> heap w !! l = Some o -> o_kind o = KReadable chunks false ->
  exists w', attachImageToRequest (VRef l) c w = (Pending, w').
Proof.
  intros Hn Hl Hk.
  destruct (default_headers_run (ic_headers c) w) as (hv & w0 & Hd & He0 & Hs0).
  pose proof (He0 _ _ Hl) as Hl0.
  destruct (attach_prefix c (length (heap w0)) w0 eq_refl)
    as (es & w2 & Hp & Hf2 & Ho2 & Hs2).
  assert (length (heap w0) <> l) as Hfl by (apply lookup_lt_Some in Hl0; lia).
  assert (heap w2 !! l = Some o) as Hl2.
  { rewrite Ho2 by done. by apply extends_snoc. }
  destruct (drain_pending l o chunks w2 Hl2) as (w3 & Hdr).
  exists w3.
  unfold attachImageToRequest; cbv zeta;
    rewrite (bind_done _ _ _ _ _ Hd);
    (erewrite bind_done by (by apply kind_of_ref));
    rewrite Hn, Hk;
    rewrite (bind_done _ _ _ (VRef (length (heap w0)))
               (World (heap w0 ++ [Obj (KFormDataNode []) ∅]) (sent w0))) by done;
    rewrite (bind_done _ _ _ _ _ Hp).
  apply bind_pending. apply Hdr.
Qed.

Lemma quiet_form_append f e : quiet (form_append f e).
Proof. unfold form_append. quiet_auto. Qed.

Lemma quiet_appendDataToFormData n f d k : quiet (appendDataToFormData n f d k).
Proof. unfold appendDataToFormData. quiet_auto. apply quiet_form_append. Qed.

Lemma quiet_on_data chunks : forall b, quiet (on_data chunks b).
Proof.
  induction chunks as [|c chunks IH]; intros b; cbn [on_data]; quiet_auto.
Qed.

Lemma quiet_drain i chunks ends b : quiet (drain i chunks ends b).
Proof. unfold drain. quiet_auto. apply quiet_on_data. Qed.

Lemma quiet_attachImageToRequest i c : quiet (attachImageToRequest i c).
Proof.
  unfold attachImageToRequest. cbv zeta.
  repeat first
    [ apply quiet_form_append | apply quiet_appendDataToFormData
    | apply quiet_drain
    | match goal with
      | |- quiet (when _ _) => apply quiet_when; intros w; apply quiet_form_append
      end
    | quiet_step ].
Qed.
End Attacher.

Lemma attach_cases t w :
  (exists hv w1,
     attachAuthTokenToHeader t VUndef w = (Done hv, w1)
     /\ extends (heap w) (heap w1))
  \/ (exists e w1, attachAuthTokenToHeader t VUndef w = (Raised e, w1)).
Proof.
  destruct (truthy t) eqn:Ht.
  - destruct t; try discriminate;
      try (right; unfold attachAuthTokenToHeader, bind; cbn [default_param new_object alloc];
           rewrite Ht; cbn; by eexists _, _).
    destruct (has_ws s) eqn:Hs.
    + right. destruct (attach_invalid s VUndef w Hs) as (l & w' & Hr & _). eauto.
    + left. eexists _, _. split; [apply attach_fresh; [by destruct s | done]|].
      apply extends_snoc.
  - left. unfold attachAuthTokenToHeader, bind. cbn [default_param new_object alloc].
    rewrite Ht. eexists _, _. split; [reflexivity|]. apply extends_snoc.
Qed.

Lemma quiet_call_toJSON `{Env} e : quiet (call_toJSON e).
Proof. intros w. unfold call_toJSON. by destruct (toJSON e (heap w)). Qed.

Lemma quiet_on_error `{Env} e : quiet (on_error e).
Proof.
  unfold on_error, classify, custom_error.
  repeat first [apply quiet_call_toJSON | quiet_step].
Qed.

Lemma quiet_try_catch {A} (m : M A) (k : value -> M A) :
  quiet m -> (forall e, quiet (k e)) -> quiet (try_catch m k).
Proof.
  intros Hm Hk w. unfold try_catch. specialize (Hm w).
  destruct (m w) as [[a|e|] w1]; simpl in *; [done| |done].
  by rewrite Hk.
Qed.

Lemma makeRequest_sent `{Env} URL rc w :
  sent (snd (makeRequest URL rc w)) = sent w ++ [issued URL rc w].
Proof.
  rewrite makeRequest_unfold. cbv zeta.
  destruct (transport (issued URL rc w)) as [[r|e|] h']; cbn [fst snd].
  - rewrite quiet_try_catch; [done | | apply quiet_on_error].
    unfold on_response. quiet_auto.
  - by rewrite quiet_on_error.
  - done.
Qed.

(** C8.  On the server ([isNode]), with a readable stream as image
    data: once the stream has ended, the buffer handed to the form
    holds every chunk, in order, with its length as [knownLength]; when
    that buffer is empty [attachImageToRequest] throws
    [Error("Provided Readable stream has no data.")], and
    [addProfilePicture] fails without any request being issued; while
    the stream has not ended the call stays pending.  No request is
    issued in any of the cases. *)
Theorem attachImageToRequest_drains_stream `{Env} (l : loc) (o : object)
    (chunks : list (list byte)) (ends : bool) (c : image_config) (w : world) :
  isNode = true -> heap w !! l = Some o -> o_kind o = KReadable chunks ends ->
  (ends = true -> concat chunks = [] ->
   (exists e w',
      attachImageToRequest (VRef l) c w = (Raised (VRef e), w')
      /\ heap w' !! e =
           Some (Obj (KError (lit "Provided Readable stream has no data.")) ∅)
      /\ sent w' = sent w)
   /\ forall baseURL username authToken imageName,
        exists e w',
          addProfilePicture baseURL username authToken (VRef l) imageName w
            = (Raised e, w')
          /\ sent w' = sent w)
  /\ (ends = true -> concat chunks <> [] ->
      exists fragment w' f es buffer options,
        attachImageToRequest (VRef l) c w = (Done fragment, w')
        /\ heap w' !! f =
             Some (Obj (KFormDataNode
                          (es ++ [FormEntry "image" (VRef buffer) (VRef options)])) ∅)
        /\ heap w' !! buffer = Some (Obj (KBuffer (concat chunks)) ∅)
        /\ read (heap w') (VRef options) "knownLength"
           = Some (num_of_nat (length (concat chunks)))
        /\ sent w' = sent w)
  /\ (ends = false ->
      exists w', attachImageToRequest (VRef l) c w = (Pending, w') /\ sent w' = sent w).
Proof.
  intros Hn Hl Hk. split; [|split].
  - intros -> Hc. split.
    + destruct (attachImageToRequest_stream l o chunks c w Hn Hl Hk) as [He _].
      destruct (He Hc) as (e & w' & Hr & Hw). exists e, w'.
      repeat split; try done.
      pose proof (quiet_attachImageToRequest (VRef l) c w) as Hq. by rewrite Hr in Hq.
    + intros baseURL username authToken imageName.
      pose proof (quiet_attachAuthTokenToHeader authToken VUndef w) as Hqa.
      unfold addProfilePicture. cbv zeta.
      destruct (attach_cases authToken w) as [(hv & w1 & Ha & He)|(e & w1 & Ha)];
        rewrite Ha in Hqa; cbn [snd] in Hqa.
      * rewrite (bind_done _ _ _ _ _ Ha).
        set (c' := ImageConfig hv VUndef _).
        destruct (attachImageToRequest_stream l o chunks c' w1 Hn (He _ _ Hl) Hk)
          as [Hs _].
        destruct (Hs Hc) as (e & w' & Hr & Hw). exists (VRef e), w'.
        split; [by apply bind_raised|].
        pose proof (quiet_attachImageToRequest (VRef l) c' w1) as Hq.
        rewrite Hr in Hq. cbn [snd] in Hq. congruence.
      * exists e, w1. split; [by apply bind_raised | done].
  - intros -> Hc.
    destruct (attachImageToRequest_stream l o chunks c w Hn Hl Hk) as [_ He].
    destruct (He Hc) as (fr & w' & f & es & b & op & Hr & H1 & H2 & H3).
    exists fr, w', f, es, b, op. repeat split; try done.
    pose proof (quiet_attachImageToRequest (VRef l) c w) as Hq. by rewrite Hr in Hq.
  - intros ->.
    destruct (attachImageToRequest_stream_pending l o chunks c w Hn Hl Hk) as (w' & Hr).
    exists w'. split; [done|].
    pose proof (quiet_attachImageToRequest (VRef l) c w) as Hq. by rewrite Hr in Hq.
Qed.

Lemma attachImageToRequest_drains_stream_witness :
  (exists e w',
     @attachImageToRequest alice_env (VRef 1%nat) (ImageConfig VUndef VUndef VUndef)
       (stream_world [[]; []]) = (Raised (VRef e), w')
     /\ sent w' = [])
  /\ (exists fragment w',
        @attachImageToRequest alice_env (VRef 1%nat) (ImageConfig VUndef VUndef VUndef)
          (stream_world [[x01; x02]; [x03]]) = (Done fragment, w')
        /\ sent w' = []).
Proof.
  split.
  - destruct (@attachImageToRequest_drains_stream alice_env 1%nat
                (Obj (KReadable [[]; []] true) ∅) [[]; []] true
                (ImageConfig VUndef VUndef VUndef) (stream_world [[]; []])
                eq_refl eq_refl eq_refl) as [He _].
    destruct (He eq_refl eq_refl) as [(e & w' & Hr & _ & Hs) _].
    by exists e, w'.
  - destruct (@attachImageToRequest_drains_stream alice_env 1%nat
                (Obj (KReadable [[x01; x02]; [x03]] true) ∅) [[x01; x02]; [x03]] true
                (ImageConfig VUndef VUndef VUndef) (stream_world [[x01; x02]; [x03]])
                eq_refl eq_refl eq_refl) as (_ & He & _).
    destruct (He eq_refl ltac:(discriminate))
      as (fr & w' & f & es & b & op & Hr & _ & _ & _ & Hs).
    by exists fr, w'.
Defined.

(** ** The clients *)

Lemma sent_bind_quiet {A B} (m : M A) (k : A -> M B) w :
  (forall a, quiet (k a)) -> sent (snd (bind m k w)) = sent (snd (m w)).
Proof.
  intros Hk. unfold bind. destruct (m w) as [[a|e|] w1]; cbn [snd]; [apply Hk|done|done].
Qed.

Lemma lookup_app_1 (h : list object) a b r : (h ++ a :: b :: r) !! S (length h) = Some b.
Proof.
  change (h ++ a :: b :: r) with (h ++ [a] ++ b :: r). rewrite app_assoc.
  apply list_lookup_middle. rewrite length_app. simpl. lia.
Qed.

Lemma issued_eq URL rc w :
  issued URL rc w =
    (URL, VRef (S (length (heap w))),
     heap w ++ [Obj KPlain (spread (rc_headers rc) (heap w));
                config_object URL rc (length (heap w))]).
Proof.
  unfold issued, make_config, bind. cbn [alloc new_object heap sent fst snd].
  rewrite length_app, <- app_assoc. cbn [length app]. by rewrite Nat.add_1_r.
Qed.

(** C9.  With the empty string as token [attachAuthTokenToHeader]
    returns [undefined], and behaves exactly as with an absent token,
    whatever the [headers] argument is; [getUser] called without a token
    issues one request, whose [headers] object is empty: it has no
    [Authorization] entry. *)
Theorem attachAuthTokenToHeader_empty_token `{Env}
    (headers baseURL username : value) (w : world) :
  fst (attachAuthTokenToHeader (VStr []) headers w) = Done VUndef
  /\ attachAuthTokenToHeader (VStr []) headers w
     = attachAuthTokenToHeader VUndef headers w
  /\ exists config hs h,
       sent (snd (getUser baseURL username VUndef w))
       = sent w ++ [(template [baseURL; str "/users/"; username], VRef config, h)]
       /\ read h (VRef config) "headers" = Some (VRef hs)
       /\ h !! hs = Some (Obj KPlain ∅).
Proof.
  split; [by apply attach_falsy|]. split; [by destruct headers|].
  unfold getUser. cbv zeta. cbn [or_default].
  set (w1 := World (heap w ++ [plain []]) (sent w)).
  rewrite (bind_done _ _ _ VUndef w1) by done.
  rewrite sent_bind_quiet by (intros a; apply quiet_get_prop).
  rewrite makeRequest_sent.
  rewrite issued_eq.
  eexists _, _, _. split; [reflexivity|].
  split.
  - unfold read. rewrite lookup_app_1. reflexivity.
  - by rewrite list_lookup_middle.
Qed.

(** C10.  The method [getFeedPosts] of the client made by
    [NewFeedServiceClient] does not look at [onlyIds]: with any value
    for it (in particular [true]) the call yields the same outcome,
    heap and requests issued as with [false] or with none. *)
Theorem FeedServiceClient_getFeedPosts_discards_onlyIds `{Env}
    (client username token limit offset sorting onlyIds : value) (w : world) :
  FeedServiceClient.getFeedPosts client username token
    (FeedOptions limit offset sorting onlyIds) w
  = FeedServiceClient.getFeedPosts client username token
      (FeedOptions limit offset sorting VUndef) w
  /\ FeedServiceClient.getFeedPosts client username token
       (FeedOptions limit offset sorting (VBool true)) w
     = FeedServiceClient.getFeedPosts client username token
         (FeedOptions limit offset sorting (VBool false)) w.
Proof. split; reflexivity. Qed.

(** The method and the function differ: called directly, [getFeedPosts]
    passes [onlyIds] on. *)
Example getFeedPosts_keeps_onlyIds :
  let o b := FeedOptions VUndef VUndef VUndef (VBool b) in
  @getFeedPosts alice_env (str "http://localhost:8080") (str "alice") VUndef (o true)
    module_init
  <> @getFeedPosts alice_env (str "http://localhost:8080") (str "alice") VUndef (o false)
       module_init.
Proof. vm_compute. discriminate. Qed.

Section Operations.
Context `{Env}.

Lemma bind_assoc {A B C} (m : M A) (k : A -> M B) (k' : B -> M C) w :
  bind (bind m k) k' w = bind m (fun a => bind (k a) k') w.
Proof. unfold bind. by destruct (m w) as [[a|e|] w1]. Qed.

Lemma bind_ret_l {A B} (a : A) (k : A -> M B) w : bind (ret a) k w = k a w.
Proof. reflexivity. Qed.

Lemma bind_ext {A B} (m : M A) (k k' : A -> M B) w :
  (forall a w1, k a w1 = k' a w1) -> bind m k w = bind m k' w.
Proof. intros Hk. unfold bind. by destruct (m w) as [[a|e|] w1]. Qed.

Lemma bind_ret_r {A} (m : M A) w : bind m ret w = m w.
Proof. unfold bind. by destruct (m w) as [[a|e|] w1]. Qed.

Lemma run_factor (c : call) (w : world) :
  run c w =
    (p <- prepare c ;; r <- makeRequest (fst p) (snd p) ;; finish c r) w.
Proof.
  destruct c; unfold run, prepare, finish; cbn [returns_envelope];
    unfold getUser, addUser, deleteUser, updateUser, searchUsers, getUsers,
      searchUsers, addPostBookmark, getUserBookmarks, deleteBookmark,
      addProfilePicture, removeProfilePicture, getFeedPosts, subscribeToChannel;
    cbv zeta; cbn [or_default];
    repeat first
      [ rewrite bind_ret_l; cbn [fst snd]
      | rewrite bind_assoc
      | rewrite bind_ret_r; reflexivity
      | reflexivity
      | apply bind_ext; intros ? ? ].
Qed.

Lemma quiet_prepare (c : call) : quiet (prepare c).
Proof.
  destruct c; unfold prepare; cbv zeta;
    repeat first [apply quiet_attachImageToRequest | quiet_step].
Qed.

Lemma quiet_finish (c : call) r : quiet (finish c r).
Proof. unfold finish. quiet_auto. Qed.
End Operations.

Lemma snoc_not_self {A} (l : list A) x : l <> l ++ [x].
Proof.
  intros Heq. apply (f_equal length) in Heq. rewrite length_app in Heq. simpl in Heq. lia.
Qed.

(** C3, as stated, fails.  [deleteUser] answered with
    [{status: "success", data: {username: "alice"}}] resolves with the
    envelope (the object at 5) and not with its [data] (the object at
    6); and when the host does not resolve it raises
    [CONNECTION_ERROR], an [Error] with neither [status] nor [data]. *)
Lemma deleteUser_resolves_envelope_counterexample :
  let base := str "http://localhost:8080" in
  let r := @deleteUser alice_env base (str "alice") (str "token") module_init in
  fst r = Done (VRef 5%nat)
  /\ heap (snd r) !! 5%nat = Some (plain [("status", str "success"); ("data", VRef 6%nat)])
  /\ heap (snd r) !! 6%nat = Some (plain [("username", str "alice")])
  /\ fst r <> Done (VRef 6%nat)
  /\ let r2 := @deleteUser dns_env base (str "alice") (str "token") module_init in
     fst r2 = Raised (VRef CONNECTION_ERROR)
     /\ heap (snd r2) !! CONNECTION_ERROR = Some connection_error_object
     /\ field connection_error_object "status" = VUndef
     /\ field connection_error_object "data" = VUndef.
Proof.
  cbv zeta. repeat split; try (vm_compute; reflexivity). vm_compute. discriminate.
Qed.

(** C3, amended.  For each of the thirteen resource operations: a call
    that resolves has issued one request, the transport has settled
    with a response whose decoded body has a [status] other than
    ["fail"], and the call returns the [data] field of that body, or,
    for [deleteUser], [addPostBookmark], [deleteBookmark] and
    [removeProfilePicture], the body itself.  A call whose request is
    answered with a body of status ["fail"] raises that body; a call
    whose request is rejected by an error of axios carrying a response
    whose body has a truthy [status] raises that body, with the HTTP
    status as [errorCode]. *)
Theorem resource_operation_outcome `{Env} (c : call) (w : world)
    (r : outcome value) (w' : world) :
  run c w = (r, w') ->
  (forall v, r = Done v ->
     exists rq response body st,
       sent w' = sent w ++ [rq]
       /\ transport rq = (Done response, heap w')
       /\ read (heap w') response "data" = Some body
       /\ read (heap w') body "status" = Some st
       /\ st <> str "fail"
       /\ if returns_envelope c then v = body
          else read (heap w') body "data" = Some v)
  /\ (forall rq response h' body,
        sent w' = sent w ++ [rq] ->
        transport rq = (Done response, h') ->
        read h' response "data" = Some body ->
        read h' body "status" = Some (str "fail") ->
        r = Raised body /\ heap w' = h')
  /\ (forall rq error h' eo r0 ro b bo,
        sent w' = sent w ++ [rq] ->
        transport rq = (Raised error, h') ->
        axios_error h' error eo ->
        field eo "response" = VRef r0 -> h' !! r0 = Some ro ->
        field ro "data" = VRef b -> h' !! b = Some bo ->
        truthy (field bo "status") = true ->
        r = Raised (VRef b)
        /\ heap w' =
           <[b := Obj (o_kind bo) (<["errorCode" := field ro "status"]> (props bo))]> h').
Proof.
  rewrite run_factor. intros Hrun.
  pose proof (quiet_prepare c w) as Hqp.
  unfold bind at 1 in Hrun.
  destruct (prepare c w) as [[[URL rc]|e|] w1]; cbn [fst snd] in *.
  2,3: injection Hrun as <- <-; split; [done|]; split; intros;
       match goal with
       | Hs : sent _ = sent _ ++ [_] |- _ =>
           rewrite Hqp in Hs; by apply snoc_not_self in Hs
       end.
  pose proof (makeRequest_sent URL rc w1) as Hsent. rewrite Hqp in Hsent.
  unfold bind in Hrun.
  destruct (makeRequest URL rc w1) as [[body|e|] w2] eqn:Hm; cbn [snd] in Hsent.
  - pose proof (quiet_finish c body w2) as Hqf. rewrite Hrun in Hqf. cbn [snd] in Hqf.
    split; [|split].
    + intros v ->.
      destruct (makeRequest_done_inv _ _ _ _ _ Hm) as (response & st & Ht & Hb & Hs & Hne & _).
      unfold finish in Hrun.
      destruct (returns_envelope c).
      * injection Hrun as <- <-. exists (issued URL rc w1), response, body, st.
        by rewrite Hsent.
      * apply get_prop_done_inv in Hrun as [Hd ->].
        exists (issued URL rc w1), response, body, st. by rewrite Hsent.
    + intros rq response h' body' Hs Ht Hb Hf.
      rewrite Hqf, Hsent in Hs. apply app_inj_tail in Hs as [_ <-].
      rewrite (makeRequest_fail_envelope _ _ _ _ _ _ Ht Hb Hf) in Hm. done.
    + intros rq error h' eo r0 ro b bo Hs Ht Ha Hr0 Hro Hd Hbo Htr.
      rewrite Hqf, Hsent in Hs. apply app_inj_tail in Hs as [_ <-].
      rewrite (makeRequest_rejected_envelope _ _ _ _ _ _ _ _ _ _ Ht Ha Hr0 Hro Hd Hbo Htr)
        in Hm. done.
  - injection Hrun as <- <-. split; [done|]. split.
    + intros rq response h' body' Hs Ht Hb Hf.
      rewrite Hsent in Hs. apply app_inj_tail in Hs as [_ <-].
      rewrite (makeRequest_fail_envelope _ _ _ _ _ _ Ht Hb Hf) in Hm.
      by injection Hm as <- <-.
    + intros rq error h' eo r0 ro b bo Hs Ht Ha Hr0 Hro Hd Hbo Htr.
      rewrite Hsent in Hs. apply app_inj_tail in Hs as [_ <-].
      rewrite (makeRequest_rejected_envelope _ _ _ _ _ _ _ _ _ _ Ht Ha Hr0 Hro Hd Hbo Htr)
        in Hm. by injection Hm as <- <-.
  - injection Hrun as <- <-. split; [done|]. split.
    + intros rq response h' body' Hs Ht Hb Hf.
      rewrite Hsent in Hs. apply app_inj_tail in Hs as [_ <-].
      rewrite (makeRequest_fail_envelope _ _ _ _ _ _ Ht Hb Hf) in Hm. done.
    + intros rq error h' eo r0 ro b bo Hs Ht Ha Hr0 Hro Hd Hbo Htr.
      rewrite Hsent in Hs. apply app_inj_tail in Hs as [_ <-].
      rewrite (makeRequest_rejected_envelope _ _ _ _ _ _ _ _ _ _ Ht Ha Hr0 Hro Hd Hbo Htr)
        in Hm. done.
Qed.

Lemma resource_operation_outcome_witness :
  let base := str "http://localhost:8080" in
  let c := DeleteUser base (str "alice") (str "token") in
  let w' := snd (@run alice_env c module_init) in
  exists rq response body,
    sent w' = [rq]
    /\ @transport alice_env rq = (Done response, heap w')
    /\ read (heap w') response "data" = Some body
    /\ VRef 5%nat = body.
Proof.
  cbv zeta.
  destruct (@resource_operation_outcome alice_env
              (DeleteUser (str "http://localhost:8080") (str "alice") (str "token"))
              module_init (Done (VRef 5%nat))
              (snd (@run alice_env
                      (DeleteUser (str "http://localhost:8080") (str "alice")
                         (str "token")) module_init)))
    as [Hd _]; [vm_compute; reflexivity|].
  destruct (Hd _ eq_refl) as (rq & response & body & st & Hs & Ht & Hb & _ & _ & Hv).
  exists rq, response, body. by repeat split.
Defined.

(** * Further properties

    From here on a numeral is a natural number unless it is marked. *)

Close Scope Z_scope.

(** ** Pages and query parameters *)

Section Pages.
Local Open Scope Z_scope.

Lemma read_snoc h o key : read (h ++ [o]) (VRef (length h)) key = Some (field o key).
Proof. unfold read. by rewrite lookup_snoc. Qed.



Lemma extends_app h extra : extends h (h ++ extra).
Proof. intros l o Hl. by apply lookup_app_l_Some. Qed.

Lemma lookup_app_1_len (h : list object) a b :
  (h ++ [a; b]) !! length (h ++ [a]) = Some b.
Proof. change (h ++ [a; b]) with (h ++ [a] ++ [b]). rewrite app_assoc. apply lookup_snoc. Qed.

Lemma generateQueryParams_heap o w :
  exists l extra,
    generateQueryParams o w = (Done (VRef l), World (heap w ++ extra) (sent w))
    /\ (heap w ++ extra) !! l = Some (Obj KPlain (query_props o))
    /\ (length (heap w) <= l)%nat.
Proof.
  destruct w as [h st]. unfold generateQueryParams.
  rewrite (bind_done _ _ _ (VRef (length h)) (World (h ++ [plain []]) st)) by done.
  unfold query_props. cbn [heap sent].
  destruct (truthy (js_or (limit o) (offset o))).
  - erewrite bind_done; [|reflexivity]. cbn [heap sent].
    rewrite generateQueryParams_tail, spread_snoc.
    change (props (plain [])) with (∅ : gmap string value).
    rewrite (left_id_L ∅ (∪)).
    eexists _, [plain []; _].
    split; [by rewrite <- app_assoc|]. split.
    + apply lookup_app_1_len.
    + rewrite length_app. lia.
  - erewrite bind_done; [|reflexivity].
    change (plain []) with (Obj KPlain ∅).
    rewrite generateQueryParams_tail.
    eexists _, [_]. split; [reflexivity|]. split; [apply lookup_snoc | lia].
Qed.

Lemma query_props_pattern o :
  query_props o !! "pattern" = if truthy (pattern o) then Some (pattern o) else None.
Proof.
  unfold query_props.
  destruct (truthy (onlyIds o)), (truthy (pattern o)), (truthy (sortParameter o)),
    (truthy (js_or (limit o) (offset o)));
    by simplify_map_eq.
Qed.

Lemma query_props_onlyPKeys o :
  query_props o !! "onlyPKeys" = if truthy (onlyIds o) then Some (VBool true) else None.
Proof.
  unfold query_props.
  destruct (truthy (onlyIds o)), (truthy (pattern o)), (truthy (sortParameter o)),
    (truthy (js_or (limit o) (offset o)));
    by simplify_map_eq.
Qed.

(** X2.  [generateQueryParams] builds its result from nothing else: the
    object returned is new, every object already in the heap is left as
    it was, and no request is issued.  [pattern] is an entry of the
    result, with the value passed, exactly when it is truthy, and
    [onlyPKeys] is an entry exactly when [onlyIds] is truthy, its value
    then being [true] whatever truthy value was passed. *)
Theorem generateQueryParams_fresh (o : query_options) (w : world) :
  exists l w' po,
    generateQueryParams o w = (Done (VRef l), w')
    /\ heap w !! l = None
    /\ heap w' !! l = Some po
    /\ extends (heap w) (heap w')
    /\ sent w' = sent w
    /\ props po !! "pattern" = (if truthy (pattern o) then Some (pattern o) else None)
    /\ props po !! "onlyPKeys" = (if truthy (onlyIds o) then Some (VBool true) else None).
Proof.
  destruct (generateQueryParams_heap o w) as (l & extra & Hr & Hl & Hle).
  eexists l, _, _. split; [exact Hr|]. cbn [heap sent].
  split; [by apply lookup_ge_None|]. split; [exact Hl|].
  split; [apply extends_app|]. split; [done|]. cbn [props].
  split; [apply query_props_pattern | apply query_props_onlyPKeys].
Qed.



End Pages.

(** ** [makeRequest]: the request and the ways it fails *)

(** X4.  [makeRequest] issues exactly one request, whatever the transport
    then does.  The request carries the URL and a new configuration
    object: the URL again, the method (or [get]), the response type (or
    [json]) and [data], [params] and [transformRequest] as passed.  Its
    [headers] are a new object with the entries of the headers passed: a
    copy, so the mapping of the caller is not the one sent, and it is
    left as it was. *)
Theorem makeRequest_request `{Env} (URL : value) (rc : request_config) (w : world) :
  exists c hs h,
    sent (snd (makeRequest URL rc w)) = sent w ++ [(URL, VRef c, h)]
    /\ heap w !! c = None /\ heap w !! hs = None
    /\ extends (heap w) h
    /\ h !! c = Some (plain
         [ ("method", or_default (rc_method rc) (str "get"));
           ("headers", VRef hs);
           ("url", URL);
           ("responseType", or_default (rc_responseType rc) (str "json"));
           ("data", rc_data rc);
           ("params", rc_params rc);
           ("transformRequest", rc_transformRequest rc) ])
    /\ h !! hs = Some (Obj KPlain (spread (rc_headers rc) (heap w)))
    /\ forall l o, rc_headers rc = VRef l -> heap w !! l = Some o ->
         hs <> l /\ h !! l = Some o /\ h !! hs = Some (Obj KPlain (props o)).
Proof.
  rewrite makeRequest_sent, issued_eq.
  eexists (S (length (heap w))), (length (heap w)), _.
  split; [reflexivity|].
  split; [apply lookup_ge_None; lia|]. split; [by apply lookup_ge_None|].
  split; [apply extends_app|].
  split; [apply lookup_app_1|].
  split; [by apply list_lookup_middle|].
  intros l o Hh Hl. split; [apply lookup_lt_Some in Hl; lia|].
  split; [by apply extends_app|].
  rewrite list_lookup_middle by done. unfold spread. by rewrite Hh, Hl.
Qed.

(** X5.  [makeRequest] resolves only when the transport settled with a
    response.  The value is then the [data] of that response; it has a
    [status] to read, so it is neither [undefined] nor [null], and that
    status is not ["fail"]; one request was issued. *)
Theorem makeRequest_resolves_only `{Env} (URL : value) (rc : request_config)
    (w : world) (body : value) (w' : world) :
  makeRequest URL rc w = (Done body, w') ->
  body <> VUndef /\ body <> VNull
  /\ exists response st,
       transport (issued URL rc w) = (Done response, heap w')
       /\ read (heap w') response "data" = Some body
       /\ read (heap w') body "status" = Some st
       /\ st <> str "fail"
       /\ sent w' = sent w ++ [issued URL rc w].
Proof.
  intros Hm.
  destruct (makeRequest_done_inv _ _ _ _ _ Hm) as (response & st & Ht & Hb & Hs & Hne & Hsent).
  split; [by intros ->|]. split; [by intros ->|].
  by exists response, st.
Qed.

Lemma makeRequest_resolves_only_witness :
  VRef 4%nat <> VUndef /\ VRef 4%nat <> VNull.
Proof.
  destruct (@makeRequest_resolves_only alice_env alice_url no_config module_init
              (VRef 4%nat)
              (snd (@makeRequest alice_env alice_url no_config module_init)))
    as (H1 & H2 & _); [vm_compute; reflexivity|].
  by split.
Defined.

(** X6.  A rejection of the transport is never turned into a result:
    whatever the error is, [makeRequest] does not resolve.  While the
    transport does not settle, neither does [makeRequest]. *)
Theorem makeRequest_keeps_failure `{Env} (URL : value) (rc : request_config)
    (w : world) (h' : list object) :
  (forall error, transport (issued URL rc w) = (Raised error, h') ->
     forall v w', makeRequest URL rc w <> (Done v, w'))
  /\ (transport (issued URL rc w) = (Pending, h') ->
      makeRequest URL rc w = (Pending, World h' (sent w ++ [issued URL rc w]))).
Proof.
  split.
  - intros error Ht v w' Hm. rewrite (makeRequest_rejected _ _ _ _ _ Ht) in Hm.
    by apply never_done_on_error in Hm.
  - intros Ht. rewrite makeRequest_unfold. cbv zeta. by rewrite Ht.
Qed.

Lemma makeRequest_keeps_failure_witness :
  (forall v w', @makeRequest dns_env alice_url no_config module_init <> (Done v, w'))
  /\ exists w', @makeRequest stalled_env alice_url no_config module_init = (Pending, w').
Proof.
  split.
  - destruct (@makeRequest_keeps_failure dns_env alice_url no_config module_init
                (snd (@transport dns_env (issued alice_url no_config module_init))))
      as [Hr _].
    apply (Hr (VRef 3%nat)). vm_compute. reflexivity.
  - destruct (@makeRequest_keeps_failure stalled_env alice_url no_config module_init
                (snd (@transport stalled_env (issued alice_url no_config module_init))))
      as [_ Hp].
    eexists. apply Hp. vm_compute. reflexivity.
Defined.

(** X7.  A response the transport settles with whose body has the
    status ["fail"] is thrown, not returned: [makeRequest] raises the
    body itself, and adds nothing to the heap. *)
Theorem makeRequest_fail_on_success `{Env} (URL : value) (rc : request_config)
    (w : world) (response body : value) (h' : list object) :
  transport (issued URL rc w) = (Done response, h') ->
  read h' response "data" = Some body ->
  read h' body "status" = Some (str "fail") ->
  makeRequest URL rc w = (Raised body, World h' (sent w ++ [issued URL rc w])).
Proof. apply makeRequest_fail_envelope. Qed.

Lemma makeRequest_fail_on_success_witness :
  exists w',
    @makeRequest fail200_env alice_url no_config module_init = (Raised (VRef 4%nat), w')
    /\ heap w' !! 4%nat = Some (plain [("status", str "fail"); ("data", VRef 5%nat)]).
Proof.
  eexists. split.
  - apply (@makeRequest_fail_on_success fail200_env alice_url no_config module_init
             (VRef 3%nat) (VRef 4%nat)
             (snd (@transport fail200_env (issued alice_url no_config module_init))));
      vm_compute; reflexivity.
  - vm_compute. reflexivity.
Defined.

(** X8.  An error whose own [status] is ["fail"] is thrown again as it
    is: the same value, with no [errorCode] added, whatever else it
    carries (a response included). *)
Theorem makeRequest_reraises_fail `{Env} (URL : value) (rc : request_config)
    (w : world) (error : value) (h' : list object) :
  transport (issued URL rc w) = (Raised error, h') ->
  read h' error "status" = Some (str "fail") ->
  makeRequest URL rc w = (Raised error, World h' (sent w ++ [issued URL rc w])).
Proof.
  intros Ht Hs. rewrite (makeRequest_rejected _ _ _ _ _ Ht). by apply on_error_fail.
Qed.

Lemma makeRequest_reraises_fail_witness :
  @makeRequest envelope_env alice_url no_config module_init =
    (Raised (VRef 3%nat),
     World (snd (@transport envelope_env (issued alice_url no_config module_init)))
       (sent module_init ++ [issued alice_url no_config module_init])).
Proof.
  apply (@makeRequest_reraises_fail envelope_env alice_url no_config module_init
           (VRef 3%nat)); vm_compute; reflexivity.
Defined.

(** X9.  A [DOMException] of the transport is replaced by a new [Error]:
    [Invalid input: unable to parse input.] when its name is
    [SyntaxError], and otherwise an error that keeps the exception under
    [domException]. *)
Theorem makeRequest_DOMException `{Env} (URL : value) (rc : request_config)
    (w : world) (e : loc) (eo : object) (n : jstr) (h' : list object) :
  transport (issued URL rc w) = (Raised (VRef e), h') ->
  h' !! e = Some eo -> o_kind eo = KDOMException n ->
  field eo "status" <> str "fail" ->
  (field eo "name" = str "SyntaxError" ->
   makeRequest URL rc w =
     (Raised (VRef (length h')),
      World (h' ++ [Obj (KError (lit "Invalid input: unable to parse input.")) ∅])
        (sent w ++ [issued URL rc w])))
  /\ (field eo "name" <> str "SyntaxError" ->
      makeRequest URL rc w =
        (Raised (VRef (length h')),
         World (h' ++ [Obj (KError (lit "unexpected exception: DOMException thrown by axios. Attached to this error object under property {domException}"))
                         {[ "domException" := VRef e ]}])
           (sent w ++ [issued URL rc w]))).
Proof.
  intros Ht He Hk Hs.
  rewrite (makeRequest_rejected _ _ _ _ _ Ht). unfold on_error.
  erewrite bind_done by (by apply get_prop_ref).
  apply strict_eq_false in Hs. rewrite Hs.
  erewrite bind_done by apply instanceof_run.
  unfold is_DOMException. cbn [heap]. rewrite He. cbn [fmap option_fmap option_map].
  rewrite Hk. cbv iota beta.
  erewrite (bind_done (get_prop (VRef e) "name")) by (by apply get_prop_ref).
  split; intros Hn.
  - rewrite Hn, strict_eq_refl. reflexivity.
  - apply strict_eq_false in Hn. rewrite Hn.
    erewrite bind_done by reflexivity. cbn [heap sent].
    erewrite bind_done by apply set_prop_snoc.
    cbn [throw o_kind props]. by rewrite insert_empty.
Qed.

Lemma makeRequest_DOMException_witness :
  (exists w',
     @makeRequest syntax_env alice_url no_config module_init = (Raised (VRef 4%nat), w')
     /\ heap w' !! 4%nat
        = Some (Obj (KError (lit "Invalid input: unable to parse input.")) ∅))
  /\ (exists w' m,
        @makeRequest abort_env alice_url no_config module_init = (Raised (VRef 4%nat), w')
        /\ heap w' !! 4%nat = Some (Obj (KError m) {[ "domException" := VRef 3%nat ]})).
Proof.
  split.
  - destruct (@makeRequest_DOMException syntax_env alice_url no_config module_init
                3%nat (Obj (KDOMException (lit "SyntaxError")) ∅) (lit "SyntaxError")
                (snd (@transport syntax_env (issued alice_url no_config module_init))))
      as [Hs _]; try (vm_compute; reflexivity); [vm_compute; discriminate|].
    eexists. split; [apply Hs; vm_compute; reflexivity|]. vm_compute. reflexivity.
  - destruct (@makeRequest_DOMException abort_env alice_url no_config module_init
                3%nat (Obj (KDOMException (lit "AbortError")) ∅) (lit "AbortError")
                (snd (@transport abort_env (issued alice_url no_config module_init))))
      as [_ Hs]; try (vm_compute; reflexivity); [vm_compute; discriminate|].
    eexists _, _. split; [apply Hs; vm_compute; discriminate|]. vm_compute. reflexivity.
Defined.

Lemma custom_error_run `{Env} error description response w j jo c co h2 :
  toJSON error (heap w) = (Done (VRef j), h2) ->
  h2 !! j = Some jo -> field jo "config" = VRef c -> h2 !! c = Some co ->
  custom_error error description response w =
    (Raised (VRef (S (length h2))),
     World (h2 ++ [custom_request_object co;
                   custom_error_object jo co description response (VRef (length h2))])
       (sent w)).
Proof.
  intros Ht Hj Hc Hco. unfold custom_error.
  rewrite (bind_done _ _ _ (VRef j) (World h2 (sent w)))
    by (unfold call_toJSON; by rewrite Ht).
  do 6 (erewrite bind_done by (by apply get_prop_ref)).
  rewrite Hc.
  do 6 (erewrite bind_done by (by apply get_prop_ref)).
  cbv zeta.
  erewrite bind_done by reflexivity. erewrite bind_done by reflexivity.
  cbn [throw heap sent]. rewrite <- app_assoc, length_app. cbn [app length].
  by rewrite Nat.add_1_r.
Qed.

Lemma classify_server error w eresponse ro r :
  read (heap w) error "response" = Some eresponse ->
  eresponse = VRef r -> heap w !! r = Some ro ->
  (truthy (field ro "data") = true ->
   exists s, read (heap w) (field ro "data") "status" = Some s /\ truthy s = false) ->
  classify error w =
    (Done (lit "there was a response; ", VRef (length (heap w))),
     World (heap w ++ [plain [ ("status", field ro "status");
                               ("statusText", field ro "statusText");
                               ("headers", field ro "headers");
                               ("data", field ro "data") ]]) (sent w)).
Proof.
  intros He -> Hr Hd. unfold classify.
  erewrite bind_done by (by apply get_prop_read). cbn [truthy].
  erewrite bind_done by (by apply get_prop_ref).
  assert ((if truthy (field ro "data")
           then status <- get_prop (field ro "data") "status" ;;
                (if truthy status
                 then code <- get_prop (VRef r) "status" ;;
                      set_prop (field ro "data") "errorCode" code ;;; throw (field ro "data")
                 else ret tt)
           else ret tt) w = (Done tt, w)) as Hstep.
  { destruct (truthy (field ro "data")); [|done].
    destruct (Hd eq_refl) as (s & Hs & Hf).
    erewrite bind_done by (by apply get_prop_read). by rewrite Hf. }
  erewrite bind_done by exact Hstep.
  do 4 (erewrite bind_done by (by apply get_prop_ref)).
  erewrite bind_done by reflexivity. reflexivity.
Qed.

Lemma classify_no_response error w eresponse erequest code :
  read (heap w) error "response" = Some eresponse ->
  truthy eresponse = false ->
  read (heap w) error "request" = Some erequest ->
  read (heap w) error "code" = Some code ->
  (truthy erequest = true -> code <> str "ENOTFOUND") ->
  classify error w =
    (Done ((if truthy erequest then lit "no response was received; "
            else lit "setting up request failed; "), VUndef), w).
Proof.
  intros He Ht Hr Hc Hne. unfold classify.
  erewrite bind_done by (by apply get_prop_read). rewrite Ht.
  erewrite bind_done by (by apply get_prop_read).
  destruct (truthy erequest); [|done].
  erewrite bind_done by (by apply get_prop_read).
  specialize (Hne eq_refl). apply strict_eq_false in Hne. by rewrite Hne.
Qed.

(** X10.  An error of axios with a response whose body is absent, or has
    no truthy [status], makes [makeRequest] throw a new record.  It has
    [message], [name], [number] and [code] of the error's JSON form; the
    description ["there was a response; "], followed by the error's own
    description if it has one; a [response] with [status], [statusText],
    [headers] and [data] of the response; and a [request] with [url],
    [method], [headers], [data], [timeout] and [responseType] of the
    error's configuration. *)
Theorem makeRequest_server_error `{Env} (URL : value) (rc : request_config)
    (w : world) (error : value) (eo ro jo co : object) (r j c : loc)
    (h' h2 : list object) :
  transport (issued URL rc w) = (Raised error, h') ->
  axios_error h' error eo ->
  field eo "response" = VRef r -> h' !! r = Some ro ->
  (truthy (field ro "data") = true ->
   exists s, read h' (field ro "data") "status" = Some s /\ truthy s = false) ->
  toJSON error
    (h' ++ [plain [ ("status", field ro "status");
                    ("statusText", field ro "statusText");
                    ("headers", field ro "headers");
                    ("data", field ro "data") ]]) = (Done (VRef j), h2) ->
  h2 !! j = Some jo -> field jo "config" = VRef c -> h2 !! c = Some co ->
  makeRequest URL rc w =
    (Raised (VRef (S (length h2))),
     World (h2 ++ [custom_request_object co;
                   custom_error_object jo co (lit "there was a response; ")
                     (VRef (length h')) (VRef (length h2))])
       (sent w ++ [issued URL rc w])).
Proof.
  intros Ht Ha Hr Hro Hd Hj Hjo Hc Hco.
  rewrite (makeRequest_rejected _ _ _ _ _ Ht).
  erewrite on_error_classify;
    [| by apply axios_error_read | by destruct Ha as (?&?&?&?&?&?)
     | by eapply axios_error_not_DOM].
  erewrite bind_done;
    [| eapply classify_server; cbn [heap]; [by eapply axios_error_read|done|done|done]].
  cbn [fst snd]. by eapply custom_error_run.
Qed.

(** X11.  An error of axios without a response, other than that of an
    unresolved host, makes [makeRequest] throw a record of the same
    shape with [response] undefined.  Its description is
    ["no response was received; "] when the error has a request and
    ["setting up request failed; "] when it has none. *)
Theorem makeRequest_no_response `{Env} (URL : value) (rc : request_config)
    (w : world) (error : value) (eo jo co : object) (j c : loc)
    (h' h2 : list object) :
  transport (issued URL rc w) = (Raised error, h') ->
  axios_error h' error eo ->
  truthy (field eo "response") = false ->
  (truthy (field eo "request") = true -> field eo "code" <> str "ENOTFOUND") ->
  toJSON error h' = (Done (VRef j), h2) ->
  h2 !! j = Some jo -> field jo "config" = VRef c -> h2 !! c = Some co ->
  makeRequest URL rc w =
    (Raised (VRef (S (length h2))),
     World (h2 ++ [custom_request_object co;
                   custom_error_object jo co
                     (if truthy (field eo "request")
                      then lit "no response was received; "
                      else lit "setting up request failed; ")
                     VUndef (VRef (length h2))])
       (sent w ++ [issued URL rc w])).
Proof.
  intros Ht Ha Hr Hq Hj Hjo Hc Hco.
  rewrite (makeRequest_rejected _ _ _ _ _ Ht).
  erewrite on_error_classify;
    [| by apply axios_error_read | by destruct Ha as (?&?&?&?&?&?)
     | by eapply axios_error_not_DOM].
  erewrite bind_done;
    [| eapply classify_no_response; cbn [heap];
       [by eapply axios_error_read | done | by eapply axios_error_read
       | by eapply axios_error_read | done]].
  cbn [fst snd]. by eapply custom_error_run.
Qed.

Lemma makeRequest_server_error_witness :
  exists w' eo',
    @makeRequest server_env alice_url no_config module_init = (Raised (VRef 9%nat), w')
    /\ heap w' !! 9%nat = Some eo'
    /\ field eo' "description" = str "there was a response; "
    /\ field eo' "response" = VRef 6%nat
    /\ read (heap w') (VRef 6%nat) "status" = Some (VNum 500).
Proof.
  pose (h' := snd (@transport server_env (issued alice_url no_config module_init))).
  pose (ro := plain [("data", str "Internal Server Error"); ("status", VNum 500);
                     ("statusText", str "Internal Server Error"); ("headers", VNull)]).
  pose (h2 := snd (@toJSON server_env (VRef 3%nat)
                     (h' ++ [plain [ ("status", field ro "status");
                                     ("statusText", field ro "statusText");
                                     ("headers", field ro "headers");
                                     ("data", field ro "data") ]]))).
  eexists _, _. split.
  - apply (@makeRequest_server_error server_env alice_url no_config module_init
             (VRef 3%nat)
             (Obj (KError (lit "Request failed with status code 500"))
                {[ "response" := VRef 4%nat; "config" := VRef 5%nat ]})
             ro
             (plain [("message", str "Request failed with status code 500");
                     ("name", str "Error"); ("config", VRef 5%nat); ("code", VUndef)])
             (plain [("url", alice_url); ("method", str "get")])
             4%nat 7%nat 5%nat h' h2);
      try (vm_compute; reflexivity).
    + exists 3%nat, (lit "Request failed with status code 500").
      repeat split; try (vm_compute; reflexivity). vm_compute. discriminate.
    + intros _. exists VUndef. split; vm_compute; reflexivity.
  - repeat split; vm_compute; reflexivity.
Defined.

Lemma makeRequest_no_response_witness :
  exists w' eo',
    @makeRequest timeout_env alice_url no_config module_init = (Raised (VRef 8%nat), w')
    /\ heap w' !! 8%nat = Some eo'
    /\ field eo' "description" = str "no response was received; "
    /\ field eo' "response" = VUndef
    /\ field eo' "code" = str "ECONNABORTED".
Proof.
  pose (h' := snd (@transport timeout_env (issued alice_url no_config module_init))).
  pose (h2 := snd (@toJSON timeout_env (VRef 3%nat) h')).
  eexists _, _. split.
  - apply (@makeRequest_no_response timeout_env alice_url no_config module_init
             (VRef 3%nat)
             (Obj (KError (lit "timeout of 1000ms exceeded"))
                {[ "request" := VRef 4%nat; "code" := str "ECONNABORTED";
                   "config" := VRef 5%nat ]})
             (plain [("message", str "timeout of 1000ms exceeded");
                     ("name", str "Error"); ("config", VRef 5%nat);
                     ("code", str "ECONNABORTED")])
             (plain [("url", alice_url); ("method", str "get"); ("timeout", VNum 1000)])
             6%nat 5%nat h' h2);
      try (vm_compute; reflexivity).
    + exists 3%nat, (lit "timeout of 1000ms exceeded").
      repeat split; try (vm_compute; reflexivity). vm_compute. discriminate.
    + intros _. vm_compute. discriminate.
  - repeat split; vm_compute; reflexivity.
Defined.

(** ** The requests of the operations *)

Section MoreOperations.

Context `{Env}.

Lemma run_sent (c : call) (w : world) :
  (exists p w1,
     prepare c w = (Done p, w1) /\ sent w1 = sent w
     /\ sent (snd (run c w)) = sent w ++ [issued (fst p) (snd p) w1])
  \/ (sent (snd (run c w)) = sent w
      /\ (forall p w1, prepare c w <> (Done p, w1))
      /\ run c w = (match fst (prepare c w) with Raised e => Raised e | _ => Pending end,
                    snd (prepare c w))).
Proof.
  pose proof (run_factor c w) as Hf. pose proof (quiet_prepare c w) as Hq.
  unfold bind at 1 in Hf.
  destruct (prepare c w) as [[[URL rc]|e|] w1]; cbn [fst snd] in *; rewrite Hf.
  - left. exists (URL, rc), w1. split; [done|]. split; [done|].
    rewrite sent_bind_quiet by (intros a; apply quiet_finish).
    by rewrite makeRequest_sent, Hq.
  - right. by repeat split.
  - right. by repeat split.
Qed.

(** X12.  Every operation issues at most one request: the requests after
    it are those before, or those and one more. *)
Theorem operation_one_request (c : call) (w : world) :
  sent (snd (run c w)) = sent w
  \/ exists rq, sent (snd (run c w)) = sent w ++ [rq].
Proof.
  destruct (run_sent c w) as [(p & w1 & _ & _ & Hs)|[Hs _]]; eauto.
Qed.

Lemma request_field_issued URL rc w key :
  request_field (issued URL rc w) key
  = Some (field (config_object URL rc (length (heap w))) key).
Proof.
  rewrite issued_eq. unfold request_field, read. cbn [fst snd].
  by rewrite lookup_app_1.
Qed.

Lemma request_headers_issued URL rc w :
  request_object (issued URL rc w) "headers"
  = Some (Obj KPlain (spread (rc_headers rc) (heap w))).
Proof.
  unfold request_object. rewrite request_field_issued.
  change (field (config_object URL rc (length (heap w))) "headers")
    with (VRef (length (heap w))).
  rewrite issued_eq. cbn [snd]. by rewrite list_lookup_middle.
Qed.

Lemma request_params_issued URL rc w l o :
  rc_params rc = VRef l -> heap w !! l = Some o ->
  request_object (issued URL rc w) "params" = Some o.
Proof.
  intros Hp Hl. unfold request_object. rewrite request_field_issued.
  change (field (config_object URL rc (length (heap w))) "params") with (rc_params rc).
  rewrite Hp, issued_eq. cbn [snd]. by apply extends_app.
Qed.

Lemma prepare_endpoint (c : call) (w : world) p w1 :
  prepare c w = (Done p, w1) ->
  fst p = url_of c /\ or_default (rc_method (snd p)) (str "get") = method_of c.
Proof.
  destruct c; unfold prepare; cbv zeta; intros Hp;
    repeat match goal with
           | Hb : bind _ _ _ = (Done _, _) |- _ =>
               apply bind_done_inv in Hb as (? & ? & _ & Hb)
           end;
    injection Hp as <- <-; by split.
Qed.

(** X13.  The request of an operation goes to the path of its resource
    under the base URL, built from the arguments as they are, with the
    method of the operation; the configuration repeats the URL. *)
Theorem operation_endpoint (c : call) (w : world) (rq : request) :
  sent (snd (run c w)) = sent w ++ [rq] ->
  fst (fst rq) = url_of c
  /\ request_field rq "url" = Some (url_of c)
  /\ request_field rq "method" = Some (method_of c).
Proof.
  intros Hs.
  destruct (run_sent c w) as [(p & w1 & Hp & _ & Hs')|[Hs' _]].
  - rewrite Hs' in Hs. apply app_inj_tail in Hs as [_ <-].
    destruct (prepare_endpoint c w p w1 Hp) as [Hu Hm].
    rewrite !request_field_issued. rewrite <- Hu, <- Hm. by rewrite issued_eq.
  - rewrite Hs' in Hs. by apply snoc_not_self in Hs.
Qed.

Lemma has_ws_truthy s : has_ws s = true -> truthy (VStr s) = true.
Proof. by destruct s. Qed.

Lemma token_or_default t s :
  or_default t (VStr []) = VStr s -> s <> [] -> t = VStr s.
Proof. destruct t; cbn; congruence. Qed.

Lemma prepare_invalid (c : call) (w : world) s :
  token_of c = Some (VStr s) -> has_ws s = true ->
  exists e w1,
    prepare c w = (Raised (VRef e), w1)
    /\ heap w1 !! e = Some (Obj (KError (lit "Invalid authToken")) ∅).
Proof.
  intros Ht Hs.
  assert (s <> []) as Hne by (by intros ->).
  destruct c; cbn [token_of] in Ht; try discriminate; injection Ht as Ht;
    try (apply token_or_default in Ht; [|done]); subst; unfold prepare; cbv zeta.
  9: { (* getFeedPosts allocates its parameters first *)
    set (w1 := World (heap w ++ [plain []]) (sent w)).
    rewrite (bind_done _ _ _ (VRef (length (heap w))) w1) by done.
    match goal with
    | |- context [bind (if ?b then _ else _) _ _] => destruct b
    end.
    - erewrite bind_done by reflexivity.
      match goal with
      | |- context [bind (attachAuthTokenToHeader _ _) _ ?w0] =>
          destruct (attach_invalid s VUndef w0 Hs) as (e & w2 & Hr & He & _)
      end.
      exists e, w2. split; [by apply bind_raised | done].
    - erewrite bind_done by reflexivity.
      destruct (attach_invalid s VUndef w1 Hs) as (e & w2 & Hr & He & _).
      exists e, w2. split; [by apply bind_raised | done]. }
  all: destruct (attach_invalid s VUndef w Hs) as (e & w2 & Hr & He & _);
    exists e, w2; (split; [by apply bind_raised | done]).
Qed.

(** X14.  An operation that takes a token and is given one with a
    white-space character throws [Error("Invalid authToken")] before
    anything is sent: no request is issued. *)
Theorem operation_invalid_token (c : call) (w : world) (s : jstr) :
  token_of c = Some (VStr s) -> (exists u, In u s /\ is_ws u = true) ->
  exists e w',
    run c w = (Raised (VRef e), w')
    /\ heap w' !! e = Some (Obj (KError (lit "Invalid authToken")) ∅)
    /\ sent w' = sent w.
Proof.
  intros Ht Hs. apply has_ws_In in Hs.
  destruct (prepare_invalid c w s Ht Hs) as (e & w1 & Hp & He).
  destruct (run_sent c w) as [(p & w2 & Hp' & _)|(Hs' & _ & Hr)]; [congruence|].
  rewrite Hp in Hr. cbn [fst snd] in Hr. rewrite Hr in Hs'.
  by exists e, w1.
Qed.

Lemma attach_done_spread t w hv w1 :
  attachAuthTokenToHeader t VUndef w = (Done hv, w1) ->
  spread hv (heap w1) = auth_of t
  /\ (forall x, spread hv (heap w1 ++ x) = spread hv (heap w1)).
Proof.
  destruct (truthy t) eqn:Ht.
  - destruct t; try discriminate;
      try (unfold attachAuthTokenToHeader, bind; cbn [default_param new_object alloc];
           rewrite Ht; by cbn).
    destruct (has_ws s) eqn:Hs.
    + destruct (attach_invalid s VUndef w Hs) as (l & w' & Hr & _). congruence.
    + rewrite attach_fresh by (by destruct s). intros [= <- <-]. cbn [heap].
      rewrite spread_snoc. cbn [props]. split; [by destruct s|].
      intros x. unfold spread. rewrite <- app_assoc. cbn [app].
      by rewrite !list_lookup_middle.
  - unfold attachAuthTokenToHeader, bind. cbn [default_param new_object alloc].
    rewrite Ht. intros [= <- <-]. split; [|done].
    destruct t; try done. by destruct s.
Qed.

Lemma attach_ok_done t w :
  token_ok t = true -> exists hv w1, attachAuthTokenToHeader t VUndef w = (Done hv, w1).
Proof.
  intros Hok. destruct (truthy t) eqn:Ht.
  - destruct t; cbn in Hok, Ht; try congruence.
    + by rewrite Ht in Hok.
    + by rewrite Ht in Hok.
    + apply negb_true_iff in Hok. eexists _, _. apply attach_fresh; [by destruct s | done].
  - unfold attachAuthTokenToHeader, bind. cbn [default_param new_object alloc].
    rewrite Ht. by eexists _, _.
Qed.

Lemma prepare_spread (c : call) (w : world) p w1 :
  is_picture c = false -> prepare c w = (Done p, w1) ->
  spread (rc_headers (snd p)) (heap w1) = auth_headers c.
Proof.
  intros Hpic. unfold auth_headers.
  destruct c; try discriminate; unfold prepare; cbv zeta; cbn [token_of]; intros Hp;
    try (injection Hp as <- <-; reflexivity).
  all: repeat match goal with
         | Hb : bind (attachAuthTokenToHeader _ _) _ _ = (Done _, _) |- _ =>
             apply bind_done_inv in Hb as (? & ? & Ha & Hb);
             apply attach_done_spread in Ha as [Ha Hx]
         | Hb : bind _ _ _ = (Done _, _) |- _ =>
             apply bind_done_inv in Hb as (? & ? & ? & Hb)
         end;
    injection Hp as <- <-; cbn [snd rc_headers with_headers heap]; try done.
  match goal with
  | Hk : new_object _ _ = (Done _, _) |- _ => injection Hk as <- <-
  end.
  cbn [heap]. by rewrite Hx.
Qed.

Lemma prepare_ok (c : call) (w : world) :
  is_picture c = false ->
  match token_of c with Some t => token_ok t = true | None => True end ->
  exists p w1, prepare c w = (Done p, w1).
Proof.
  intros Hpic Hok.
  destruct c; try discriminate; unfold prepare; cbv zeta; cbn [token_of] in Hok.
  all: try (by eexists _, _).
  all: try (destruct (attach_ok_done _ w Hok) as (hv & w1 & Ha);
            rewrite (bind_done _ _ _ _ _ Ha); by eexists _, _).
  - match goal with
    | |- context [bind (generateQueryParams ?q) _ _] =>
        destruct (generateQueryParams_run q w) as (l & w1 & Hr & _)
    end.
    rewrite (bind_done _ _ _ _ _ Hr). by eexists _, _.
  - match goal with
    | |- context [bind (generateQueryParams ?q) _ _] =>
        destruct (generateQueryParams_run q w) as (l & w1 & Hr & _)
    end.
    rewrite (bind_done _ _ _ _ _ Hr). by eexists _, _.
  - erewrite bind_done by reflexivity.
    match goal with
    | |- context [bind (if ?b then _ else _) _ _] => destruct b
    end; erewrite bind_done by reflexivity;
      match goal with
      | |- context [bind (attachAuthTokenToHeader _ _) _ ?w0] =>
          destruct (attach_ok_done _ w0 Hok) as (hv & w1 & Ha)
      end; rewrite (bind_done _ _ _ _ _ Ha); by eexists _, _.
Qed.

(** X15.  The headers of the request of an operation other than
    [addProfilePicture] are exactly the [Authorization] made from the
    token, ["Bearer "] and the token, when the token is a non-empty
    string, and empty otherwise; [addUser], [searchUsers] and [getUsers]
    take no token and send none.  With a token that is accepted, or
    none taken, the request is issued. *)
Theorem operation_authorization (c : call) (w : world) :
  is_picture c = false ->
  (forall rq, sent (snd (run c w)) = sent w ++ [rq] ->
     request_object rq "headers" = Some (Obj KPlain (auth_headers c)))
  /\ (match token_of c with Some t => token_ok t = true | None => True end ->
      exists rq, sent (snd (run c w)) = sent w ++ [rq]).
Proof.
  intros Hpic. split.
  - intros rq Hs.
    destruct (run_sent c w) as [(p & w1 & Hp & _ & Hs')|[Hs' _]].
    + rewrite Hs' in Hs. apply app_inj_tail in Hs as [_ <-].
      rewrite request_headers_issued. by erewrite prepare_spread.
    + rewrite Hs' in Hs. by apply snoc_not_self in Hs.
  - intros Hok. destruct (prepare_ok c w Hpic Hok) as (p & w1 & Hp).
    destruct (run_sent c w) as [(p' & w1' & _ & _ & Hs')|(_ & Hn & _)]; [eauto|].
    by apply Hn in Hp.
Qed.



Lemma attach_done_extends t w hv w1 :
  attachAuthTokenToHeader t VUndef w = (Done hv, w1) -> extends (heap w) (heap w1).
Proof.
  intros Ha. destruct (attach_cases t w) as [(hv' & w1' & Ha' & He)|(e & w1' & Ha')];
    rewrite Ha in Ha'; [by injection Ha' as <- <- | discriminate].
Qed.

Lemma getFeedPosts_params (b u t : value) (o : feed_options) (w : world)
    (rq : request) :
  sent (snd (getFeedPosts b u t o w)) = sent w ++ [rq] ->
  request_object rq "params" = Some (feed_params o).
Proof.
  intros Hs.
  destruct (run_sent (GetFeedPosts b u t o) w) as [(p & w1 & Hp & _ & Hs')|[Hs' _]];
    cbn [run] in Hs'; rewrite Hs' in Hs; [|by apply snoc_not_self in Hs].
  apply app_inj_tail in Hs as [_ <-].
  unfold prepare in Hp. cbv zeta in Hp.
  set (w0 := World (heap w ++ [plain []]) (sent w)) in *.
  rewrite (bind_done _ _ _ (VRef (length (heap w))) w0) in Hp by done.
  unfold feed_params. cbv zeta.
  destruct (truthy _).
  - erewrite bind_done in Hp by reflexivity.
    apply bind_done_inv in Hp as (hv & w2 & Ha & Hp). injection Hp as <- <-.
    apply attach_done_extends in Ha.
    eapply request_params_issued; [reflexivity|]. apply Ha. apply lookup_snoc.
  - erewrite bind_done in Hp by reflexivity.
    apply bind_done_inv in Hp as (hv & w2 & Ha & Hp). injection Hp as <- <-.
    apply attach_done_extends in Ha.
    eapply request_params_issued; [reflexivity|]. apply Ha. apply lookup_snoc.
Qed.

(** X17.  The [params] of the request of [getFeedPosts] are empty when
    [onlyIds], [limit], [offset] and [sorting] are all falsy.  Otherwise
    they have the four entries [onlyPKeys], [limit], [offset] and
    [sort] with the values passed, [undefined] for one left out and
    [false] for [onlyIds] left out. *)
Theorem getFeedPosts_query (b u t : value) (o : feed_options) (w : world)
    (rq : request) :
  sent (snd (getFeedPosts b u t o w)) = sent w ++ [rq] ->
  request_object rq "params" = Some (feed_params o)
  /\ (request_object rq "params" = Some (plain [])
      \/ exists po, request_object rq "params" = Some po
                    /\ props po !! "onlyPKeys"
                       = Some (or_default (fo_onlyIds o) (VBool false))
                    /\ props po !! "limit" = Some (fo_limit o)
                    /\ props po !! "offset" = Some (fo_offset o)
                    /\ props po !! "sort" = Some (fo_sorting o)).
Proof.
  intros Hs. apply getFeedPosts_params in Hs. split; [done|].
  rewrite Hs. unfold feed_params. cbv zeta.
  destruct (truthy _); [right | by left].
  eexists. split; [reflexivity|]. by repeat split.
Qed.

(** X18.  The request of [getFeedPosts] called as a method of a feed
    client never asks for keys only: its [params] have no [onlyPKeys],
    or have it [false], whatever is passed for [onlyIds]. *)
Theorem FeedServiceClient_getFeedPosts_onlyPKeys (client u t : value)
    (o : feed_options) (w : world) (rq : request) :
  sent (snd (FeedServiceClient.getFeedPosts client u t o w)) = sent w ++ [rq] ->
  exists po,
    request_object rq "params" = Some po
    /\ (props po !! "onlyPKeys" = None \/ props po !! "onlyPKeys" = Some (VBool false)).
Proof.
  unfold FeedServiceClient.getFeedPosts, bind at 1.
  pose proof (quiet_get_prop client "baseURL" w) as Hq.
  destruct (get_prop client "baseURL" w) as [[base|e|] w0] eqn:Hg; cbn [snd] in *.
  - apply get_prop_done_inv in Hg as [_ ->]. intros Hs.
    apply getFeedPosts_params in Hs. eexists. split; [exact Hs|].
    unfold feed_params. cbv zeta. cbn [fo_onlyIds fo_limit fo_offset fo_sorting or_default].
    destruct (truthy _); [right | left]; reflexivity.
  - rewrite Hq. intros Hs. by apply snoc_not_self in Hs.
  - rewrite Hq. intros Hs. by apply snoc_not_self in Hs.
Qed.

End MoreOperations.

(** ** [attachImageToRequest]: the other payloads *)

Lemma form_append_browser f es p e w :
  heap w !! f = Some (Obj (KFormData es) p) ->
  exists w',
    form_append (VRef f) e w = (Done tt, w')
    /\ heap w' !! f = Some (Obj (KFormData (es ++ [e])) p)
    /\ (forall j, f <> j -> heap w' !! j = heap w !! j)
    /\ sent w' = sent w.
Proof.
  intros Hf.
  destruct (set_kind_run f (KFormData (es ++ [e])) w _ Hf) as (w' & Hr & Hw).
  exists w'. split; [|done].
  unfold form_append. erewrite bind_done by by apply kind_of_ref. done.
Qed.

(** [appendDataToFormData] on a form of either implementation: the
    entry, its options and their [header]. *)
Lemma appendDataToFormData_options (K : list form_entry -> kind)
    (imageName data len : value) (f : loc) (es : list form_entry) (w : world) :
  K = KFormDataNode \/ K = KFormData ->
  heap w !! f = Some (Obj (K es) ∅) ->
  exists w',
    appendDataToFormData imageName (VRef f) data len w = (Done tt, w')
    /\ heap w' !! f
       = Some (Obj (K (es ++ [FormEntry "image" data (VRef (S (length (heap w))))])) ∅)
    /\ heap w' !! length (heap w)
       = Some (plain [("Content-Transfer-Encoding", str "binary")])
    /\ heap w' !! S (length (heap w))
       = Some (plain [("knownLength", len); ("contentType", str "image/*");
                      ("filename", imageName); ("header", VRef (length (heap w)))])
    /\ length (heap w') = S (S (length (heap w)))
    /\ (forall j x, f <> j -> heap w !! j = Some x -> heap w' !! j = Some x)
    /\ sent w' = sent w.
Proof.
  intros HK Hf. unfold appendDataToFormData.
  set (hd := plain [("Content-Transfer-Encoding", str "binary")]).
  set (w1 := World (heap w ++ [hd]) (sent w)).
  set (op := plain [("knownLength", len); ("contentType", str "image/*");
                    ("filename", imageName); ("header", VRef (length (heap w)))]).
  set (w2 := World (heap w1 ++ [op]) (sent w)).
  assert (length (heap w1) = S (length (heap w))) as Hl1.
  { unfold w1. cbn [heap]. rewrite length_app. cbn. lia. }
  pose proof (lookup_lt_Some _ _ _ Hf) as Hlt.
  assert (heap w2 !! f = Some (Obj (K es) ∅)) as Hf2 by (by do 2 apply extends_snoc).
  assert (exists w3,
    form_append (VRef f) (FormEntry "image" data (VRef (length (heap w1)))) w2 = (Done tt, w3)
    /\ heap w3 !! f
       = Some (Obj (K (es ++ [FormEntry "image" data (VRef (length (heap w1)))])) ∅)
    /\ (forall j, f <> j -> heap w3 !! j = heap w2 !! j)
    /\ sent w3 = sent w2) as (w3 & Hr & Hf3 & Ho3 & Hs3).
  { destruct HK as [-> | ->];
      [by apply form_append_run | by apply form_append_browser]. }
  assert (length (heap w3) = length (heap w2)) as Hlen.
  { unfold form_append in Hr. erewrite bind_done in Hr by (by apply kind_of_ref).
    destruct HK as [-> | ->]; cbn in Hr; injection Hr as <-; cbn [heap];
      by rewrite length_alter. }
  exists w3. rewrite <- Hl1.
  split; [|split; [done|split; [|split; [|split; [|split]]]]].
  - rewrite (bind_done _ _ _ (VRef (length (heap w))) w1) by done.
    rewrite (bind_done _ _ _ (VRef (length (heap w1))) w2) by done.
    exact Hr.
  - rewrite Ho3 by lia. apply extends_snoc. apply lookup_snoc.
  - rewrite Ho3 by lia. apply lookup_snoc.
  - rewrite Hlen. unfold w2. cbn [heap]. rewrite length_app. cbn. lia.
  - intros j x Hj Hx. rewrite Ho3 by done. by do 2 apply extends_snoc.
  - done.
Qed.

Lemma default_headers_cases v w :
  exists hv w0,
    default_param v (new_object []) w = (Done hv, w0)
    /\ extends (heap w) (heap w0) /\ sent w0 = sent w
    /\ (v <> VUndef -> hv = v /\ w0 = w)
    /\ (v = VUndef -> hv = VRef (length (heap w))
                      /\ w0 = World (heap w ++ [plain []]) (sent w)).
Proof.
  destruct v;
    try (eexists _, w; split; [reflexivity|];
         split; [apply extends_refl|]; split; [done|]; by split).
  eexists _, _. split; [reflexivity|]. split; [apply extends_snoc|].
  split; [done|]. by split.
Qed.

Section MoreAttacher.

Context `{Env}.

(** The form when the payload is looked at: empty, or with the [JSON]
    entry. *)
Lemma attach_prefix_entries (c : image_config) (w0 : world) :
  exists es w2,
    (when (truthy (ic_otherData c))
       (fun w => form_append (VRef (length (heap w0)))
          (FormEntry "JSON" (JSON_stringify (ic_otherData c) (heap w)) VUndef) w))
      (World (heap w0 ++ [Obj (KFormDataNode []) ∅]) (sent w0)) = (Done tt, w2)
    /\ heap w2 !! length (heap w0) = Some (Obj (KFormDataNode es) ∅)
    /\ (forall j, length (heap w0) <> j ->
          heap w2 !! j = (heap w0 ++ [Obj (KFormDataNode []) ∅]) !! j)
    /\ sent w2 = sent w0
    /\ length (heap w2) = S (length (heap w0))
    /\ es = (if truthy (ic_otherData c)
             then [FormEntry "JSON"
                     (JSON_stringify (ic_otherData c)
                        (heap w0 ++ [Obj (KFormDataNode []) ∅])) VUndef]
             else []).
Proof.
  destruct (truthy (ic_otherData c)); cbn [when].
  - set (w1 := World (heap w0 ++ [Obj (KFormDataNode []) ∅]) (sent w0)).
    destruct (form_append_run (length (heap w0)) [] ∅
                (FormEntry "JSON" (JSON_stringify (ic_otherData c) (heap w1)) VUndef) w1)
      as (w2 & Hr & Hf & Ho & Hs); [apply lookup_snoc|].
    eexists _, w2. split; [exact Hr|]. split; [exact Hf|].
    split; [done|]. split; [done|]. split; [|done].
    unfold form_append in Hr. erewrite bind_done in Hr by (apply kind_of_ref, lookup_snoc).
    cbn in Hr. injection Hr as <-. cbn [heap]. rewrite length_alter, length_app. cbn. lia.
  - eexists [], _. split; [reflexivity|]. cbn [heap sent].
    split; [apply lookup_snoc|]. split; [done|]. split; [done|].
    split; [|done]. rewrite length_app. cbn. lia.
Qed.

(** The Node branch for a [Buffer], step by step. *)
Lemma attach_buffer_run (l : loc) (o : object) (bytes : list byte)
    (c : image_config) (w : world) :
  isNode = true -> heap w !! l = Some o -> o_kind o = KBuffer bytes ->
  exists hv w0 es w4,
    default_param (ic_headers c) (new_object []) w = (Done hv, w0)
    /\ es = (if truthy (ic_otherData c)
             then [FormEntry "JSON"
                     (JSON_stringify (ic_otherData c)
                        (heap w0 ++ [Obj (KFormDataNode []) ∅])) VUndef]
             else [])
    /\ heap w4 !! length (heap w0)
       = Some (Obj (KFormDataNode
                      (es ++ [FormEntry "image" (VRef l)
                                (VRef (S (S (length (heap w0)))))])) ∅)
    /\ heap w4 !! S (S (length (heap w0)))
       = Some (plain [("knownLength", field o "length");
                      ("contentType", str "image/*");
                      ("filename", or_default (ic_imageName c) (str "client-js.jpg"));
                      ("header", VRef (S (length (heap w0))))])
    /\ length (heap w4) = S (S (S (length (heap w0))))
    /\ (forall j x, length (heap w0) <> j -> heap w0 !! j = Some x ->
          heap w4 !! j = Some x)
    /\ attachImageToRequest (VRef l) c w
       = (Done (VRef (S (S (length (heap w4))))),
          World (heap w4
                 ++ [Obj (KBuffer
                       (getBuffer
                          (es ++ [FormEntry "image" (VRef l)
                                    (VRef (S (S (length (heap w0)))))])
                          (heap w4))) ∅]
                 ++ [Obj KPlain
                       (getHeaders
                          (es ++ [FormEntry "image" (VRef l)
                                    (VRef (S (S (length (heap w0)))))])
                        ∪ spread hv
                            (heap w4
                             ++ [Obj (KBuffer
                                   (getBuffer
                                      (es ++ [FormEntry "image" (VRef l)
                                                (VRef (S (S (length (heap w0)))))])
                                      (heap w4))) ∅]))]
                 ++ [plain [("data", VRef (length (heap w4)));
                            ("headers", VRef (S (length (heap w4))))]])
            (sent w)).
Proof.
  intros Hn Hl Hk.
  destruct (default_headers_cases (ic_headers c) w) as (hv & w0 & Hd & He0 & Hs0 & _).
  pose proof (He0 _ _ Hl) as Hl0.
  destruct (attach_prefix_entries c w0) as (es & w2 & Hp & Hf2 & Ho2 & Hs2 & Hlen2 & Hes).
  assert (length (heap w0) <> l) as Hfl by (apply lookup_lt_Some in Hl0; lia).
  assert (heap w2 !! l = Some o) as Hl2.
  { rewrite Ho2 by done. by apply extends_snoc. }
  destruct (appendDataToFormData_options KFormDataNode
              (or_default (ic_imageName c) (str "client-js.jpg"))
              (VRef l) (field o "length") (length (heap w0)) es w2)
    as (w4 & Ha & Hf4 & Hh4 & Ho4 & Hlen4 & Hfr4 & Hs4); [by left | done |].
  rewrite Hlen2 in *.
  exists hv, w0, es, w4.
  split; [done|]. split; [done|]. split; [done|]. split; [done|].
  split; [lia|]. split.
  { intros j x Hj Hx. apply Hfr4; [done|]. rewrite Ho2 by done. by apply extends_snoc. }
  unfold attachImageToRequest; cbv zeta.
  rewrite (bind_done _ _ _ _ _ Hd).
  erewrite bind_done by (by apply kind_of_ref).
  rewrite Hn, Hk.
  rewrite (bind_done _ _ _ (VRef (length (heap w0)))
             (World (heap w0 ++ [Obj (KFormDataNode []) ∅]) (sent w0))) by done.
  rewrite (bind_done _ _ _ _ _ Hp).
  erewrite (bind_done _ _ w2 tt w4); cycle 1.
  { erewrite bind_done by (by apply get_prop_ref). exact Ha. }
  erewrite bind_done by (by apply kind_of_ref). cbn [o_kind].
  unfold new_object, bind, alloc. cbn [heap sent].
  rewrite !length_app. cbn [length]. rewrite Hs4, Hs2, Hs0.
  rewrite <- !app_assoc, ?Nat.add_1_r.
  reflexivity.
Qed.

Lemma extends_length h1 h2 : extends h1 h2 -> length h1 <= length h2.
Proof.
  intros He. destruct (Nat.le_gt_cases (length h1) (length h2)) as [|Hgt]; [done|].
  destruct (lookup_lt_is_Some_2 h1 (length h2) Hgt) as [x Hx].
  apply He in Hx. apply lookup_lt_Some in Hx. lia.
Qed.

(** What the Node branch for a [Buffer] leaves in the heap. *)
Lemma attach_buffer_result (l : loc) (o : object) (bytes : list byte)
    (c : image_config) (w : world) :
  isNode = true -> heap w !! l = Some o -> o_kind o = KBuffer bytes ->
  exists fr w' f es options hdr d m hd,
    attachImageToRequest (VRef l) c w = (Done (VRef fr), w')
    /\ heap w' !! fr = Some (plain [("data", VRef d); ("headers", VRef m)])
    /\ heap w' !! f
       = Some (Obj (KFormDataNode
                      (es ++ [FormEntry "image" (VRef l) (VRef options)])) ∅)
    /\ (truthy (ic_otherData c) = false -> es = [])
    /\ (truthy (ic_otherData c) = true ->
        exists h0, es = [FormEntry "JSON" (JSON_stringify (ic_otherData c) h0) VUndef])
    /\ heap w' !! options
       = Some (plain [("knownLength", field o "length");
                      ("contentType", str "image/*");
                      ("filename", or_default (ic_imageName c) (str "client-js.jpg"));
                      ("header", VRef hdr)])
    /\ heap w' !! d
       = Some (Obj (KBuffer
                      (getBuffer (es ++ [FormEntry "image" (VRef l) (VRef options)]) hd)) ∅)
    /\ extends hd (heap w')
    /\ heap w !! d = None
    /\ heap w !! m = None
    /\ (ic_headers c = VUndef ->
        heap w' !! m
        = Some (Obj KPlain
                  (getHeaders (es ++ [FormEntry "image" (VRef l) (VRef options)]))))
    /\ (forall h0 ho, ic_headers c = VRef h0 -> heap w !! h0 = Some ho ->
        heap w' !! m
        = Some (Obj KPlain
                  (getHeaders (es ++ [FormEntry "image" (VRef l) (VRef options)])
                   ∪ props ho)))
    /\ extends (heap w) (heap w')
    /\ sent w' = sent w.
Proof.
  intros Hn Hl Hk.
  destruct (attach_buffer_run l o bytes c w Hn Hl Hk)
    as (hv & w0 & es & w4 & Hd & Hes & Hf4 & Ho4 & Hlen4 & Hfr4 & Hr).
  destruct (default_headers_cases (ic_headers c) w)
    as (hv' & w0' & Hd' & He0 & Hs0 & Hgiven & Habsent).
  rewrite Hd in Hd'. injection Hd' as <- <-.
  pose proof (He0 _ _ Hl) as Hl0.
  pose proof (extends_length _ _ He0) as Hle.
  assert (extends (heap w4)
            (heap (snd (attachImageToRequest (VRef l) c w)))) as He4.
  { rewrite Hr. cbn [snd heap]. rewrite !app_assoc.
    eapply extends_trans; [|apply extends_snoc].
    eapply extends_trans; apply extends_snoc. }
  rewrite Hr in He4. cbn [snd heap] in He4.
  set (entries := es ++ [FormEntry "image" (VRef l) (VRef (S (S (length (heap w0)))))]) in *.
  set (dbuf := Obj (KBuffer (getBuffer entries (heap w4))) ∅) in *.
  assert (forall j x, heap w0 !! j = Some x -> j <> length (heap w0) ->
            (heap w4 ++ [dbuf]) !! j = Some x) as Hkeep.
  { intros j x Hx Hj. apply extends_snoc, Hfr4; [by apply not_eq_sym | done]. }
  assert (forall P, (heap w4 ++ [dbuf] ++ [Obj KPlain P] ++
             [plain [("data", VRef (length (heap w4)));
                     ("headers", VRef (S (length (heap w4))))]]) !! S (length (heap w4))
            = Some (Obj KPlain P)) as Hm.
  { intros P. rewrite (app_assoc (heap w4)).
    replace (S (length (heap w4))) with (length (heap w4 ++ [dbuf]))
      by (rewrite length_app; cbn; lia).
    by apply list_lookup_middle. }
  eexists _, _, (length (heap w0)), es, (S (S (length (heap w0)))),
    (S (length (heap w0))), (length (heap w4)), (S (length (heap w4))), (heap w4).
  split; [exact Hr|]. cbn [heap sent].
  split.
  { rewrite !app_assoc, lookup_app_r by (rewrite !length_app; cbn; lia).
    rewrite !length_app. cbn [length].
    replace (S (S (length (heap w4))) - (length (heap w4) + 1 + 1)) with 0 by lia.
    reflexivity. }
  split; [by apply He4|].
  split; [intros Ht; by rewrite Ht in Hes|].
  split; [intros Ht; rewrite Ht in Hes; by eexists|].
  split; [by apply He4|].
  split; [by apply list_lookup_middle|].
  split; [done|].
  split; [apply lookup_ge_None; lia|].
  split; [apply lookup_ge_None; lia|].
  split; [|split; [|split; [|done]]].
  - intros Hu. destruct (Habsent Hu) as [-> ->]. cbn [heap] in *.
    rewrite Hm. do 2 f_equal.
    unfold spread. erewrite Hkeep; [|apply lookup_snoc|rewrite length_app; cbn; lia].
    cbn [props plain]. apply (right_id_L ∅ (∪)).
  - intros h0 ho Hh Hho.
    assert (ic_headers c <> VUndef) as Hnu by (by rewrite Hh).
    destruct (Hgiven Hnu) as [-> ->]. rewrite Hh in *.
    assert (h0 <> length (heap w)) as Hne by (apply lookup_lt_Some in Hho; lia).
    assert (spread (VRef h0) (heap w4 ++ [dbuf]) = props ho) as Hsp.
    { unfold spread. by erewrite Hkeep. }
    by rewrite Hm, Hsp.
  - intros j x Hx. rewrite !app_assoc. do 2 apply extends_snoc.
    apply Hkeep; [by apply He0|]. apply He0, lookup_lt_Some in Hx. lia.
Qed.

(** X19.  Under Node a [Buffer] is attached as it is, whatever its
    length (an empty one too): the form gets the entry [image] whose
    content is the buffer passed in (the same object, not a copy), after
    the [JSON] entry when [otherData] is truthy and as the only entry
    otherwise.  The options of the entry give the buffer's [length] as
    [knownLength], [image/*] as content type and the image name, or
    [client-js.jpg] when none is passed, as file name.  The [data] of
    the result is a new buffer, the serialisation of the form; the
    buffer passed in is left as it was and no request is issued. *)
Theorem attachImageToRequest_buffer (l : loc) (o : object) (bytes : list byte)
    (c : image_config) (w : world) :
  isNode = true -> heap w !! l = Some o -> o_kind o = KBuffer bytes ->
  exists fragment w' f es options d hd,
    attachImageToRequest (VRef l) c w = (Done fragment, w')
    /\ heap w' !! f
       = Some (Obj (KFormDataNode
                      (es ++ [FormEntry "image" (VRef l) (VRef options)])) ∅)
    /\ (truthy (ic_otherData c) = false -> es = [])
    /\ (truthy (ic_otherData c) = true ->
        exists h0, es = [FormEntry "JSON" (JSON_stringify (ic_otherData c) h0) VUndef])
    /\ read (heap w') (VRef options) "knownLength" = Some (field o "length")
    /\ read (heap w') (VRef options) "contentType" = Some (str "image/*")
    /\ read (heap w') (VRef options) "filename"
       = Some (or_default (ic_imageName c) (str "client-js.jpg"))
    /\ read (heap w') fragment "data" = Some (VRef d)
    /\ heap w' !! d
       = Some (Obj (KBuffer
                      (getBuffer (es ++ [FormEntry "image" (VRef l) (VRef options)]) hd)) ∅)
    /\ extends hd (heap w')
    /\ heap w !! d = None
    /\ heap w' !! l = Some o
    /\ sent w' = sent w.
Proof.
  intros Hn Hl Hk.
  destruct (attach_buffer_result l o bytes c w Hn Hl Hk)
    as (fr & w' & f & es & op & hdr & d & m & hd & Hr & Hfr & Hf & He1 & He2 & Hop
        & Hd & Hhd & Hnd & _ & _ & _ & He & Hs).
  exists (VRef fr), w', f, es, op, d, hd.
  split; [done|]. split; [done|]. split; [done|]. split; [done|].
  split; [by rewrite (read_ref _ _ _ _ Hop)|].
  split; [by rewrite (read_ref _ _ _ _ Hop)|].
  split; [by rewrite (read_ref _ _ _ _ Hop)|].
  split; [by rewrite (read_ref _ _ _ _ Hfr)|].
  split; [done|]. split; [done|]. split; [done|]. split; [by apply He | done].
Qed.


(** The kind of the payload after the default [headers] are made. *)
Lemma kind_of_default (node : bool) (v hd : value) (w : world) k :
  fst (kind_of v w) = Done k -> supported node k = false ->
  forall hv w0, default_param hd (new_object []) w = (Done hv, w0) ->
  exists k0, kind_of v w0 = (Done k0, w0) /\ supported node k0 = false.
Proof.
  intros Hk Hs hv w0 Hd.
  destruct (default_headers_cases hd w) as (hv' & w0' & Hd' & He0 & Hs0 & Hgiven & Habsent).
  rewrite Hd in Hd'. injection Hd' as <- <-.
  unfold kind_of in *. cbn [fst] in Hk. injection Hk as <-.
  eexists. split; [reflexivity|].
  destruct v as [| | | | |l]; try done.
  destruct (heap w !! l) as [x|] eqn:Hx.
  - by rewrite (He0 _ _ Hx).
  - destruct (decide (hd = VUndef)) as [Hu|Hu].
    + destruct (Habsent Hu) as [_ ->]. cbn [heap].
      apply lookup_ge_None in Hx.
      destruct (decide (l = length (heap w))) as [->|Hne].
      * rewrite lookup_snoc. by destruct node.
      * rewrite lookup_ge_None_2; [done|]. rewrite length_app. cbn. lia.
    + destruct (Hgiven Hu) as [_ ->]. by rewrite Hx.
Qed.

(** X21.  A payload of any other kind is refused: under Node whatever is
    neither a [Buffer] nor a [Readable] (a [Blob], a browser's
    [FormData], a string, [undefined], ...), in a browser whatever is
    neither a [FormData] nor a [Blob] (a [Buffer] among them).  The call
    throws a new [Error] naming the kinds supported in that environment;
    the objects of the caller are left as they were and no request is
    issued. *)
Theorem attachImageToRequest_unsupported (imageData : value) (c : image_config)
    (w : world) (k : option kind) :
  fst (kind_of imageData w) = Done k -> supported isNode k = false ->
  exists e w',
    attachImageToRequest imageData c w = (Raised (VRef e), w')
    /\ heap w' !! e = Some (Obj (KError (lit (unsupported_message isNode))) ∅)
    /\ heap w !! e = None
    /\ extends (heap w) (heap w')
    /\ sent w' = sent w.
Proof.
  intros Hk Hs.
  destruct (default_headers_cases (ic_headers c) w) as (hv & w0 & Hd & He0 & Hs0 & _).
  destruct (kind_of_default isNode imageData (ic_headers c) w k Hk Hs hv w0 Hd)
    as (k0 & Hk0 & Hs0').
  pose proof (extends_length _ _ He0) as Hle.
  unfold attachImageToRequest; cbv zeta.
  rewrite (bind_done _ _ _ _ _ Hd), (bind_done _ _ _ _ _ Hk0).
  destruct isNode eqn:Hn.
  - destruct (attach_prefix_entries c w0) as (es & w2 & Hp & Hf2 & Ho2 & Hs2 & Hlen2 & _).
    rewrite (bind_done _ _ _ (VRef (length (heap w0)))
               (World (heap w0 ++ [Obj (KFormDataNode []) ∅]) (sent w0))) by done.
    rewrite (bind_done _ _ _ _ _ Hp).
    eexists _, _. split.
    { apply bind_raised.
      destruct k0 as [[]|]; try discriminate; reflexivity. }
    cbn [heap sent]. split; [exact (lookup_snoc _ _)|].
    split; [apply lookup_ge_None; lia|].
    split; [|by rewrite Hs2].
    intros j x Hx. apply extends_snoc.
    pose proof (lookup_lt_Some _ _ _ Hx).
    rewrite Ho2 by lia. by apply extends_snoc, He0.
  - eexists _, _. split.
    { destruct k0 as [[]|]; try discriminate; reflexivity. }
    cbn [heap sent]. split; [exact (lookup_snoc _ _)|].
    split; [apply lookup_ge_None; rewrite length_app; cbn; lia|].
    split; [|done].
    intros j x Hx. by do 2 apply extends_snoc; apply He0.
Qed.

(** X22.  In a browser a [FormData] is passed on as it is, provided it
    has an entry [image]: the [data] of the result is the form passed
    in (the same object) and its [headers] the mapping passed in, not a
    copy.  Nothing is added to the form, so the image name and
    [otherData] have no effect.  A form without an entry [image] makes
    the call throw a new [Error].  In either case the objects of the
    caller are left as they were and no request is issued. *)
Theorem attachImageToRequest_browser_form (l : loc) (o : object)
    (es : list form_entry) (c : image_config) (w : world) :
  isNode = false -> heap w !! l = Some o -> o_kind o = KFormData es ->
  (has_field "image" es = false ->
   exists e w',
     attachImageToRequest (VRef l) c w = (Raised (VRef e), w')
     /\ heap w' !! e = Some (Obj (KError (lit no_image_message)) ∅)
     /\ heap w !! e = None
     /\ extends (heap w) (heap w') /\ sent w' = sent w)
  /\ (has_field "image" es = true ->
      exists fragment w',
        attachImageToRequest (VRef l) c w = (Done fragment, w')
        /\ read (heap w') fragment "data" = Some (VRef l)
        /\ (ic_headers c <> VUndef ->
            read (heap w') fragment "headers" = Some (ic_headers c))
        /\ (ic_headers c = VUndef ->
            exists m, read (heap w') fragment "headers" = Some (VRef m)
                      /\ heap w !! m = None /\ heap w' !! m = Some (plain []))
        /\ extends (heap w) (heap w') /\ sent w' = sent w).
Proof.
  intros Hn Hl Hk.
  destruct (default_headers_cases (ic_headers c) w)
    as (hv & w0 & Hd & He0 & Hs0 & Hgiven & Habsent).
  pose proof (He0 _ _ Hl) as Hl0.
  pose proof (extends_length _ _ He0) as Hle.
  split; intros Hi;
    unfold attachImageToRequest; cbv zeta;
    rewrite (bind_done _ _ _ _ _ Hd);
    (erewrite bind_done by (by apply kind_of_ref));
    rewrite Hn, Hk, Hi; cbn [negb].
  - eexists _, _. split; [reflexivity|]. cbn [heap sent].
    split; [apply lookup_snoc|]. split; [apply lookup_ge_None; lia|].
    split; [|done]. intros j x Hx. by apply extends_snoc, He0.
  - eexists _, _. split; [reflexivity|]. cbn [heap sent].
    split; [by rewrite read_snoc|].
    split; [intros Hu; destruct (Hgiven Hu) as [-> _]; by rewrite read_snoc|].
    split.
    { intros Hu. destruct (Habsent Hu) as [-> ->]. cbn [heap].
      exists (length (heap w)). rewrite read_snoc.
      split; [done|]. split; [apply lookup_ge_None; lia|].
      apply extends_snoc, lookup_snoc. }
    split; [|done]. intros j x Hx. by apply extends_snoc, He0.
Qed.

(** X23.  In a browser a [Blob] is put into a new [FormData] as its
    only entry, [image], whose content is the blob passed in and whose
    options give the blob's [size] as [knownLength] and the image name,
    or [client-js.jpg], as file name.  The [data] of the result is that
    form and its [headers] the mapping passed in, not a copy; the
    objects of the caller are left as they were and no request is
    issued. *)
Theorem attachImageToRequest_browser_blob (l : loc) (o : object)
    (bytes : list byte) (c : image_config) (w : world) :
  isNode = false -> heap w !! l = Some o -> o_kind o = KBlob bytes ->
  exists fragment w' f options,
    attachImageToRequest (VRef l) c w = (Done fragment, w')
    /\ read (heap w') fragment "data" = Some (VRef f)
    /\ heap w !! f = None
    /\ heap w' !! f
       = Some (Obj (KFormData [FormEntry "image" (VRef l) (VRef options)]) ∅)
    /\ read (heap w') (VRef options) "knownLength" = Some (field o "size")
    /\ read (heap w') (VRef options) "contentType" = Some (str "image/*")
    /\ read (heap w') (VRef options) "filename"
       = Some (or_default (ic_imageName c) (str "client-js.jpg"))
    /\ (ic_headers c <> VUndef ->
        read (heap w') fragment "headers" = Some (ic_headers c))
    /\ extends (heap w) (heap w') /\ sent w' = sent w.
Proof.
  intros Hn Hl Hk.
  destruct (default_headers_cases (ic_headers c) w)
    as (hv & w0 & Hd & He0 & Hs0 & Hgiven & _).
  pose proof (He0 _ _ Hl) as Hl0.
  pose proof (extends_length _ _ He0) as Hle.
  pose proof (lookup_lt_Some _ _ _ Hl0) as Hlt.
  set (w1 := World (heap w0 ++ [Obj (KFormData []) ∅]) (sent w0)).
  destruct (appendDataToFormData_options KFormData
              (or_default (ic_imageName c) (str "client-js.jpg"))
              (VRef l) (field o "size") (length (heap w0)) [] w1)
    as (w3 & Ha & Hf3 & Hh3 & Ho3 & Hlen3 & Hfr3 & Hs3);
    [by right | apply lookup_snoc |].
  assert (length (heap w1) = S (length (heap w0))) as Hl1
    by (unfold w1; cbn [heap]; rewrite length_app; cbn; lia).
  rewrite Hl1 in *.
  exists (VRef (length (heap w3))),
    (World (heap w3 ++ [plain [("data", VRef (length (heap w0))); ("headers", hv)]])
       (sent w3)),
    (length (heap w0)), (S (S (length (heap w0)))).
  split.
  { unfold attachImageToRequest; cbv zeta.
    rewrite (bind_done _ _ _ _ _ Hd).
    erewrite bind_done by (by apply kind_of_ref).
    rewrite Hn, Hk.
    rewrite (bind_done _ _ _ (VRef (length (heap w0))) w1) by done.
    erewrite (bind_done _ _ w1 tt w3); [reflexivity|].
    erewrite bind_done by (apply get_prop_ref; by apply extends_snoc).
    exact Ha. }
  cbn [heap sent].
  split; [by rewrite read_snoc|].
  split; [apply lookup_ge_None; lia|].
  split; [by apply extends_snoc|].
  split; [by rewrite (read_ref _ _ _ _ (extends_snoc _ _ _ _ Ho3))|].
  split; [by rewrite (read_ref _ _ _ _ (extends_snoc _ _ _ _ Ho3))|].
  split; [by rewrite (read_ref _ _ _ _ (extends_snoc _ _ _ _ Ho3))|].
  split; [intros Hu; destruct (Hgiven Hu) as [-> _]; by rewrite read_snoc|].
  split; [|by rewrite Hs3].
  intros j x Hx. apply extends_snoc, Hfr3.
  - apply lookup_lt_Some in Hx. lia.
  - by apply extends_snoc, He0.
Qed.

(** X24.  In a browser [otherData] is not looked at: the result, the
    heap and the requests are the same whatever is passed for it. *)
Theorem attachImageToRequest_browser_otherData (imageData headers otherData imageName : value)
    (w : world) :
  isNode = false ->
  attachImageToRequest imageData (ImageConfig headers otherData imageName) w
  = attachImageToRequest imageData (ImageConfig headers VUndef imageName) w.
Proof.
  intros Hn. unfold attachImageToRequest. by rewrite Hn.
Qed.

End MoreAttacher.

(** ** [attachAuthTokenToHeader], the helpers and the client objects *)

(** X25.  Given a mapping, [attachAuthTokenToHeader] changes nothing at
    all when the token is absent or empty.  With a token accepted it
    changes that mapping alone, and of it the entry [Authorization]
    alone (one already there is replaced); doing so a second time with
    the same token changes nothing. *)
Theorem attachAuthTokenToHeader_given_mapping (t : value) (l : loc) (o : object)
    (w : world) :
  heap w !! l = Some o ->
  (truthy t = false -> attachAuthTokenToHeader t (VRef l) w = (Done VUndef, w))
  /\ (forall s, t = VStr s -> s <> [] -> has_ws s = false ->
      exists o' w',
        attachAuthTokenToHeader t (VRef l) w = (Done (VRef l), w')
        /\ heap w' !! l = Some o'
        /\ o_kind o' = o_kind o
        /\ (forall key, key <> "Authorization" -> props o' !! key = props o !! key)
        /\ (forall j, j <> l -> heap w' !! j = heap w !! j)
        /\ length (heap w') = length (heap w)
        /\ sent w' = sent w
        /\ attachAuthTokenToHeader t (VRef l) w' = (Done (VRef l), w')).
Proof.
  intros Hl. split.
  - intros Ht. unfold attachAuthTokenToHeader, bind. cbn [default_param ret].
    by rewrite Ht.
  - intros s -> Hs Hw.
    pose proof (lookup_lt_Some _ _ _ Hl) as Hlt.
    eexists _, _. split; [by apply attach_given|]. cbn [heap sent].
    split; [by rewrite list_lookup_insert_eq|].
    split; [done|].
    split; [intros key Hkey; cbn [props]; by rewrite lookup_insert_ne|].
    split; [intros j Hj; by rewrite list_lookup_insert_ne|].
    split; [by rewrite length_insert|].
    split; [done|].
    erewrite attach_given; [|done|done|cbn [heap]; by rewrite list_lookup_insert_eq].
    cbn [heap sent o_kind props].
    by rewrite list_insert_insert_eq, insert_insert_eq.
Qed.

Lemma attachAuthTokenToHeader_given_mapping_witness :
  attachAuthTokenToHeader VUndef (VRef 5%nat) payload_world = (Done VUndef, payload_world)
  /\ exists o' w',
       attachAuthTokenToHeader (str "abc") (VRef 5%nat) payload_world = (Done (VRef 5%nat), w')
       /\ heap w' !! 5%nat = Some o'
       /\ props o' !! "Accept" = Some (str "*/*").
Proof.
  destruct (attachAuthTokenToHeader_given_mapping VUndef 5%nat
              (plain [("Accept", str "*/*")]) payload_world eq_refl) as [Hf _].
  split; [exact (Hf eq_refl)|].
  destruct (attachAuthTokenToHeader_given_mapping (str "abc") 5%nat
              (plain [("Accept", str "*/*")]) payload_world eq_refl) as [_ Hs].
  destruct (Hs (lit "abc") eq_refl ltac:(discriminate) eq_refl)
    as (o' & w' & Hr & Ho & _ & Hk & _).
  exists o', w'. split; [exact Hr|]. split; [exact Ho|].
  rewrite Hk by discriminate. reflexivity.
Defined.

(** X26.  A token that is a non-zero number or [true] makes
    [attachAuthTokenToHeader] throw a [TypeError] (such a value has no
    [split]); a mapping passed in, like every other object, is left as
    it was. *)
Theorem attachAuthTokenToHeader_not_a_string (t headers : value) (w : world) :
  (exists n, t = VNum n /\ n <> 0%Z) \/ t = VBool true ->
  exists e w',
    attachAuthTokenToHeader t headers w = (Raised (VRef e), w')
    /\ heap w' !! e = Some (Obj KTypeError ∅)
    /\ heap w !! e = None
    /\ extends (heap w) (heap w')
    /\ sent w' = sent w.
Proof.
  intros Ht.
  assert (truthy t = true) as Htr.
  { destruct Ht as [(n & -> & Hn)| ->]; [|done]. cbn. by destruct n. }
  destruct (default_headers_cases headers w) as (hv & w0 & Hd & He0 & Hs0 & _).
  pose proof (extends_length _ _ He0) as Hle.
  unfold attachAuthTokenToHeader.
  rewrite (bind_done _ _ _ _ _ Hd), Htr. cbn [negb].
  exists (length (heap w0)), (World (heap w0 ++ [Obj KTypeError ∅]) (sent w0)).
  split; [by destruct Ht as [(n & -> & Hn)| ->]|]. cbn [heap sent].
  split; [apply lookup_snoc|]. split; [apply lookup_ge_None; lia|].
  split; [|done]. intros j x Hx. by apply extends_snoc, He0.
Qed.

Lemma attachAuthTokenToHeader_not_a_string_witness :
  exists e w',
    attachAuthTokenToHeader (VNum 42) (VRef 5%nat) payload_world = (Raised (VRef e), w')
    /\ heap w' !! e = Some (Obj KTypeError ∅).
Proof.
  destruct (attachAuthTokenToHeader_not_a_string (VNum 42) (VRef 5%nat) payload_world)
    as (e & w' & Hr & He & _).
  { left. exists 42%Z. split; [reflexivity | discriminate]. }
  by exists e, w'.
Defined.

Section Helpers.

Context `{Env}.

(** X27.  None of the helpers issues a request: after
    [attachAuthTokenToHeader], [generateQueryParams],
    [calculateLimitOffset] and [attachImageToRequest] the requests are
    those issued before, whatever the arguments and however the call
    ends. *)
Theorem helpers_issue_no_request (w : world) :
  (forall t h, sent (snd (attachAuthTokenToHeader t h w)) = sent w)
  /\ (forall o, sent (snd (generateQueryParams o w)) = sent w)
  /\ (forall page perPage, sent (snd (calculateLimitOffset page perPage w)) = sent w)
  /\ (forall i c, sent (snd (attachImageToRequest i c w)) = sent w).
Proof.
  split; [intros t h; apply quiet_attachAuthTokenToHeader|].
  split; [intros o; apply quiet_generateQueryParams|].
  split; [done|].
  intros i c. apply quiet_attachImageToRequest.
Qed.

(** X28.  A method of a client object reads the client's [baseURL] when
    it is called and behaves as the exported function called with that
    base URL and the method's arguments.  [getUserBookmarks] and
    [deleteBookmark] do not use their first parameter, and
    [getFeedPosts] passes no [onlyIds] on. *)
Theorem client_method_call (cl : loc) (o : object) (first : value) (c : call)
    (w : world) :
  heap w !! cl = Some o ->
  method (VRef cl) first c w = run (as_called (field o "baseURL") c) w.
Proof.
  intros Hl.
  destruct c; unfold method, as_called, run;
    unfold UserServiceClient.getUser, UserServiceClient.addUser,
      UserServiceClient.deleteUser, UserServiceClient.updateUser,
      UserServiceClient.searchUsers, UserServiceClient.getUsers,
      UserServiceClient.addPostBookmark, UserServiceClient.getUserBookmarks,
      UserServiceClient.deleteBookmark, UserServiceClient.addProfilePicture,
      UserServiceClient.removeProfilePicture, FeedServiceClient.getFeedPosts,
      FeedServiceClient.subscribeToChannel; cbv zeta;
    (erewrite bind_done by (by apply get_prop_ref)); try reflexivity.
  - unfold searchUsers. cbv zeta.
    match goal with |- context [or_default (or_default ?p _) _] => by destruct p end.
  - unfold addProfilePicture. cbv zeta.
    match goal with |- context [or_default (or_default ?p _) _] => by destruct p end.
Qed.

End Helpers.

Lemma client_method_call_witness :
  let w := snd (NewUserServiceClient localhost module_init) in
  @method alice_env (VRef 1%nat) (str "ignored")
    (GetUserBookmarks VUndef (str "alice") VUndef) w
  = @run alice_env (GetUserBookmarks localhost (str "alice") VUndef) w.
Proof.
  cbv zeta.
  exact (@client_method_call alice_env 1%nat (plain [("baseURL", localhost)])
           (str "ignored") (GetUserBookmarks VUndef (str "alice") VUndef)
           (snd (NewUserServiceClient localhost module_init)) eq_refl).
Defined.

(** Witnesses of the properties of the operations. *)
Lemma operation_endpoint_witness :
  let c := UpdateUser localhost (str "alice") VUndef (str "secret") in
  request_field (last_request (snd (@run alice_env c module_init))) "url"
    = Some (str "http://localhost:8080/users/alice")
  /\ request_field (last_request (snd (@run alice_env c module_init))) "method"
     = Some (str "put").
Proof.
  cbv zeta.
  destruct (@operation_endpoint alice_env
              (UpdateUser localhost (str "alice") VUndef (str "secret")) module_init
              (last_request
                 (snd (@run alice_env
                         (UpdateUser localhost (str "alice") VUndef (str "secret"))
                         module_init))))
    as (_ & Hu & Hm); [vm_compute; reflexivity|].
  split; [exact Hu | exact Hm].
Defined.

Lemma operation_invalid_token_witness :
  exists e w',
    @run alice_env (DeleteUser localhost (str "alice") (str "a b")) module_init
    = (Raised (VRef e), w')
    /\ sent w' = [].
Proof.
  destruct (@operation_invalid_token alice_env
              (DeleteUser localhost (str "alice") (str "a b")) module_init (lit "a b")
              eq_refl)
    as (e & w' & Hr & _ & Hs).
  { exists 32%N. split; [vm_compute; tauto | reflexivity]. }
  by exists e, w'.
Defined.

Lemma operation_authorization_witness :
  let c := DeleteBookmark localhost (str "alice") (VNum 7) (str "secret") in
  exists rq,
    sent (snd (@run alice_env c module_init)) = [rq]
    /\ request_object rq "headers"
       = Some (Obj KPlain {[ "Authorization" := str "Bearer secret" ]}).
Proof.
  cbv zeta.
  destruct (@operation_authorization alice_env
              (DeleteBookmark localhost (str "alice") (VNum 7) (str "secret"))
              module_init eq_refl) as [Hh Hx].
  destruct (Hx eq_refl) as [rq Hs].
  exists rq. split; [exact Hs|]. exact (Hh rq Hs).
Defined.

Lemma getFeedPosts_query_witness :
  let o := FeedOptions (VNum 10) VUndef VUndef VUndef in
  request_object
    (last_request (snd (@getFeedPosts alice_env localhost (str "alice") VUndef o module_init)))
    "params"
  = Some (plain [("onlyPKeys", VBool false); ("limit", VNum 10);
                 ("offset", VUndef); ("sort", VUndef)]).
Proof.
  cbv zeta.
  exact (proj1 (@getFeedPosts_query alice_env localhost (str "alice") VUndef
           (FeedOptions (VNum 10) VUndef VUndef VUndef) module_init
           (last_request
              (snd (@getFeedPosts alice_env localhost (str "alice") VUndef
                      (FeedOptions (VNum 10) VUndef VUndef VUndef) module_init)))
           ltac:(vm_compute; reflexivity))).
Defined.

Lemma FeedServiceClient_getFeedPosts_onlyPKeys_witness :
  let w := snd (NewFeedServiceClient localhost module_init) in
  let o := FeedOptions (VNum 10) VUndef VUndef (VBool true) in
  exists po,
    request_object
      (last_request
         (snd (@FeedServiceClient.getFeedPosts alice_env (VRef 1%nat) (str "alice") VUndef o w)))
      "params" = Some po
    /\ (props po !! "onlyPKeys" = None \/ props po !! "onlyPKeys" = Some (VBool false)).
Proof.
  cbv zeta.
  exact (@FeedServiceClient_getFeedPosts_onlyPKeys alice_env (VRef 1%nat) (str "alice")
           VUndef (FeedOptions (VNum 10) VUndef VUndef (VBool true))
           (snd (NewFeedServiceClient localhost module_init))
           (last_request
              (snd (@FeedServiceClient.getFeedPosts alice_env (VRef 1%nat) (str "alice")
                      VUndef (FeedOptions (VNum 10) VUndef VUndef (VBool true))
                      (snd (NewFeedServiceClient localhost module_init)))))
           ltac:(vm_compute; reflexivity)).
Defined.

(** Witnesses of the properties of [attachImageToRequest]. *)
Lemma attachImageToRequest_buffer_witness :
  exists fragment w' f options,
    @attachImageToRequest alice_env (VRef 1%nat) (ImageConfig VUndef VUndef VUndef)
      payload_world = (Done fragment, w')
    /\ heap w' !! f
       = Some (Obj (KFormDataNode [FormEntry "image" (VRef 1%nat) (VRef options)]) ∅)
    /\ read (heap w') (VRef options) "knownLength" = Some (VNum 0)
    /\ read (heap w') (VRef options) "filename" = Some (str "client-js.jpg").
Proof.
  destruct (@attachImageToRequest_buffer alice_env 1%nat (Obj (KBuffer []) ∅) []
              (ImageConfig VUndef VUndef VUndef) payload_world eq_refl eq_refl eq_refl)
    as (fr & w' & f & es & op & d & hd & Hr & Hf & He & _ & Hk & _ & Hn & _).
  rewrite (He eq_refl) in Hf.
  by exists fr, w', f, op.
Defined.


Lemma attachImageToRequest_unsupported_witness :
  (exists e w',
     @attachImageToRequest alice_env (VRef 2%nat) (ImageConfig VUndef VUndef VUndef)
       payload_world = (Raised (VRef e), w')
     /\ heap w' !! e
        = Some (Obj (KError (lit "Only instances of Buffer or ReadStream supported for image data in node environment.")) ∅))
  /\ (exists e w',
        @attachImageToRequest browser_env (VRef 1%nat) (ImageConfig VUndef VUndef VUndef)
          payload_world = (Raised (VRef e), w')
        /\ heap w' !! e
           = Some (Obj (KError (lit "Only instances of FormData, Blob(File) supported for image data in browser environment.")) ∅)).
Proof.
  split.
  - destruct (@attachImageToRequest_unsupported alice_env (VRef 2%nat)
                (ImageConfig VUndef VUndef VUndef) payload_world
                (Some (KBlob [x01; x02])) eq_refl eq_refl)
      as (e & w' & Hr & He & _).
    by exists e, w'.
  - destruct (@attachImageToRequest_unsupported browser_env (VRef 1%nat)
                (ImageConfig VUndef VUndef VUndef) payload_world
                (Some (KBuffer [])) eq_refl eq_refl)
      as (e & w' & Hr & He & _).
    by exists e, w'.
Defined.

Lemma attachImageToRequest_browser_form_witness :
  (exists e w',
     @attachImageToRequest browser_env (VRef 4%nat) (ImageConfig VUndef VUndef VUndef)
       payload_world = (Raised (VRef e), w')
     /\ heap w' !! e = Some (Obj (KError (lit no_image_message)) ∅))
  /\ (exists fragment w',
        @attachImageToRequest browser_env (VRef 3%nat)
          (ImageConfig (VRef 5%nat) VUndef VUndef) payload_world = (Done fragment, w')
        /\ read (heap w') fragment "data" = Some (VRef 3%nat)
        /\ read (heap w') fragment "headers" = Some (VRef 5%nat)).
Proof.
  split.
  - destruct (@attachImageToRequest_browser_form browser_env 4%nat (Obj (KFormData []) ∅) []
                (ImageConfig VUndef VUndef VUndef) payload_world
                eq_refl eq_refl eq_refl) as [He _].
    destruct (He eq_refl) as (e & w' & Hr & Hm & _).
    by exists e, w'.
  - destruct (@attachImageToRequest_browser_form browser_env 3%nat
                (Obj (KFormData [FormEntry "image" (VRef 2%nat) VUndef]) ∅)
                [FormEntry "image" (VRef 2%nat) VUndef]
                (ImageConfig (VRef 5%nat) VUndef VUndef) payload_world
                eq_refl eq_refl eq_refl) as [_ Hd].
    destruct (Hd eq_refl) as (fr & w' & Hr & Hdata & Hh & _).
    exists fr, w'. split; [exact Hr|]. split; [exact Hdata|].
    apply Hh. discriminate.
Defined.

Lemma attachImageToRequest_browser_blob_witness :
  exists fragment w' f options,
    @attachImageToRequest browser_env (VRef 2%nat)
      (ImageConfig (VRef 5%nat) VUndef (str "me.png")) payload_world = (Done fragment, w')
    /\ heap w' !! f
       = Some (Obj (KFormData [FormEntry "image" (VRef 2%nat) (VRef options)]) ∅)
    /\ read (heap w') (VRef options) "knownLength" = Some (VNum 2)
    /\ read (heap w') (VRef options) "filename" = Some (str "me.png").
Proof.
  destruct (@attachImageToRequest_browser_blob browser_env 2%nat
              (Obj (KBlob [x01; x02]) ∅) [x01; x02]
              (ImageConfig (VRef 5%nat) VUndef (str "me.png")) payload_world
              eq_refl eq_refl eq_refl)
    as (fr & w' & f & op & Hr & _ & _ & Hf & Hk & _ & Hn & _).
  by exists fr, w', f, op.
Defined.

Lemma attachImageToRequest_browser_otherData_witness :
  @attachImageToRequest browser_env (VRef 2%nat)
    (ImageConfig VUndef (VRef 5%nat) VUndef) payload_world
  = @attachImageToRequest browser_env (VRef 2%nat)
      (ImageConfig VUndef VUndef VUndef) payload_world.
Proof.
  exact (@attachImageToRequest_browser_otherData browser_env (VRef 2%nat) VUndef
           (VRef 5%nat) VUndef payload_world eq_refl).
Defined.

(** ** Bodies and the profile picture *)

Section Bodies.

Context `{Env}.

Lemma prepare_data (c : call) (w : world) p w1 :
  is_picture c = false -> prepare c w = (Done p, w1) ->
  if is_subscription c
  then exists d, rc_data (snd p) = VRef d /\ heap w !! d = None
                 /\ heap w1 !! d = Some (plain [("channelname", channel_of c)])
  else rc_data (snd p) = data_of c.
Proof.
  intros Hpic.
  destruct c; try discriminate; unfold prepare; cbv zeta;
    cbn [is_subscription data_of channel_of]; intros Hp;
    try (injection Hp as <- <-; reflexivity).
  all: repeat match goal with
         | Hb : bind (attachAuthTokenToHeader _ _) _ _ = (Done _, _) |- _ =>
             apply bind_done_inv in Hb as (? & ? & Ha & Hb);
             apply attach_done_extends, extends_length in Ha
         | Hb : bind _ _ _ = (Done _, _) |- _ =>
             apply bind_done_inv in Hb as (? & ? & ? & Hb)
         end;
    injection Hp as <- <-; cbn [snd rc_data with_headers heap]; try done.
  match goal with
  | Hk : new_object _ _ = (Done _, _) |- _ => injection Hk as <- <-
  end.
  eexists. split; [reflexivity|]. cbn [heap].
  split; [apply lookup_ge_None; lia | apply lookup_snoc].
Qed.

(** X29.  The body of the request.  [addUser] and [updateUser] send the
    user object they are given, itself; [subscribeToChannel] sends a new
    object whose only entry is [channelname]; every other operation
    except [addProfilePicture] sends no body. *)
Theorem operation_body (c : call) (w : world) (rq : request) :
  is_picture c = false ->
  sent (snd (run c w)) = sent w ++ [rq] ->
  if is_subscription c
  then exists d, request_field rq "data" = Some (VRef d)
                 /\ heap w !! d = None
                 /\ snd rq !! d = Some (plain [("channelname", channel_of c)])
  else request_field rq "data" = Some (data_of c).
Proof.
  intros Hpic Hs.
  destruct (run_sent c w) as [(p & w1 & Hp & _ & Hs')|[Hs' _]].
  - rewrite Hs' in Hs. apply app_inj_tail in Hs as [_ <-].
    pose proof (prepare_data c w p w1 Hpic Hp) as Hd.
    rewrite request_field_issued.
    change (field (config_object (fst p) (snd p) (length (heap w1))) "data")
      with (rc_data (snd p)).
    destruct (is_subscription c).
    + destruct Hd as (d & -> & Hn & Hd). exists d. split; [done|]. split; [done|].
      rewrite issued_eq. cbn [snd]. by apply extends_app.
    + by rewrite Hd.
  - rewrite Hs' in Hs. by apply snoc_not_self in Hs.
Qed.

End Bodies.

Lemma operation_body_witness :
  request_field
    (last_request
       (snd (@run alice_env (AddUser localhost (VRef CONNECTION_ERROR)) module_init)))
    "data" = Some (VRef CONNECTION_ERROR)
  /\ exists d,
       request_field
         (last_request
            (snd (@run alice_env
                    (SubscribeToChannel localhost (str "alice") (str "news") VUndef)
                    module_init)))
         "data" = Some (VRef d).
Proof.
  split.
  - exact (@operation_body alice_env (AddUser localhost (VRef CONNECTION_ERROR))
             module_init
             (last_request
                (snd (@run alice_env (AddUser localhost (VRef CONNECTION_ERROR))
                        module_init)))
             eq_refl ltac:(vm_compute; reflexivity)).
  - destruct (@operation_body alice_env
                (SubscribeToChannel localhost (str "alice") (str "news") VUndef)
                module_init
                (last_request
                   (snd (@run alice_env
                           (SubscribeToChannel localhost (str "alice") (str "news") VUndef)
                           module_init)))
                eq_refl ltac:(vm_compute; reflexivity)) as (d & Hd & _).
    by exists d.
Defined.

(** What [attachAuthTokenToHeader] returns for a token it accepts. *)
Lemma attach_ok_cases (t : value) (w : world) :
  token_ok t = true ->
  (attachAuthTokenToHeader t VUndef w
     = (Done VUndef, World (heap w ++ [plain []]) (sent w))
   /\ auth_of t = ∅)
  \/ attachAuthTokenToHeader t VUndef w
       = (Done (VRef (length (heap w))),
          World (heap w ++ [Obj KPlain (auth_of t)]) (sent w)).
Proof.
  intros Hok. destruct (truthy t) eqn:Ht.
  - destruct t; cbn in Hok, Ht; try congruence.
    + by rewrite Ht in Hok.
    + by rewrite Ht in Hok.
    + apply negb_true_iff in Hok. right.
      rewrite attach_fresh by (by destruct s). by destruct s.
  - left. unfold attachAuthTokenToHeader, bind. cbn [default_param new_object alloc].
    rewrite Ht. split; [done|]. destruct t; try done. by destruct s.
Qed.

Section Picture.

Context `{Env}.

(** X30.  [addProfilePicture] with a [Buffer] under Node and a token
    accepted issues one request.  Its body is the serialisation of a
    form whose only entry is [image], the buffer passed in, under the
    image name given, or [client-js.jpg]; its headers are those of the
    form together with the [Authorization] made from the token, the
    form's winning where both have a key. *)
Theorem addProfilePicture_buffer (b u t n : value) (l : loc) (o : object)
    (bytes : list byte) (w : world) :
  isNode = true -> heap w !! l = Some o -> o_kind o = KBuffer bytes ->
  token_ok t = true ->
  exists rq options d hd,
    sent (snd (addProfilePicture b u t (VRef l) n w)) = sent w ++ [rq]
    /\ request_field rq "data" = Some (VRef d)
    /\ heap w !! d = None
    /\ snd rq !! d
       = Some (Obj (KBuffer
                      (getBuffer [FormEntry "image" (VRef l) (VRef options)] hd)) ∅)
    /\ read (snd rq) (VRef options) "filename"
       = Some (or_default n (str "client-js.jpg"))
    /\ request_object rq "headers"
       = Some (Obj KPlain
                 (getHeaders [FormEntry "image" (VRef l) (VRef options)] ∪ auth_of t)).
Proof.
  intros Hn Hl Hk Hok.
  assert (exists hv w1,
    attachAuthTokenToHeader t VUndef w = (Done hv, w1)
    /\ extends (heap w) (heap w1)
    /\ ((hv = VUndef /\ auth_of t = ∅)
        \/ exists h0, hv = VRef h0 /\ heap w1 !! h0 = Some (Obj KPlain (auth_of t))))
    as (hv & w1 & Ha & He1 & Hhv).
  { destruct (attach_ok_cases t w Hok) as [[Ha Hau]|Ha]; eexists _, _;
      (split; [exact Ha|]); cbn [heap]; (split; [apply extends_snoc|]).
    - by left.
    - right. eexists. split; [reflexivity | apply lookup_snoc]. }
  pose proof (extends_length _ _ He1) as Hle.
  set (c := ImageConfig hv VUndef (or_default n (str "client-js.jpg"))).
  destruct (attach_buffer_result l o bytes c w1 Hn (He1 _ _ Hl) Hk)
    as (fr & w' & f & es & op & hdr & d & m & hd & Hr & Hfr & Hf & Hes & _ & Hop
        & Hd & Hhd & Hnd & Hnm & Hu & Hg & He & Hs).
  rewrite (Hes eq_refl) in *. cbn [app] in *.
  set (entries := [FormEntry "image" (VRef l) (VRef op)]) in *.
  assert (heap w' !! m = Some (Obj KPlain (getHeaders entries ∪ auth_of t))) as Hm.
  { destruct Hhv as [[-> Hau]|(h0 & -> & Hh0)].
    - rewrite Hau, (Hu eq_refl). by rewrite (right_id_L ∅ (∪)).
    - by rewrite (Hg h0 _ eq_refl Hh0). }
  set (URL := template [b; str "/users/"; u; str "/picture"]).
  set (rc := RequestConfig (str "put") VUndef (VRef m) (VRef d) VUndef VUndef).
  assert (prepare (AddProfilePicture b u t (VRef l) n) w = (Done (URL, rc), w')) as Hp.
  { unfold prepare.
    rewrite (bind_done _ _ _ _ _ Ha), (bind_done _ _ _ _ _ Hr).
    erewrite bind_done by (by apply get_prop_ref).
    erewrite bind_done by (by apply get_prop_ref).
    reflexivity. }
  destruct (run_sent (AddProfilePicture b u t (VRef l) n) w)
    as [(p & w2 & Hp' & _ & Hs')|(_ & Hnp & _)]; [|by apply Hnp in Hp].
  rewrite Hp in Hp'. injection Hp' as <- <-. cbn [run fst snd] in Hs'.
  exists (issued URL rc w'), op, d, hd.
  split; [done|].
  split; [by rewrite request_field_issued|].
  split.
  { apply lookup_ge_None. apply lookup_ge_None in Hnd. lia. }
  split; [rewrite issued_eq; cbn [snd]; by apply extends_app|].
  split.
  { rewrite issued_eq. cbn [snd].
    rewrite (read_ref _ _ _ _ (extends_app _ _ _ _ Hop)). by destruct n. }
  rewrite request_headers_issued. cbn [rc rc_headers]. unfold spread. by rewrite Hm.
Qed.

End Picture.

Lemma addProfilePicture_buffer_witness :
  exists rq d,
    sent (snd (@addProfilePicture alice_env localhost (str "alice") (str "secret")
                 (VRef 1%nat) VUndef payload_world)) = [rq]
    /\ request_field rq "data" = Some (VRef d)
    /\ request_object rq "headers"
       = Some (Obj KPlain {[ "Authorization" := str "Bearer secret" ]}).
Proof.
  destruct (@addProfilePicture_buffer alice_env localhost (str "alice") (str "secret")
              VUndef 1%nat (Obj (KBuffer []) ∅) [] payload_world
              eq_refl eq_refl eq_refl eq_refl)
    as (rq & op & d & hd & Hs & Hd & _ & _ & _ & Hh).
  exists rq, d. split; [exact Hs|]. split; [exact Hd|].
  rewrite Hh. reflexivity.
Defined.
